(** * FeedbackTrader: data adapters, frame standardisation, dispatcher and
    moving-average strategy.

    A shallow embedding of
      - src/data/adapters/akshare_adapter.py   (module [AkshareAdapter])
      - src/data/adapters/yfinance_adapter.py  (module [YfinanceAdapter])
      - src/data/adapters/csv_adapter.py       (module [CsvAdapter])
      - tests/akfinance.py                     (module [AKFinance])
      - src/strategy/SimpleMovingAverage.py    (module [MovingAverage])
    together with the fetch dispatcher of the specification (module
    [Fetcher]), and the properties established about them.

    Everything the Python code obtains from outside itself (installed
    packages, provider calls, the file system, pandas' date parser) is
    collected in the record [World]; each adapter is a function of the world
    and of its arguments. *)

From Stdlib Require Import ZArith QArith Bool Ascii String List Lia Sorted.
From Stdlib Require Import DecimalString.
From stdpp Require Import base option list strings gmap.
Import ListNotations.

Local Open Scope string_scope.
Local Open Scope list_scope.
Local Open Scope Z_scope.

(* ===================================================================== *)
(** ** Python strings *)
(* ===================================================================== *)

Module PyStr.

(** [str.lower] on one character: the ASCII capitals are shifted by 32,
    every other byte is left alone.  Strings are byte strings (UTF-8); the
    keywords and suffixes the code searches for are ASCII words, and
    lowercasing text outside ASCII cannot produce an occurrence of one of
    them. *)
Definition lower_ascii (c : ascii) : ascii :=
  let n := nat_of_ascii c in
  if ((65 <=? n) && (n <=? 90))%nat then ascii_of_nat (n + 32) else c.

(** [s.lower()] *)
Fixpoint lower (s : string) : string :=
  match s with
  | EmptyString => EmptyString
  | String c r => String (lower_ascii c) (lower r)
  end.

(** [s.startswith(p)] *)
Fixpoint startswith (p s : string) : bool :=
  match p, s with
  | EmptyString, _ => true
  | String a p', String b s' => Ascii.eqb a b && startswith p' s'
  | String _ _, EmptyString => false
  end.

(** [needle in hay] *)
Fixpoint contains (needle hay : string) : bool :=
  startswith needle hay
  || match hay with
     | EmptyString => false
     | String _ r => contains needle r
     end.

(** [s.endswith(suffix)] *)
Fixpoint endswith (suffix s : string) : bool :=
  String.eqb suffix s
  || match s with
     | EmptyString => false
     | String _ r => endswith suffix r
     end.

(** [x in (a, b, ...)] for a tuple of strings *)
Definition in_tuple (x : string) (t : list string) : bool :=
  existsb (String.eqb x) t.

(** The propositional reading of [needle in hay]. *)
Definition Substring (needle hay : string) : Prop :=
  exists pre post, hay = pre +:+ needle +:+ post.

(** [str.upper] on one character: the ASCII small letters are shifted by
    32, every other byte is left alone (the strings it is used on are ticker
    codes, which are ASCII). *)
Definition upper_ascii (c : ascii) : ascii :=
  let n := nat_of_ascii c in
  if ((97 <=? n) && (n <=? 122))%nat then ascii_of_nat (n - 32) else c.

(** [s.upper()] *)
Fixpoint upper (s : string) : string :=
  match s with
  | EmptyString => EmptyString
  | String c r => String (upper_ascii c) (upper r)
  end.

(** [s.replace(old, new)] for a non-empty [old]: the occurrences of [old]
    are found from left to right without overlap; [skip] counts the
    characters of a found occurrence that are still to be passed over. *)
Fixpoint replace_from (old new : string) (skip : nat) (s : string) : string :=
  match s with
  | EmptyString => EmptyString
  | String c r =>
      match skip with
      | S k => replace_from old new k r
      | O =>
          if startswith old s
          then new +:+ replace_from old new (String.length old - 1) r
          else String c (replace_from old new 0 r)
      end
  end.

Definition replace (old new s : string) : string := replace_from old new 0 s.

(** [all(p(c) for c in s)] *)
Fixpoint all_chars (p : ascii -> bool) (s : string) : bool :=
  match s with
  | EmptyString => true
  | String c r => p c && all_chars p r
  end.

(** [s.isascii()] *)
Definition is_ascii (s : string) : bool :=
  all_chars (fun c => (nat_of_ascii c <? 128)%nat) s.

(** [s.startswith((p1, p2, ...))] *)
Definition startswith_any (ps : list string) (s : string) : bool :=
  existsb (fun p => startswith p s) ps.

(** [s.split(sep)[0]] for a one-character separator: what comes before the
    first [sep], all of [s] when there is none. *)
Fixpoint split_first (sep : ascii) (s : string) : string :=
  match s with
  | EmptyString => EmptyString
  | String c r => if Ascii.eqb c sep then EmptyString
                  else String c (split_first sep r)
  end.

(** [s.split(sep)[-1]]: what comes after the last [sep], all of [s] when
    there is none. *)
Fixpoint split_last (sep : ascii) (s : string) : string :=
  match s with
  | EmptyString => EmptyString
  | String c r =>
      if all_chars (fun x => negb (Ascii.eqb x sep)) r
      then (if Ascii.eqb c sep then r else s)
      else split_last sep r
  end.

End PyStr.

(** Characters that are not a space, and characters [upper] leaves alone. *)
Definition not_space (c : ascii) : bool := negb (Ascii.eqb c " ").
Definition is_upper (c : ascii) : bool := Ascii.eqb (PyStr.upper_ascii c) c.

(** A ticker in normal form: no space, no small letter. *)
Definition normal_ticker (s : string) : Prop :=
  PyStr.all_chars not_space s = true /\ PyStr.all_chars is_upper s = true.

(* ===================================================================== *)
(** ** Exceptions and results *)
(* ===================================================================== *)

(** An exception raised by code outside the repository (a provider package,
    pandas, the operating system): its class name and [str(e)]. *)
Record PyException : Type := mkExc {
  exc_class : string;
  exc_str : string
}.

(** Modelled from the spec: src/data/exceptions.py is not among the sources.
    The two error kinds of the taxonomy, each carrying a message, as the
    adapters import and raise them; [Unclassified] is any other exception
    that leaves an adapter as it was raised. *)
Inductive Raised : Type :=
| AdapterError (msg : string)
| RateLimitError (msg : string)
| Unclassified (e : PyException).

(** What a [try] body of an adapter can raise: an [AdapterError] of the
    adapter's own ([raise AdapterError(...)]), or a foreign exception. *)
Inductive TryExc : Type :=
| Own (msg : string)
| Foreign (e : PyException).

Inductive result (E A : Type) : Type :=
| Ok (a : A)
| Raise (e : E).
Arguments Ok {E A} a.
Arguments Raise {E A} e.

Definition bind {E A B} (m : result E A) (k : A -> result E B) : result E B :=
  match m with
  | Ok a => k a
  | Raise e => Raise e
  end.

Notation "'do' x <- m ; k" := (bind m (fun x => k))
  (at level 10, x name, m at level 100, k at level 200).

(** Re-tag the exception of a computation. *)
Definition lift_exc {E E' A} (f : E -> E') (m : result E A) : result E' A :=
  match m with
  | Ok a => Ok a
  | Raise e => Raise (f e)
  end.

(** [for x in l: ...] collecting results, stopping at the first exception. *)
Fixpoint mapM {E A B} (f : A -> result E B) (l : list A) : result E (list B) :=
  match l with
  | [] => Ok []
  | x :: r => do y <- f x; do ys <- mapM f r; Ok (y :: ys)
  end.

(* ===================================================================== *)
(** ** Data frames *)
(* ===================================================================== *)

(** A point in time as pandas holds it: NaT, a timezone-naive timestamp
    (nanoseconds of wall-clock time since the epoch), or a timezone-aware
    one (nanoseconds since the epoch in UTC). *)
Inductive Timestamp : Type :=
| NaT
| TS (ns : Z)
| TSz (utc_ns : Z).

(** [a >= b] and [a <= b] between two timestamps of the same kind; any
    comparison with NaT is [False]. *)
Definition ts_ge (a b : Timestamp) : bool :=
  match a, b with
  | TS x, TS y => y <=? x
  | TSz x, TSz y => y <=? x
  | _, _ => false
  end.

Definition ts_le (a b : Timestamp) : bool :=
  match a, b with
  | TS x, TS y => x <=? y
  | TSz x, TSz y => x <=? y
  | _, _ => false
  end.

Definition ts_lt (a b : Timestamp) : Prop :=
  match a, b with
  | TS x, TS y => x < y
  | TSz x, TSz y => x < y
  | _, _ => False
  end.

(** Whether a timestamp is timezone-aware; NaT is neither. *)
Definition tz_of (t : Timestamp) : option bool :=
  match t with
  | NaT => None
  | TS _ => Some false
  | TSz _ => Some true
  end.

(** The check pandas makes before it compares a datetime index with a
    scalar: a timestamp must be timezone-aware exactly when the index is;
    NaT passes. *)
Definition tz_compatible (index_is_aware : bool) (t : Timestamp) : bool :=
  match tz_of t with
  | None => true
  | Some aware => Bool.eqb index_is_aware aware
  end.

(** Strictly ascending, hence free of duplicates (and of NaT). *)
Definition ascending (ts : list Timestamp) : Prop := StronglySorted ts_lt ts.

(** A cell of a frame (also an index label).  Floats are idealised as
    rationals. *)
Inductive Cell : Type :=
| CNaN
| CNum (q : Q)
| CStr (s : string)
| CTime (t : Timestamp).

Inductive IndexKind : Type :=
| RangeIndex         (* the default positional index 0..n-1 *)
| DatetimeIndex
| OtherIndex.        (* object / integer labels *)

Definition is_DatetimeIndex (k : IndexKind) : bool :=
  match k with DatetimeIndex => true | _ => false end.

(** A pandas DataFrame, row-wise: the kind of its index, the column names,
    per row the index label and the cells in column order, and whether the
    index is timezone-aware ([df.index.tz is not None]; [false] for an index
    that is not a datetime index).  Awareness belongs to the index, not to
    its labels: an index without rows has it too, and it is what pandas
    checks before a comparison. *)
Record DataFrame : Type := mkDF {
  index_kind : IndexKind;
  columns : list string;
  rows : list (Cell * list Cell);
  index_tz : bool
}.

(** [pd.DataFrame()] *)
Definition pd_DataFrame : DataFrame :=
  {| index_kind := RangeIndex; columns := []; rows := [];
     index_tz := false |}.

(** [df.empty]: some axis has length 0. *)
Definition df_empty (df : DataFrame) : bool :=
  match rows df, columns df with
  | [], _ => true
  | _, [] => true
  | _, _ => false
  end.

(** [len(df)] *)
Definition df_len (df : DataFrame) : nat := List.length (rows df).

(** [df.index] *)
Definition df_index (df : DataFrame) : list Cell := List.map fst (rows df).

(** The timestamps of a datetime index. *)
Definition cell_time (c : Cell) : Timestamp :=
  match c with CTime t => t | _ => NaT end.

Definition df_times (df : DataFrame) : list Timestamp :=
  List.map cell_time (df_index df).

(** [name in df.columns] *)
Definition has_column (name : string) (df : DataFrame) : bool :=
  existsb (String.eqb name) (columns df).

(** Position of the first column called [name]. *)
Fixpoint column_pos (name : string) (cols : list string) : option nat :=
  match cols with
  | [] => None
  | c :: r => if String.eqb name c then Some O
              else option_map S (column_pos name r)
  end.

Fixpoint remove_nth {A} (n : nat) (l : list A) : list A :=
  match n, l with
  | _, [] => []
  | O, _ :: r => r
  | S m, x :: r => x :: remove_nth m r
  end.

(** The cells of the column at position [pos], top to bottom. *)
Definition column_cells (pos : nat) (df : DataFrame) : list Cell :=
  List.map (fun r => nth pos (snd r) CNaN) (rows df).

(** [df.rename(columns=f)] for a renaming given as a function. *)
Definition rename_columns (f : string -> string) (df : DataFrame) : DataFrame :=
  {| index_kind := index_kind df;
     columns := List.map f (columns df);
     rows := rows df;
     index_tz := index_tz df |}.

(** [df[mask]] where the mask is computed from the index label. *)
Definition select_rows (keep : Cell -> bool) (df : DataFrame) : DataFrame :=
  {| index_kind := index_kind df;
     columns := columns df;
     rows := List.filter (fun r => keep (fst r)) (rows df);
     index_tz := index_tz df |}.

(** [df[name] = v] for a name that is not yet a column: a new last column
    holding [v] in every row. *)
Definition add_constant_column (name : string) (v : Cell) (df : DataFrame)
  : DataFrame :=
  {| index_kind := index_kind df;
     columns := columns df ++ [name];
     rows := List.map (fun r => (fst r, snd r ++ [v])) (rows df);
     index_tz := index_tz df |}.

(** Every row has one cell per column. *)
Definition well_formed (df : DataFrame) : Prop :=
  Forall (fun r => List.length (snd r) = List.length (columns df)) (rows df).

(** [name] is a column of [df] that holds [0.0] in every row. *)
Definition zero_column (name : string) (df : DataFrame) : Prop :=
  exists pos,
    column_pos name (columns df) = Some pos
    /\ Forall (fun r => nth pos (snd r) CNaN = CNum 0) (rows df).

(* ===================================================================== *)
(** ** The world outside the repository *)
(* ===================================================================== *)

Record World : Type := mkWorld {
  (** [import akshare] succeeds *)
  akshare_importable : bool;
  (** [import yfinance] succeeds *)
  yfinance_importable : bool;
  (** [ak.stock_zh_a_daily(symbol=, start_date=, end_date=)]; may return
      [None] *)
  ak_stock_zh_a_daily :
    string -> option string -> option string ->
    result PyException (option DataFrame);
  (** [yf.download(symbol, start=, end=, interval=, auto_adjust=,
      progress=False)] *)
  yf_download :
    string -> option string -> option string -> string -> bool ->
    result PyException (option DataFrame);
  (** pandas' conversion of one value that is not yet a timestamp *)
  pd_parse_datetime : Cell -> result PyException Timestamp;
  (** [os.getcwd()] *)
  os_getcwd : string;
  (** [os.path.join(a, b)] of the platform *)
  os_path_join : string -> string -> string;
  (** [os.path.exists(path)] *)
  os_path_exists : string -> bool;
  (** [pd.read_csv(path, parse_dates=True, index_col=0)] *)
  pd_read_csv : string -> result PyException DataFrame
}.

(** [posixpath.join(a, b)] *)
Definition posix_join (a b : string) : string :=
  if PyStr.startswith "/" b then b
  else if String.eqb a "" || PyStr.endswith "/" a then a +:+ b
  else a +:+ "/" +:+ b.

(** The timezone-awareness of the datetime index pandas builds from
    converted values: aware when they are, naive when none is aware (also
    when all are NaT or there is none); a mix of aware and naive values is
    refused. *)
Definition index_tz_of (ts : list Timestamp) : result PyException bool :=
  let aware := existsb (fun t => match t with TSz _ => true | _ => false end)
                       ts in
  let naive := existsb (fun t => match t with TS _ => true | _ => false end)
                       ts in
  if aware && naive then
    Raise {| exc_class := "ValueError";
             exc_str := "Cannot mix tz-aware with tz-naive values" |}
  else Ok aware.

(** The [TypeError] of comparing a datetime index with a timestamp of the
    other kind. *)
Definition tz_mismatch : PyException :=
  {| exc_class := "TypeError";
     exc_str := "Cannot compare tz-naive and tz-aware datetime-like objects" |}.

Section Pandas.
Variable W : World.

(** [pd.to_datetime(v)] of one value *)
Definition to_datetime (c : Cell) : result PyException Timestamp :=
  match c with
  | CTime t => Ok t
  | _ => pd_parse_datetime W c
  end.

(** [df.index = pd.to_datetime(df.index)] *)
Definition convert_index (df : DataFrame) : result PyException DataFrame :=
  do rs <- mapM (fun r => do t <- to_datetime (fst r); Ok (CTime t, snd r))
                (rows df);
  do aware <- index_tz_of (List.map (fun r => cell_time (fst r)) rs);
  Ok {| index_kind := DatetimeIndex; columns := columns df; rows := rs;
        index_tz := aware |}.

(** Converting the column at position [pos] and making it the index. *)
Definition set_datetime_index (pos : nat) (df : DataFrame)
  : result PyException DataFrame :=
  do rs <- mapM (fun r => do t <- to_datetime (nth pos (snd r) CNaN);
                          Ok (CTime t, remove_nth pos (snd r)))
                (rows df);
  do aware <- index_tz_of (List.map (fun r => cell_time (fst r)) rs);
  Ok {| index_kind := DatetimeIndex;
        columns := remove_nth pos (columns df);
        rows := rs;
        index_tz := aware |}.

(** [df[name] = pd.to_datetime(df[name]); df = df.set_index(name)].  With
    two columns of that name [df[name]] is a frame, which pandas refuses
    to convert. *)
Definition datetime_index_from (name : string) (df : DataFrame)
  : result PyException DataFrame :=
  if (1 <? count_occ string_dec (columns df) name)%nat then
    Raise {| exc_class := "ValueError";
             exc_str := "cannot assemble with duplicate keys" |}
  else
    match column_pos name (columns df) with
    | Some pos => set_datetime_index pos df
    | None => Raise {| exc_class := "KeyError"; exc_str := name |}
    end.

(** [pd.to_datetime(df[name])] refuses the column [name] with [e]: the name
    stands for more than one column, a value of the column is refused with
    [e], or all values convert and the converted values cannot make one
    index. *)
Definition date_column_refused (name : string) (df : DataFrame)
           (e : PyException) : Prop :=
  (1 < count_occ string_dec (columns df) name)%nat
  \/ exists pos,
      column_pos name (columns df) = Some pos
      /\ ((exists c, List.In c (column_cells pos df) /\ to_datetime c = Raise e)
          \/ exists ts,
              mapM to_datetime (column_cells pos df) = Ok ts
              /\ index_tz_of ts = Raise e).

(** [if not isinstance(df.index, pd.DatetimeIndex):
       df.index = pd.to_datetime(df.index)] *)
Definition ensure_datetime_index (df : DataFrame)
  : result PyException DataFrame :=
  if is_DatetimeIndex (index_kind df) then Ok df else convert_index df.

(** The timestamps a frame's index stands for: those it holds when it is a
    datetime index, those pandas converts its labels to otherwise. *)
Definition index_times (df : DataFrame) : result PyException (list Timestamp) :=
  if is_DatetimeIndex (index_kind df) then Ok (df_times df)
  else mapM to_datetime (df_index df).

End Pandas.

(* ===================================================================== *)
(** ** Rate-limit classification shared by the two network adapters *)
(* ===================================================================== *)

(** ['rate' in msg or 'limit' in msg or 'too many requests' in msg] *)
Definition rate_limit_wording (msg : string) : bool :=
  PyStr.contains "rate" msg
  || PyStr.contains "limit" msg
  || PyStr.contains "too many requests" msg.

(** The body of [except Exception as e:] in both adapters. *)
Definition classify (e : PyException) : Raised :=
  let msg := PyStr.lower (exc_str e) in
  if rate_limit_wording msg then RateLimitError (exc_str e)
  else AdapterError (exc_str e).

(** The propositional reading of the test: the message, lowercased, has
    rate-limit wording. *)
Definition RateLimitWording (msg : string) : Prop :=
  PyStr.Substring "rate" (PyStr.lower msg)
  \/ PyStr.Substring "limit" (PyStr.lower msg)
  \/ PyStr.Substring "too many requests" (PyStr.lower msg).

(* ===================================================================== *)
(** ** src/data/adapters/akshare_adapter.py *)
(* ===================================================================== *)

Module AkshareAdapter.
Section WithWorld.
Variable W : World.

(** The body of the outer [try]. *)
Definition fetch_body (symbol : string) (start end_ : option string)
           (interval : string) : result TryExc DataFrame :=
  if negb (akshare_importable W) then
    Raise (Own "akshare is not installed")
  else if PyStr.in_tuple interval ["1d"; "daily"] then
    do r <- lift_exc Foreign (ak_stock_zh_a_daily W symbol start end_);
    match r with
    | None => Ok pd_DataFrame
    | Some df =>
        if df_empty df then Ok pd_DataFrame
        else if has_column "date" df then
          lift_exc Foreign (datetime_index_from W "date" df)
        else
          lift_exc Foreign (ensure_datetime_index W df)
    end
  else
    Raise (Own ("Interval not supported by akshare adapter: " +:+ interval)).

(** [except AdapterError: raise] and [except Exception as e: ...] *)
Definition handler (e : TryExc) : Raised :=
  match e with
  | Own msg => AdapterError msg
  | Foreign e => classify e
  end.

Definition fetch (symbol : string) (start end_ : option string)
           (interval : string) (adjusted : bool) : result Raised DataFrame :=
  lift_exc handler (fetch_body symbol start end_ interval).

(** The timestamps of the rows akshare delivered: its ['date'] column when
    there is one, its index otherwise. *)
Definition source_times (df : DataFrame) : result PyException (list Timestamp) :=
  match column_pos "date" (columns df) with
  | Some pos => mapM (to_datetime W) (column_cells pos df)
  | None => index_times W df
  end.

End WithWorld.
End AkshareAdapter.

(* ===================================================================== *)
(** ** src/data/adapters/yfinance_adapter.py *)
(* ===================================================================== *)

Module YfinanceAdapter.
Section WithWorld.
Variable W : World.

(** Loading the module runs [import yfinance as yf] at its top. *)
Definition import_module : result Raised unit :=
  if yfinance_importable W then Ok tt
  else Raise (Unclassified
                {| exc_class := "ModuleNotFoundError";
                   exc_str := "No module named 'yfinance'" |}).

Definition fetch_body (symbol : string) (start end_ : option string)
           (interval : string) (adjusted : bool)
  : result PyException DataFrame :=
  do r <- yf_download W symbol start end_ interval adjusted;
  match r with
  | None => Ok pd_DataFrame
  | Some df =>
      if df_empty df then Ok pd_DataFrame
      else ensure_datetime_index W df
  end.

Definition fetch (symbol : string) (start end_ : option string)
           (interval : string) (adjusted : bool) : result Raised DataFrame :=
  lift_exc classify (fetch_body symbol start end_ interval adjusted).

(** What a caller gets who reaches [fetch] through the module:
    [from ...adapters import yfinance_adapter; yfinance_adapter.fetch(...)] *)
Definition import_and_fetch (symbol : string) (start end_ : option string)
           (interval : string) (adjusted : bool) : result Raised DataFrame :=
  do _ <- import_module;
  fetch symbol start end_ interval adjusted.

End WithWorld.
End YfinanceAdapter.

(* ===================================================================== *)
(** ** src/data/adapters/csv_adapter.py *)
(* ===================================================================== *)

Module CsvAdapter.

(** The [if lc in (...) / elif ...] chain of the renaming loop: the
    canonical name of a column, or the column itself when no branch
    matches.  [rename_map] maps exactly the columns for which a branch
    matches, so [df.rename(columns=rename_map)] renames every column to
    [canonical_name] of it (and changes nothing when the map is empty). *)
Definition canonical_name (c : string) : string :=
  let lc := PyStr.lower c in
  if PyStr.in_tuple lc ["open"; "open_price"] then "Open"
  else if PyStr.in_tuple lc ["high"] then "High"
  else if PyStr.in_tuple lc ["low"] then "Low"
  else if PyStr.in_tuple lc ["close"; "close_price"] then "Close"
  else if PyStr.in_tuple lc ["adj close"; "adj_close"; "adjclose"]
  then "Adj Close"
  else if PyStr.in_tuple lc ["volume"; "vol"] then "Volume"
  else c.

(** Truth value of a [start] / [end] argument: [None] and the empty
    string are false. *)
Definition bound_given (b : option string) : option string :=
  match b with
  | Some s => if String.eqb s "" then None else Some s
  | None => None
  end.

(** The inclusive range test of the specification: [lo <= t] when a lower
    bound is given, [t <= hi] when an upper bound is given, nothing on an
    open side. *)
Definition in_range (lo hi : option Timestamp) (t : Timestamp) : bool :=
  match lo with Some l => ts_ge t l | None => true end
  && match hi with Some h => ts_le t h | None => true end.

(** A bound can be compared with an index of the given awareness: it is
    absent, NaT, or timezone-aware exactly when the index is. *)
Definition bound_comparable (index_is_aware : bool) (b : option Timestamp)
  : bool :=
  match b with
  | Some t => tz_compatible index_is_aware t
  | None => true
  end.

Section WithWorld.
Variable W : World.

(** The bound a [start] / [end] argument stands for: none when the argument
    is absent, otherwise the timestamp pandas reads from it. *)
Definition requested_bound (b : option string)
  : result PyException (option Timestamp) :=
  match bound_given b with
  | Some s => do t <- to_datetime W (CStr s); Ok (Some t)
  | None => Ok None
  end.

(** [kwargs.get('csv_base', os.path.join(os.getcwd(), 'data', 'csv'))];
    [csv_base = None] stands for an absent keyword. *)
Definition base_dir (csv_base : option string) : string :=
  match csv_base with
  | Some b => b
  | None => os_path_join W (os_path_join W (os_getcwd W) "data") "csv"
  end.

Definition resolve_path (symbol : string) (csv_base : option string)
  : string :=
  if PyStr.endswith ".csv" (PyStr.lower symbol) then symbol
  else os_path_join W (base_dir csv_base) (symbol +:+ ".csv").

(** [if start: df = df[df.index >= pd.to_datetime(start)]]; the comparison
    raises when index and bound differ in timezone-awareness. *)
Definition filter_start (start : option string) (df : DataFrame)
  : result PyException DataFrame :=
  match bound_given start with
  | Some s =>
      do t <- to_datetime W (CStr s);
      if tz_compatible (index_tz df) t
      then Ok (select_rows (fun label => ts_ge (cell_time label) t) df)
      else Raise tz_mismatch
  | None => Ok df
  end.

(** [if end: df = df[df.index <= pd.to_datetime(end)]] *)
Definition filter_end (end_ : option string) (df : DataFrame)
  : result PyException DataFrame :=
  match bound_given end_ with
  | Some s =>
      do t <- to_datetime W (CStr s);
      if tz_compatible (index_tz df) t
      then Ok (select_rows (fun label => ts_le (cell_time label) t) df)
      else Raise tz_mismatch
  | None => Ok df
  end.

(** Everything after the guarded [pd.read_csv]; nothing here is inside a
    [try]. *)
Definition after_read (start end_ : option string) (df : DataFrame)
  : result PyException DataFrame :=
  let df := rename_columns canonical_name df in
  do df <- ensure_datetime_index W df;
  do df <- filter_start start df;
  filter_end end_ df.

Definition fetch (symbol : string) (start end_ : option string)
           (interval : string) (csv_base : option string)
  : result Raised DataFrame :=
  let path := resolve_path symbol csv_base in
  if negb (os_path_exists W path) then Ok pd_DataFrame
  else
    match pd_read_csv W path with
    | Raise _ => Ok pd_DataFrame
    | Ok df => lift_exc Unclassified (after_read start end_ df)
    end.

End WithWorld.
End CsvAdapter.

(* ===================================================================== *)
(** ** tests/akfinance.py: AKFinance._standardize_dataframe *)
(* ===================================================================== *)

Module AKFinance.

(** [_get_column_mapping]: the dictionary [base_mapping], in source
    order. *)
Definition _get_column_mapping : list (string * string) :=
  [ ("开盘", "Open"); ("收盘", "Close"); ("最高", "High"); ("最低", "Low");
    ("成交量", "Volume"); ("成交额", "Amount"); ("振幅", "Amplitude");
    ("涨跌幅", "Percent"); ("涨跌额", "Change"); ("换手率", "Turnover");
    ("日期", "Date"); ("时间", "Time") ].

Fixpoint dict_get (d : list (string * string)) (k : string) : option string :=
  match d with
  | [] => None
  | (k', v) :: r => if String.eqb k k' then Some v else dict_get r k
  end.

(** [df.rename(columns=mapping)] on one column name *)
Definition rename_with (d : list (string * string)) (c : string) : string :=
  match dict_get d c with
  | Some v => v
  | None => c
  end.

Definition date_columns : list string := ["Date"; "日期"; "date"; "datetime"].

Definition necessary_columns : list string :=
  ["Open"; "High"; "Low"; "Close"; "Volume"].

(** The [for col in date_columns: if col in df.columns: ...; break]
    search. *)
Definition find_date_column (df : DataFrame) : option string :=
  List.find (fun col => has_column col df) date_columns.

(** One round of [for col in necessary_columns:
      if col not in df.columns: df[col] = 0.0] *)
Definition ensure_column (df : DataFrame) (col : string) : DataFrame :=
  if has_column col df then df
  else add_constant_column col (CNum 0) df.

Definition nanoseconds_per_day : Z := 86400 * 1000000000.

(** The largest number of days a [timedelta] holds. *)
Definition max_timedelta_days : Z := 999999999.

(** [datetime.min] (0001-01-01 00:00:00), in nanoseconds since the epoch. *)
Definition datetime_min : Z := -62135596800 * 1000000000.

(** [pd.Timestamp.min] and [pd.Timestamp.max], in nanoseconds since the
    epoch. *)
Definition Timestamp_min : Z := -9223372036854775807.
Definition Timestamp_max : Z := 9223372036854775807.

(** The made-up index of [n] rows can be built at time [now]: [n] days fit
    a [timedelta], and the first timestamp, [n] days before [now], and the
    last one, the day before [now], lie within
    [Timestamp.min .. Timestamp.max]. *)
Definition default_index_representable (now : Z) (n : nat) : Prop :=
  Z.of_nat n <= max_timedelta_days
  /\ Timestamp_min <= now - Z.of_nat n * nanoseconds_per_day
  /\ now - nanoseconds_per_day <= Timestamp_max.

(** [pd.date_range(start=s, periods=n, freq='D')] *)
Definition date_range (s : Z) (n : nat) : list Timestamp :=
  List.map (fun i => TS (s + Z.of_nat i * nanoseconds_per_day)) (seq 0 n).

(** What [_standardize_ticker] does after its first statement. *)
Definition exchange_rules (ticker : string) : string :=
  let ticker := if PyStr.endswith ".SS" ticker
                then PyStr.replace ".SS" ".SH" ticker
                else ticker in
  if PyStr.contains "." ticker then ticker
  else if PyStr.startswith_any ["00"; "30"] ticker then ticker +:+ ".SZ"
  else if PyStr.startswith_any ["50"; "51"; "60"; "68"; "90"] ticker
  then ticker +:+ ".SH"
  else if PyStr.startswith_any ["0"; "1"; "2"; "3"; "4"; "5"] ticker
          && (String.length ticker =? 5)%nat
  then ticker +:+ ".HK"
  else ticker.

(** [_standardize_ticker]: [ticker = ticker.replace(' ', '').upper()], then
    the rules. *)
Definition _standardize_ticker (ticker : string) : string :=
  exchange_rules (PyStr.upper (PyStr.replace " " "" ticker)).

(** A date argument: a string, or a [datetime] given by what
    [strftime('%Y%m%d')] makes of it. *)
Inductive DateArg : Type :=
| DateStr (s : string)
| DateTime (yyyymmdd : string).

(** [_convert_date] *)
Definition _convert_date (date_str : DateArg) : string :=
  match date_str with
  | DateTime yyyymmdd => yyyymmdd
  | DateStr s => PyStr.replace "-" "" s
  end.

Section WithWorld.
Variable W : World.
(** [datetime.now()], in nanoseconds *)
Variable now : Z.

(** The frame with the made-up index: one timestamp per row, in daily
    steps from [start]. *)
Definition with_date_range (start : Z) (df : DataFrame) : DataFrame :=
  {| index_kind := DatetimeIndex;
     columns := columns df;
     rows := List.map (fun p => (CTime (fst p), snd (snd p)))
                      (combine (date_range start (df_len df)) (rows df));
     index_tz := false |}.

(** [df.index = pd.date_range(start=datetime.now() - timedelta(days=len(df)),
                             periods=len(df), freq='D')]:
    [timedelta] refuses more than 999999999 days, the subtraction refuses a
    result before [datetime.min], and [date_range], which builds nanosecond
    timestamps, refuses those outside [Timestamp.min .. Timestamp.max] (the
    text of its message, which spells out the date, is cut short here). *)
Definition default_index (df : DataFrame) : result PyException DataFrame :=
  let n := df_len df in
  if max_timedelta_days <? Z.of_nat n then
    Raise {| exc_class := "OverflowError";
             exc_str := "days=" +:+ NilZero.string_of_uint (Nat.to_uint n)
                        +:+ "; must have magnitude <= 999999999" |}
  else
    let start := now - Z.of_nat n * nanoseconds_per_day in
    if start <? datetime_min then
      Raise {| exc_class := "OverflowError";
               exc_str := "date value out of range" |}
    else if (start <? Timestamp_min)
            || (Timestamp_max <? start + (Z.of_nat n - 1) * nanoseconds_per_day)
    then
      Raise {| exc_class := "OutOfBoundsDatetime";
               exc_str := "Out of bounds nanosecond timestamp" |}
    else Ok (with_date_range start df).

Definition _standardize_dataframe (df : option DataFrame) (exchange : string)
  : result PyException DataFrame :=
  match df with
  | None => Ok pd_DataFrame
  | Some df =>
      if df_empty df then Ok pd_DataFrame
      else
        let df := rename_columns (rename_with _get_column_mapping) df in
        do df <- match find_date_column df with
                 | Some date_column => datetime_index_from W date_column df
                 | None => default_index df
                 end;
        Ok (fold_left ensure_column necessary_columns df)
  end.

End WithWorld.

(** The akshare functions [_get_market_data] calls, by keyword arguments
    [symbol], ([period],) [start_date], [end_date], [adjust]; each may raise
    or return [None]. *)
Record Provider : Type := mkProvider {
  stock_zh_a_hist :
    string -> string -> string -> string -> string ->
    result PyException (option DataFrame);
  stock_hk_hist :
    string -> string -> string -> string ->
    result PyException (option DataFrame);
  stock_us_hist :
    string -> string -> string -> string ->
    result PyException (option DataFrame)
}.

(** What the code reads off the clock, each as [strftime('%Y%m%d')] makes
    it: [datetime.now()], [datetime.now() - timedelta(days=d)] and
    [datetime.now().replace(month=1, day=1)]. *)
Record Clock : Type := mkClock {
  today : string;
  days_ago : Z -> string;
  new_year : string
}.

(** An [AKFinance] object (also known as [Ticker]). *)
Record Ticker : Type := mkTicker {
  ticker : string;
  history_data : option DataFrame
}.

(** [__init__] *)
Definition init (symbol : string) : Ticker :=
  {| ticker := _standardize_ticker symbol; history_data := None |}.

(** Truth value of an optional date argument: [None] and the empty string
    are false. *)
Definition date_given (d : option DateArg) : option DateArg :=
  match d with
  | Some (DateStr s) => if String.eqb s "" then None else Some (DateStr s)
  | Some (DateTime t) => Some (DateTime t)
  | None => None
  end.

(** [_safe_ak_call], applied to what the akshare function did. *)
Definition _safe_ak_call (outcome : result PyException (option DataFrame))
  : DataFrame :=
  match outcome with
  | Ok (Some df) => df
  | Ok None => pd_DataFrame
  | Raise _ => pd_DataFrame
  end.

Definition period_days : list (string * Z) :=
  [ ("1d", 1); ("5d", 5); ("1mo", 30); ("3mo", 90); ("6mo", 180);
    ("1y", 365); ("2y", 730); ("5y", 1825); ("10y", 3650) ].

Definition period_map : list (string * string) :=
  [ ("1d", "daily"); ("1wk", "weekly"); ("1mo", "monthly") ].

Fixpoint days_get (d : list (string * Z)) (k : string) : option Z :=
  match d with
  | [] => None
  | (k', v) :: r => if String.eqb k k' then Some v else days_get r k
  end.

Section WithProvider.
Variable W : World.
Variable now : Z.
Variable ak : Provider.
Variable clock : Clock.

(** [_get_start_date] *)
Definition _get_start_date (start : option DateArg) (period : string)
  : string :=
  match date_given start with
  | Some d => _convert_date d
  | None =>
      let days := default 365 (days_get period_days period) in
      let start_date := days_ago clock days in
      if String.eqb period "ytd" then new_year clock else start_date
  end.

(** [_get_market_data]; every akshare call goes through [_safe_ak_call],
    so the [except] of the method itself has nothing to catch. *)
Definition _get_market_data (symbol exchange start_date end_date : string)
           (interval : string) (auto_adjust : bool) : DataFrame :=
  let adjust := if auto_adjust then "qfq" else "" in
  if PyStr.in_tuple exchange ["SH"; "SZ"] then
    let period := default "daily" (dict_get period_map interval) in
    _safe_ak_call (stock_zh_a_hist ak symbol period start_date end_date adjust)
  else if String.eqb exchange "HK" then
    _safe_ak_call (stock_hk_hist ak symbol start_date end_date adjust)
  else
    _safe_ak_call (stock_us_hist ak symbol start_date end_date adjust).

(** [history]: the returned frame and the object afterwards.  The whole
    body is inside [try: ... except Exception: return pd.DataFrame()]. *)
Definition history (self : Ticker) (start end_ : option DateArg)
           (period interval : string) (actions auto_adjust : bool)
  : DataFrame * Ticker :=
  let ticker_clean := PyStr.split_first "." (ticker self) in
  let exchange := if PyStr.contains "." (ticker self)
                  then PyStr.split_last "." (ticker self) else "" in
  let end_date := match date_given end_ with
                  | Some d => _convert_date d
                  | None => today clock
                  end in
  let start_date := _get_start_date start period in
  let df := _get_market_data ticker_clean exchange start_date end_date
                             interval auto_adjust in
  if df_empty df then (pd_DataFrame, self)
  else
    match _standardize_dataframe W now (Some df) exchange with
    | Ok df => (df, {| ticker := ticker self; history_data := Some df |})
    | Raise _ => (pd_DataFrame, self)
    end.

End WithProvider.
End AKFinance.

(* ===================================================================== *)
(** ** The fetch dispatcher *)
(* ===================================================================== *)

Module Fetcher.

(** Modelled from the spec: src/data/fetcher.py is not among the sources.
    The Source tag of the data model, with the names the callers use
    ([source='akshare'] in scripts/fetch_akshare_save.py). *)
Inductive Source : Type := akshare | csv | yfinance.

#[export] Instance Source_eq_dec : EqDecision Source.
Proof. solve_decision. Defined.

#[export] Instance Source_countable : Countable Source.
Proof.
  refine (inj_countable'
            (fun s => match s with akshare => 0%nat | csv => 1%nat
                              | yfinance => 2%nat end)
            (fun n => match n with 0%nat => akshare | 1%nat => csv
                              | _ => yfinance end) _).
  intros []; reflexivity.
Defined.

(** Modelled from the spec: the CacheKey, "derived deterministically from
    (symbol, source, interval)". *)
Definition CacheKey : Type := string * Source * string.

(** Modelled from the spec: the state the dispatcher works on: the Cache
    Store, a finite map from keys to stored series, and the number of
    times an adapter's fetch has been invoked (the call-count
    instrumentation of section 8). *)
Record Store : Type := mkStore {
  cache : gmap (string * Source * string) DataFrame;
  adapter_calls : nat
}.

(** Modelled from the spec: Cache Store [get(key)]. *)
Definition cache_get (st : Store) (key : CacheKey) : option DataFrame :=
  cache st !! key.

(** Modelled from the spec: Cache Store [put(key, series)], "replacing any
    prior entry". *)
Definition cache_put (st : Store) (key : CacheKey) (df : DataFrame) : Store :=
  {| cache := <[key := df]> (cache st); adapter_calls := adapter_calls st |}.

Definition count_call (st : Store) : Store :=
  {| cache := cache st; adapter_calls := S (adapter_calls st) |}.

(** The arguments an adapter's fetch contract receives. *)
Record Request : Type := mkRequest {
  symbol : string;
  start : option string;
  end_ : option string;
  interval : string
}.

Section Dispatcher.
(** The registry from Source to the adapter's fetch, and the Schema
    Normalizer. *)
Variable adapter : Source -> Request -> result Raised DataFrame.
Variable normalize : DataFrame -> DataFrame.

(** Modelled from the spec: [get_history] of src/data/fetcher.py, steps 1
    to 5 of section 4.5 with its failure policy (errors propagate
    unchanged, nothing is cached for a failed fetch). *)
Definition get_history (st : Store) (req : Request) (source : Source)
           (use_cache refresh : bool) : result Raised DataFrame * Store :=
  let key := (symbol req, source, interval req) in
  match (if use_cache && negb refresh then cache_get st key else None) with
  | Some hit => (Ok hit, st)
  | None =>
      let st := count_call st in
      match adapter source req with
      | Raise e => (Raise e, st)
      | Ok raw =>
          let df := normalize raw in
          (Ok df, if use_cache then cache_put st key df else st)
      end
  end.

End Dispatcher.

(** A store with nothing cached and no call made. *)
Definition empty_store : Store := {| cache := ∅; adapter_calls := 0 |}.

(** The three adapters of the repository behind the one contract. *)
Definition registry (W : World) (source : Source) (req : Request)
  : result Raised DataFrame :=
  match source with
  | akshare =>
      AkshareAdapter.fetch W (symbol req) (start req) (end_ req)
                           (interval req) true
  | csv =>
      CsvAdapter.fetch W (symbol req) (start req) (end_ req)
                       (interval req) None
  | yfinance =>
      YfinanceAdapter.import_and_fetch W (symbol req) (start req) (end_ req)
                                       (interval req) true
  end.

End Fetcher.

(* ===================================================================== *)
(** ** src/strategy/SimpleMovingAverage.py *)
(* ===================================================================== *)

Module MovingAverage.

(** A Python float, idealised: a rational or NaN. *)
Inductive PyFloat : Type :=
| FNaN
| F (q : Q).

(** [a <= b], [a > b], ... on floats; false as soon as one side is NaN. *)
Definition fle (a b : PyFloat) : bool :=
  match a, b with
  | F x, F y => Qle_bool x y
  | _, _ => false
  end.

Definition flt (a b : PyFloat) : bool :=
  match a, b with
  | F x, F y => Qle_bool x y && negb (Qeq_bool x y)
  | _, _ => false
  end.

Definition fge (a b : PyFloat) : bool := fle b a.
Definition fgt (a b : PyFloat) : bool := flt b a.

(** The [config] dictionary: the keys the constructor reads, [None] for
    an absent key. *)
Record Config : Type := mkConfig {
  cfg_short_window : option Z;
  cfg_long_window : option Z;
  cfg_size : option Z
}.

(** The attributes of a [MovingAverage] object.  [prices] holds the deque,
    oldest first; its [maxlen] is [long_window]. *)
Record Strategy : Type := mkStrategy {
  short_window : Z;
  long_window : Z;
  size : Z;
  prices : list PyFloat;
  position : Z;
  _last_short_sma : option PyFloat;
  _last_long_sma : option PyFloat
}.

Inductive Side : Type := buy | sell.

(** The returned dict [{"signal": ..., "size": ...}]. *)
Record Signal : Type := mkSignal {
  signal : option Side;
  signal_size : Z
}.

(** A bar as [on_bar] accepts it: a pandas Series, a dict, or any object,
    each given by its fields. *)
Inductive Bar : Type :=
| BarSeries (fields : list (string * Cell))
| BarDict (fields : list (string * Cell))
| BarObject (attrs : list (string * Cell)).

Fixpoint lookup_field (k : string) (fs : list (string * Cell)) : option Cell :=
  match fs with
  | [] => None
  | (k', v) :: r => if String.eqb k k' then Some v else lookup_field k r
  end.

Definition value_error (msg : string) : PyException :=
  {| exc_class := "ValueError"; exc_str := msg |}.

(** [__init__]: the two window checks are the constructor's own and that
    of [deque(maxlen=...)].
    Modelled from the spec: src/strategy/base.py is not among the sources;
    [Strategy] is the interface the strategy collaborator implements, and
    its constructor is taken to keep the config and nothing more. *)
Definition init (config : Config) : result PyException Strategy :=
  let short_window := default 5 (cfg_short_window config) in
  let long_window := default 20 (cfg_long_window config) in
  if long_window <=? short_window then
    Raise (value_error "short_window must be smaller than long_window")
  else
    let size := default 1 (cfg_size config) in
    if long_window <? 0 then
      Raise (value_error "maxlen must be non-negative")
    else
      Ok {| short_window := short_window;
            long_window := long_window;
            size := size;
            prices := [];
            position := 0;
            _last_short_sma := None;
            _last_long_sma := None |}.

Definition on_start (s : Strategy) : Strategy :=
  {| short_window := short_window s;
     long_window := long_window s;
     size := size s;
     prices := [];
     position := 0;
     _last_short_sma := None;
     _last_long_sma := None |}.

(** [deque.append] on a deque of bound [maxlen]: the new item goes to the
    right end and the oldest ones fall off the left. *)
Definition deque_append (maxlen : nat) (l : list PyFloat) (x : PyFloat)
  : list PyFloat :=
  let l' := l ++ [x] in
  skipn (List.length l' - maxlen) l'.

Section WithFloatParser.
(** [float(s)] of a string: the parsed value, or [None] where Python
    raises. *)
Variable float_of_string : string -> option PyFloat.

(** [float(v)] *)
Definition py_float (v : Cell) : result PyException PyFloat :=
  match v with
  | CNaN => Ok FNaN
  | CNum q => Ok (F q)
  | CStr s =>
      match float_of_string s with
      | Some x => Ok x
      | None => Raise (value_error "could not convert string to float")
      end
  | CTime _ =>
      Raise {| exc_class := "TypeError";
               exc_str := "float() argument must be a string or a real number" |}
  end.

Definition no_close : PyException :=
  value_error "bar must provide a 'close' price (Series/dict/object)".

(** The three ways [on_bar] reads the close price. *)
Definition close_of (bar : Bar) : result PyException PyFloat :=
  match bar with
  | BarSeries fields | BarDict fields =>
      match lookup_field "close" fields with
      | Some v => py_float v
      | None => Raise no_close
      end
  | BarObject attrs =>
      match lookup_field "close" attrs with
      | Some v =>
          match py_float v with
          | Ok x => Ok x
          | Raise _ => Raise no_close
          end
      | None => Raise no_close
      end
  end.

Definition on_bar (s : Strategy) (bar : Bar) : result PyException Strategy :=
  do close <- close_of bar;
  Ok {| short_window := short_window s;
        long_window := long_window s;
        size := size s;
        prices := deque_append (Z.to_nat (long_window s)) (prices s) close;
        position := position s;
        _last_short_sma := _last_short_sma s;
        _last_long_sma := _last_long_sma s |}.

End WithFloatParser.

Fixpoint sum_floats (l : list PyFloat) : PyFloat :=
  match l with
  | [] => F 0
  | x :: r =>
      match x, sum_floats r with
      | F a, F b => F (a + b)
      | _, _ => FNaN
      end
  end.

(** [float(ser.rolling(window=w).mean().iloc[-1])]: the mean of the last
    [w] values, NaN when fewer than [w] valid values are in the window
    (and for an empty window); pandas refuses a negative window, and
    [iloc[-1]] an empty series. *)
Definition rolling_mean_last (w : Z) (l : list PyFloat)
  : result PyException PyFloat :=
  if w <? 0 then
    Raise (value_error "window must be an integer 0 or greater")
  else
    match l with
    | [] => Raise {| exc_class := "IndexError";
                     exc_str := "single positional indexer is out-of-bounds" |}
    | _ =>
        if (w =? 0) || (Z.of_nat (List.length l) <? w) then Ok FNaN
        else
          match sum_floats (skipn (List.length l - Z.to_nat w) l) with
          | F total => Ok (F (total / inject_Z w))
          | FNaN => Ok FNaN
          end
    end.

(** The crossover test of [generate_signals]. *)
Definition crossover (last_short last_long : option PyFloat)
           (short_sma long_sma : PyFloat) : option Side :=
  match last_short, last_long with
  | Some ls, Some ll =>
      if fle ls ll && fgt short_sma long_sma then Some buy
      else if fge ls ll && flt short_sma long_sma then Some sell
      else None
  | _, _ => None
  end.

Definition generate_signals (s : Strategy)
  : result PyException (Signal * Strategy) :=
  if Z.of_nat (List.length (prices s)) <? long_window s then
    Ok ({| signal := None; signal_size := 0 |}, s)
  else
    do short_sma <- rolling_mean_last (short_window s) (prices s);
    do long_sma <- rolling_mean_last (long_window s) (prices s);
    let sig := crossover (_last_short_sma s) (_last_long_sma s)
                         short_sma long_sma in
    Ok ({| signal := sig;
           signal_size := match sig with Some _ => size s | None => 0 end |},
        {| short_window := short_window s;
           long_window := long_window s;
           size := size s;
           prices := prices s;
           position := match sig with
                       | Some buy => 1
                       | Some sell => 0
                       | None => position s
                       end;
           _last_short_sma := Some short_sma;
           _last_long_sma := Some long_sma |}).

Definition on_stop (s : Strategy) : Strategy := s.

(** The calls a framework makes on a strategy object. *)
Inductive Call : Type :=
| CallOnStart
| CallOnBar (bar : Bar)
| CallGenerateSignals
| CallOnStop.

Section Run.
Variable float_of_string : string -> option PyFloat.

(** The object after one call; a call that raises leaves it as it was. *)
Definition step (s : Strategy) (c : Call) : Strategy :=
  match c with
  | CallOnStart => on_start s
  | CallOnBar bar =>
      match on_bar float_of_string s bar with
      | Ok s' => s'
      | Raise _ => s
      end
  | CallGenerateSignals =>
      match generate_signals s with
      | Ok (_, s') => s'
      | Raise _ => s
      end
  | CallOnStop => on_stop s
  end.

Definition run (s : Strategy) (calls : list Call) : Strategy :=
  fold_left step calls s.

(** The number of close prices taken in by [on_bar] since the last
    [on_start] (or since construction). *)
Definition observe (n : nat) (c : Call) : nat :=
  match c with
  | CallOnStart => O
  | CallOnBar bar =>
      match close_of float_of_string bar with
      | Ok _ => S n
      | Raise _ => n
      end
  | _ => n
  end.

Definition observed (calls : list Call) : nat := fold_left observe calls O.

(** The close prices taken in by [on_bar] since the last [on_start] (or
    since construction), oldest first. *)
Definition record_close (seen : list PyFloat) (c : Call) : list PyFloat :=
  match c with
  | CallOnStart => []
  | CallOnBar bar =>
      match close_of float_of_string bar with
      | Ok close => seen ++ [close]
      | Raise _ => seen
      end
  | _ => seen
  end.

Definition closes (calls : list Call) : list PyFloat :=
  fold_left record_close calls [].

End Run.

(** The last [n] items of a list (all of it when it is shorter). *)
Definition last_n {A} (n : nat) (l : list A) : list A :=
  skipn (List.length l - n) l.

(** A call other than [generate_signals]. *)
Definition quiet (c : Call) : Prop :=
  match c with
  | CallGenerateSignals => False
  | _ => True
  end.
End MovingAverage.

(* ===================================================================== *)
(** ** src/system/log.py *)
(* ===================================================================== *)

Module Log.

(** The class of a handler, as far as [isinstance(h, logging.StreamHandler)]
    tells: [FileHandler] derives from [StreamHandler]; [OtherHandler] is any
    class that does not (NullHandler, SocketHandler, ...). *)
Inductive HandlerClass : Type :=
| StreamHandler
| FileHandler
| OtherHandler.

(** [isinstance(h, logging.StreamHandler)] *)
Definition isinstance_StreamHandler (c : HandlerClass) : bool :=
  match c with
  | StreamHandler | FileHandler => true
  | OtherHandler => false
  end.

(** A handler object: its class, where it writes (a stream or a file
    path), its level and its format string. *)
Record Handler : Type := mkHandler {
  handler_class : HandlerClass;
  target : string;
  handler_level : Z;
  formatter : option string
}.

(** The root logger: its level, its handlers in the order they were added,
    and the attribute [_feedbacktrader_configured] ([false] while it is not
    set). *)
Record RootLogger : Type := mkRoot {
  level : Z;
  handlers : list Handler;
  _feedbacktrader_configured : bool
}.

(** [logging.INFO] *)
Definition INFO : Z := 20.

Definition is_stream (h : Handler) : bool :=
  isinstance_StreamHandler (handler_class h).

Section WithSystem.
(** [LOG_DIR], [os.path.join], and opening a file for appending: [None] when
    it opens, the exception otherwise. *)
Variable LOG_DIR : string.
Variable join : string -> string -> string.
Variable open_file : string -> option PyException.

(** [_make_log_path], at clock reading [timestamp]
    ([datetime.now().strftime('%Y%m%d_%H%M%S')]) *)
Definition _make_log_path (timestamp : string) : string :=
  join LOG_DIR ("run_" +:+ timestamp +:+ ".log").

(** The handler [configure_root_logger] builds:
    [logging.FileHandler(path, encoding='utf-8')] with level and formatter
    set. *)
Definition file_handler (path : string) (lvl : Z) : Handler :=
  {| handler_class := FileHandler;
     target := path;
     handler_level := lvl;
     formatter := Some "%(asctime)s %(levelname)s [%(name)s] %(message)s" |}.

(** [configure_root_logger(level)], called at clock reading [timestamp]:
    what it raises, if anything, and the root logger afterwards. *)
Definition configure_root_logger (timestamp : string) (lvl : Z)
           (root : RootLogger) : result PyException unit * RootLogger :=
  if _feedbacktrader_configured root then (Ok tt, root)
  else
    let kept := List.filter (fun h => negb (is_stream h)) (handlers root) in
    let path := _make_log_path timestamp in
    match open_file path with
    | Some e =>
        (Raise e,
         {| level := lvl; handlers := kept;
            _feedbacktrader_configured := false |})
    | None =>
        (Ok tt,
         {| level := lvl;
            handlers := kept ++ [file_handler path lvl];
            _feedbacktrader_configured := true |})
    end.

(** [get_logger(name)]: the name of the logger handed out ([None] for the
    root logger) and the root logger afterwards. *)
Definition get_logger (timestamp : string) (name : option string)
           (root : RootLogger)
  : result PyException (option string) * RootLogger :=
  match configure_root_logger timestamp INFO root with
  | (Ok _, root') => (Ok name, root')
  | (Raise e, root') => (Raise e, root')
  end.

(** A sequence of [get_logger] calls, each with its clock reading and
    name; calls that raise are passed over. *)
Definition get_loggers (calls : list (string * option string))
           (root : RootLogger) : RootLogger :=
  fold_left (fun r call => snd (get_logger (fst call) (snd call) r))
            calls root.

End WithSystem.
End Log.

(* ===================================================================== *)
(** ** Concrete worlds used to exercise the model *)
(* ===================================================================== *)

Module Examples.

Definition day (n : Z) : Timestamp := TS (n * AKFinance.nanoseconds_per_day).

(** 2024-01-01 is day 19723 of the epoch. *)
Definition known_dates : list (string * Timestamp) :=
  [ ("2024-01-01", day 19723); ("2024-01-05", day 19727);
    ("2024-01-10", day 19732); ("2024-01-20", day 19742);
    ("2024-01-31", day 19753);
    ("2024-01-10T00:00:00+00:00",
     TSz (19732 * AKFinance.nanoseconds_per_day)) ].

Fixpoint lookup_date (s : string) (l : list (string * Timestamp))
  : option Timestamp :=
  match l with
  | [] => None
  | (k, v) :: r => if String.eqb s k then Some v else lookup_date s r
  end.

(** A date parser that knows the dates above and refuses everything
    else. *)
Definition parse (c : Cell) : result PyException Timestamp :=
  match c with
  | CStr s =>
      match lookup_date s known_dates with
      | Some t => Ok t
      | None => Raise {| exc_class := "ValueError";
                         exc_str := "Unknown datetime string format" |}
      end
  | CTime t => Ok t
  | _ => Ok NaT
  end.

Definition bar_row (d : Z) (close : Q) : Cell * list Cell :=
  (CTime (day d), [CNum close; CNum 1000]).

(** A price file as [read_csv] delivers it, the first column parsed into a
    datetime index; the rows are in ascending date order, from 2024-01-01
    to 2024-01-31. *)
Definition january : DataFrame :=
  {| index_kind := DatetimeIndex;
     columns := ["close"; "VOL"];
     rows := [ bar_row 19723 10; bar_row 19727 11; bar_row 19732 12;
               bar_row 19742 13; bar_row 19753 14 ];
     index_tz := false |}.

(** A price file with a repeated and an out-of-order date: 2024-01-10,
    2024-01-01, 2024-01-10. *)
Definition shuffled : DataFrame :=
  {| index_kind := DatetimeIndex;
     columns := ["Close"; "Volume"];
     rows := [ bar_row 19732 12; bar_row 19723 10; bar_row 19732 15 ];
     index_tz := false |}.

(** What akshare returns: the date is an ordinary column. *)
Definition ak_frame : DataFrame :=
  {| index_kind := RangeIndex;
     columns := ["date"; "open"; "close"];
     rows := [ (CNum 0, [CStr "2024-01-01"; CNum 9; CNum 10]);
               (CNum 1, [CStr "2024-01-05"; CNum 10; CNum 11]) ];
     index_tz := false |}.

(** What [ak.stock_zh_a_hist] returns, cut down to three columns. *)
Definition ak_hist : DataFrame :=
  {| index_kind := RangeIndex;
     columns := ["日期"; "开盘"; "收盘"];
     rows := [ (CNum 0, [CStr "2024-01-01"; CNum 9; CNum 10]);
               (CNum 1, [CStr "2024-01-05"; CNum 10; CNum 11]) ];
     index_tz := false |}.

(** An akshare answer whose second date is not a date. *)
Definition ak_garbled : DataFrame :=
  {| index_kind := RangeIndex;
     columns := ["date"; "close"];
     rows := [ (CNum 0, [CStr "2024-01-01"; CNum 10]);
               (CNum 1, [CStr "n/a"; CNum 11]) ];
     index_tz := false |}.

Definition too_many_requests : PyException :=
  {| exc_class := "HTTPError"; exc_str := "429 Too Many Requests" |}.

Definition connection_reset : PyException :=
  {| exc_class := "ConnectionError"; exc_str := "Connection reset by peer" |}.

Definition parser_error : PyException :=
  {| exc_class := "ParserError"; exc_str := "Error tokenizing data" |}.

(** A machine with both packages installed: the provider throttles
    ["sh600000"], drops the connection for ["sh600001"], answers
    ["sz000002"] with a malformed frame and every other symbol with a good
    one; the files [january.csv] and [shuffled.csv] exist under
    [/srv/data/csv], [broken.csv] exists but cannot be parsed. *)
Definition world : World :=
  {| akshare_importable := true;
     yfinance_importable := true;
     ak_stock_zh_a_daily := fun symbol _ _ =>
       if String.eqb symbol "sh600000" then Raise too_many_requests
       else if String.eqb symbol "sh600001" then Raise connection_reset
       else if String.eqb symbol "sz000002" then Ok (Some ak_garbled)
       else Ok (Some ak_frame);
     yf_download := fun symbol _ _ _ _ =>
       if String.eqb symbol "AAPL" then Raise too_many_requests
       else if String.eqb symbol "MSFT" then Raise connection_reset
       else Ok (Some january);
     pd_parse_datetime := parse;
     os_getcwd := "/srv";
     os_path_join := posix_join;
     os_path_exists := fun path =>
       PyStr.in_tuple path ["/srv/data/csv/january.csv";
                            "/srv/data/csv/shuffled.csv";
                            "/srv/data/csv/broken.csv"];
     pd_read_csv := fun path =>
       if String.eqb path "/srv/data/csv/january.csv" then Ok january
       else if String.eqb path "/srv/data/csv/shuffled.csv" then Ok shuffled
       else Raise parser_error |}.

(** The same machine with neither provider package installed. *)
Definition bare_world : World :=
  {| akshare_importable := false;
     yfinance_importable := false;
     ak_stock_zh_a_daily := ak_stock_zh_a_daily world;
     yf_download := yf_download world;
     pd_parse_datetime := parse;
     os_getcwd := "/srv";
     os_path_join := posix_join;
     os_path_exists := os_path_exists world;
     pd_read_csv := pd_read_csv world |}.

(** A strategy configuration with windows 2 and 3. *)
Definition windows_2_3 : MovingAverage.Config :=
  {| MovingAverage.cfg_short_window := Some 2;
     MovingAverage.cfg_long_window := Some 3;
     MovingAverage.cfg_size := Some 10 |}.

(** Three bars and a first signal request, a restart, then three bars of
    which one has no close price. *)
Definition restart_then_two_bars : list MovingAverage.Call :=
  [ MovingAverage.CallOnBar (MovingAverage.BarDict [("close", CNum 9)]);
    MovingAverage.CallOnBar (MovingAverage.BarDict [("close", CNum 8)]);
    MovingAverage.CallOnBar (MovingAverage.BarDict [("close", CNum 7)]);
    MovingAverage.CallGenerateSignals;
    MovingAverage.CallOnStart;
    MovingAverage.CallOnBar (MovingAverage.BarDict [("close", CNum 10)]);
    MovingAverage.CallOnBar (MovingAverage.BarDict [("open", CNum 10)]);
    MovingAverage.CallOnBar (MovingAverage.BarSeries [("close", CNum 11)]) ].

(** An akshare whose A-share history answers with [ak_hist] for 600519,
    with nothing for 000001 and fails for every other symbol; the other two
    markets answer with a frame that has no date column. *)
Definition provider : AKFinance.Provider :=
  {| AKFinance.stock_zh_a_hist := fun symbol _ _ _ _ =>
       if String.eqb symbol "600519" then Ok (Some ak_hist)
       else if String.eqb symbol "000001" then Ok None
       else Raise connection_reset;
     AKFinance.stock_hk_hist := fun _ _ _ _ =>
       Ok (Some {| index_kind := RangeIndex;
                   columns := ["收盘"];
                   rows := [ (CNum 0, [CNum 300]); (CNum 1, [CNum 310]) ];
                   index_tz := false |});
     AKFinance.stock_us_hist := fun _ _ _ _ => Raise too_many_requests |}.

Definition clock : AKFinance.Clock :=
  {| AKFinance.today := "20240201";
     AKFinance.days_ago := fun _ => "20230201";
     AKFinance.new_year := "20240101" |}.

(** A root logger as a program may have left it: a console handler, a
    null handler and an older log file. *)
Definition busy_root : Log.RootLogger :=
  {| Log.level := 30;
     Log.handlers :=
       [ {| Log.handler_class := Log.StreamHandler; Log.target := "<stderr>";
            Log.handler_level := 0; Log.formatter := None |};
         {| Log.handler_class := Log.OtherHandler; Log.target := "null";
            Log.handler_level := 0; Log.formatter := None |};
         {| Log.handler_class := Log.FileHandler; Log.target := "old.log";
            Log.handler_level := 10; Log.formatter := None |} ];
     Log._feedbacktrader_configured := false |}.

(** A disk on which log files of the year 2023 cannot be opened. *)
Definition open_log (path : string) : option PyException :=
  if PyStr.contains "run_2023" path
  then Some {| exc_class := "PermissionError"; exc_str := path |}
  else None.

(** The object the constructor makes from [windows_2_3]. *)
Definition strategy_2_3 : MovingAverage.Strategy :=
  {| MovingAverage.short_window := 2;
     MovingAverage.long_window := 3;
     MovingAverage.size := 10;
     MovingAverage.prices := [];
     MovingAverage.position := 0;
     MovingAverage._last_short_sma := None;
     MovingAverage._last_long_sma := None |}.

Definition close_bar (close : Q) : MovingAverage.Call :=
  MovingAverage.CallOnBar (MovingAverage.BarDict [("close", CNum close)]).

(** Falling prices, a first evaluation, then a jump. *)
Definition fall_then_jump : list MovingAverage.Call :=
  [ close_bar 10; close_bar 9; close_bar 8;
    MovingAverage.CallGenerateSignals; close_bar 20 ].

End Examples.

(* ===================================================================== *)
(** * Properties *)
(* ===================================================================== *)

(** ** Strings *)

Lemma startswith_spec (p s : string) :
  PyStr.startswith p s = true <-> exists post, s = p +:+ post.
Proof.
  revert s; induction p as [|a p IH]; intros s; simpl.
  - split; [intros _; exists s; reflexivity | reflexivity].
  - destruct s as [|b s].
    + split; [discriminate | intros [post H]; discriminate].
    + rewrite andb_true_iff, IH. split.
      * intros [Hab [post ->]]. apply Ascii.eqb_eq in Hab. subst b.
        exists post. reflexivity.
      * intros [post H]. injection H as -> ->. split.
        -- apply Ascii.eqb_refl.
        -- exists post. reflexivity.
Qed.

Lemma contains_spec (needle hay : string) :
  PyStr.contains needle hay = true <-> PyStr.Substring needle hay.
Proof.
  unfold PyStr.Substring. induction hay as [|c hay IH].
  - simpl. rewrite orb_false_r, startswith_spec. split.
    + intros [post H]. exists "", post. exact H.
    + intros [pre [post H]]. destruct pre as [|a pre]; [|discriminate].
      exists post. exact H.
  - cbn [PyStr.contains]. rewrite orb_true_iff, startswith_spec, IH. split.
    + intros [[post H] | [pre [post H]]].
      * exists "", post. exact H.
      * exists (String c pre), post. simpl. rewrite H. reflexivity.
    + intros [pre [post H]]. destruct pre as [|a pre].
      * left. exists post. exact H.
      * right. simpl in H. injection H as _ H. exists pre, post. exact H.
Qed.

Lemma rate_limit_wording_spec (msg : string) :
  rate_limit_wording (PyStr.lower msg) = true <-> RateLimitWording msg.
Proof.
  unfold rate_limit_wording, RateLimitWording.
  rewrite !orb_true_iff, !contains_spec. tauto.
Qed.

Lemma classify_rate_limit (e : PyException) :
  RateLimitWording (exc_str e) -> classify e = RateLimitError (exc_str e).
Proof.
  intros H. apply rate_limit_wording_spec in H. unfold classify.
  rewrite H. reflexivity.
Qed.

Lemma classify_other (e : PyException) :
  ~ RateLimitWording (exc_str e) -> classify e = AdapterError (exc_str e).
Proof.
  intros H. unfold classify.
  destruct (rate_limit_wording (PyStr.lower (exc_str e))) eqn:E;
    [|reflexivity].
  apply rate_limit_wording_spec in E. contradiction.
Qed.

Lemma in_tuple_daily (interval : string) :
  PyStr.in_tuple interval ["1d"; "daily"] = true
  <-> interval = "1d" \/ interval = "daily".
Proof.
  unfold PyStr.in_tuple. simpl.
  rewrite !orb_true_iff, !String.eqb_eq. intuition discriminate.
Qed.

(** ** The network adapters: error classification *)

Lemma akshare_provider_raises W symbol start end_ interval e :
  akshare_importable W = true ->
  interval = "1d" \/ interval = "daily" ->
  ak_stock_zh_a_daily W symbol start end_ = Raise e ->
  AkshareAdapter.fetch_body W symbol start end_ interval = Raise (Foreign e).
Proof.
  intros Himp Hint Hcall. apply in_tuple_daily in Hint.
  unfold AkshareAdapter.fetch_body.
  rewrite Himp, Hint, Hcall. reflexivity.
Qed.

Lemma yfinance_provider_raises W symbol start end_ interval adjusted e :
  yf_download W symbol start end_ interval adjusted = Raise e ->
  YfinanceAdapter.fetch_body W symbol start end_ interval adjusted = Raise e.
Proof.
  intros Hcall. unfold YfinanceAdapter.fetch_body.
  rewrite Hcall. reflexivity.
Qed.

(** C2. When the provider call behind the exchange-API adapter (akshare
    installed, daily interval) or behind the installed-package adapter raises
    an exception [e], [fetch] raises [RateLimitError(str(e))] if the
    lowercased message contains "rate", "limit" or "too many requests", and
    [AdapterError(str(e))] otherwise. *)
Theorem provider_exception_classified
        W symbol start end_ interval adjusted e :
  (akshare_importable W = true ->
   interval = "1d" \/ interval = "daily" ->
   ak_stock_zh_a_daily W symbol start end_ = Raise e ->
   (RateLimitWording (exc_str e) ->
    AkshareAdapter.fetch W symbol start end_ interval adjusted
    = Raise (RateLimitError (exc_str e)))
   /\ (~ RateLimitWording (exc_str e) ->
       AkshareAdapter.fetch W symbol start end_ interval adjusted
       = Raise (AdapterError (exc_str e))))
  /\ (yf_download W symbol start end_ interval adjusted = Raise e ->
      (RateLimitWording (exc_str e) ->
       YfinanceAdapter.fetch W symbol start end_ interval adjusted
       = Raise (RateLimitError (exc_str e)))
      /\ (~ RateLimitWording (exc_str e) ->
          YfinanceAdapter.fetch W symbol start end_ interval adjusted
          = Raise (AdapterError (exc_str e)))).
Proof.
  split.
  - intros Himp Hint Hcall.
    pose proof (akshare_provider_raises W symbol start end_ interval e
                  Himp Hint Hcall) as Hbody.
    unfold AkshareAdapter.fetch. rewrite Hbody. simpl.
    split; intros Hw.
    + rewrite classify_rate_limit by assumption. reflexivity.
    + rewrite classify_other by assumption. reflexivity.
  - intros Hcall.
    pose proof (yfinance_provider_raises W symbol start end_ interval
                  adjusted e Hcall) as Hbody.
    unfold YfinanceAdapter.fetch. rewrite Hbody. simpl.
    split; intros Hw.
    + rewrite classify_rate_limit by assumption. reflexivity.
    + rewrite classify_other by assumption. reflexivity.
Qed.

Lemma too_many_requests_wording :
  RateLimitWording (exc_str Examples.too_many_requests).
Proof. apply rate_limit_wording_spec. reflexivity. Qed.

Lemma connection_reset_no_wording :
  ~ RateLimitWording (exc_str Examples.connection_reset).
Proof.
  intros H. apply rate_limit_wording_spec in H. discriminate H.
Qed.

(** A throttled and a dropped request, through either adapter. *)
Lemma provider_exception_classified_witness :
  AkshareAdapter.fetch Examples.world "sh600000" None None "1d" true
  = Raise (RateLimitError "429 Too Many Requests")
  /\ AkshareAdapter.fetch Examples.world "sh600001" None None "daily" true
     = Raise (AdapterError "Connection reset by peer")
  /\ YfinanceAdapter.fetch Examples.world "AAPL" None None "1h" true
     = Raise (RateLimitError "429 Too Many Requests")
  /\ YfinanceAdapter.fetch Examples.world "MSFT" None None "1d" true
     = Raise (AdapterError "Connection reset by peer").
Proof.
  split; [|split; [|split]].
  - apply (proj1 (provider_exception_classified
                    Examples.world "sh600000" None None "1d" true
                    Examples.too_many_requests));
      [reflexivity | left; reflexivity | reflexivity
       | exact too_many_requests_wording].
  - apply (proj1 (provider_exception_classified
                    Examples.world "sh600001" None None "daily" true
                    Examples.connection_reset));
      [reflexivity | right; reflexivity | reflexivity
       | exact connection_reset_no_wording].
  - apply (proj2 (provider_exception_classified
                    Examples.world "AAPL" None None "1h" true
                    Examples.too_many_requests));
      [reflexivity | exact too_many_requests_wording].
  - apply (proj2 (provider_exception_classified
                    Examples.world "MSFT" None None "1d" true
                    Examples.connection_reset));
      [reflexivity | exact connection_reset_no_wording].
Defined.


(** ** The local-file adapter: a missing file *)

(** C4. For every symbol whose resolved path does not exist, the local-file
    adapter's [fetch] returns the empty frame [pd.DataFrame()]; it raises
    nothing. *)
Theorem missing_file_gives_empty W symbol start end_ interval csv_base :
  os_path_exists W (CsvAdapter.resolve_path W symbol csv_base) = false ->
  CsvAdapter.fetch W symbol start end_ interval csv_base = Ok pd_DataFrame
  /\ df_empty pd_DataFrame = true
  /\ df_len pd_DataFrame = 0%nat.
Proof.
  intros Hmissing. unfold CsvAdapter.fetch. cbv zeta.
  rewrite Hmissing. simpl. auto.
Qed.

(** [nofile] resolves to [/srv/data/csv/nofile.csv], which does not exist;
    the unparseable bounds are never looked at. *)
Lemma missing_file_gives_empty_witness :
  CsvAdapter.resolve_path Examples.world "nofile" None
  = "/srv/data/csv/nofile.csv"
  /\ CsvAdapter.fetch Examples.world "nofile" (Some "yesterday") (Some "??")
                      "1d" None
     = Ok pd_DataFrame.
Proof.
  split; [reflexivity|].
  apply (missing_file_gives_empty Examples.world "nofile" (Some "yesterday")
           (Some "??") "1d" None).
  reflexivity.
Defined.

(** ** The exchange-API adapter: intervals and the missing package *)

Lemma akshare_missing_dependency W symbol start end_ interval adjusted :
  akshare_importable W = false ->
  AkshareAdapter.fetch W symbol start end_ interval adjusted
  = Raise (AdapterError "akshare is not installed").
Proof.
  intros Himp. unfold AkshareAdapter.fetch, AkshareAdapter.fetch_body.
  rewrite Himp. reflexivity.
Qed.

Lemma yfinance_missing_dependency W symbol start end_ interval adjusted :
  yfinance_importable W = false ->
  YfinanceAdapter.import_and_fetch W symbol start end_ interval adjusted
  = Raise (Unclassified {| exc_class := "ModuleNotFoundError";
                           exc_str := "No module named 'yfinance'" |}).
Proof.
  intros Himp.
  unfold YfinanceAdapter.import_and_fetch, YfinanceAdapter.import_module.
  rewrite Himp. reflexivity.
Qed.

(** C5. For every interval other than ['1d'] and ['daily'] the exchange-API
    adapter's [fetch] returns no frame: it raises [AdapterError], with the
    message "Interval not supported by akshare adapter: <interval>" when
    akshare can be imported (and "akshare is not installed" when not); the
    provider is never asked. *)
Theorem unsupported_interval_fails W symbol start end_ interval adjusted :
  interval <> "1d" ->
  interval <> "daily" ->
  AkshareAdapter.fetch W symbol start end_ interval adjusted
  = Raise (AdapterError
             (if akshare_importable W
              then "Interval not supported by akshare adapter: " +:+ interval
              else "akshare is not installed")).
Proof.
  intros H1d Hdaily.
  assert (PyStr.in_tuple interval ["1d"; "daily"] = false) as Hint.
  { destruct (PyStr.in_tuple interval ["1d"; "daily"]) eqn:E; [|reflexivity].
    apply in_tuple_daily in E. tauto. }
  unfold AkshareAdapter.fetch, AkshareAdapter.fetch_body.
  rewrite Hint. destruct (akshare_importable W); reflexivity.
Qed.

Lemma unsupported_interval_fails_witness :
  AkshareAdapter.fetch Examples.world "sz000001" None None "1h" true
  = Raise (AdapterError "Interval not supported by akshare adapter: 1h").
Proof.
  apply (unsupported_interval_fails Examples.world "sz000001" None None
           "1h" true); discriminate.
Defined.

(** C6. On a machine without the provider packages the exchange-API adapter
    raises [AdapterError("akshare is not installed")], whereas reaching the
    installed-package adapter's [fetch] raises the [ModuleNotFoundError] of
    its top-level [import yfinance], unclassified. *)
Theorem yfinance_import_error_escapes :
  AkshareAdapter.fetch Examples.bare_world "sh600000" None None "1d" true
  = Raise (AdapterError "akshare is not installed")
  /\ YfinanceAdapter.import_and_fetch Examples.bare_world "AAPL" None None
                                      "1d" true
     = Raise (Unclassified {| exc_class := "ModuleNotFoundError";
                              exc_str := "No module named 'yfinance'" |}).
Proof.
  split.
  - apply akshare_missing_dependency. reflexivity.
  - apply yfinance_missing_dependency. reflexivity.
Qed.

(** ** The local-file adapter: date filtering *)

Lemma filter_twice {A} (f g : A -> bool) (l : list A) :
  List.filter g (List.filter f l) = List.filter (fun x => f x && g x) l.
Proof.
  induction l as [|x l IH]; simpl; [reflexivity|].
  destruct (f x); simpl; [|exact IH].
  destruct (g x); rewrite IH; reflexivity.
Qed.

Lemma filter_all {A} (l : list A) : List.filter (fun _ => true) l = l.
Proof.
  induction l as [|x l IH]; simpl; [reflexivity | rewrite IH; reflexivity].
Qed.

Lemma filter_start_spec W start df lo :
  CsvAdapter.requested_bound W start = Ok lo ->
  CsvAdapter.bound_comparable (index_tz df) lo = true ->
  CsvAdapter.filter_start W start df
  = Ok (select_rows
          (fun label => CsvAdapter.in_range lo None (cell_time label)) df).
Proof.
  unfold CsvAdapter.requested_bound, CsvAdapter.filter_start.
  destruct (CsvAdapter.bound_given start) as [s|].
  - destruct (to_datetime W (CStr s)) as [t|e]; simpl; [|discriminate].
    intros [= <-]. cbn [CsvAdapter.bound_comparable]. intros ->.
    unfold CsvAdapter.in_range, select_rows. simpl.
    do 2 f_equal. apply List.filter_ext. intros r.
    rewrite andb_true_r. reflexivity.
  - intros [= <-] _. unfold CsvAdapter.in_range, select_rows. simpl.
    rewrite filter_all. destruct df; reflexivity.
Qed.

Lemma filter_end_spec W end_ df hi :
  CsvAdapter.requested_bound W end_ = Ok hi ->
  CsvAdapter.bound_comparable (index_tz df) hi = true ->
  CsvAdapter.filter_end W end_ df
  = Ok (select_rows
          (fun label => CsvAdapter.in_range None hi (cell_time label)) df).
Proof.
  unfold CsvAdapter.requested_bound, CsvAdapter.filter_end.
  destruct (CsvAdapter.bound_given end_) as [s|].
  - destruct (to_datetime W (CStr s)) as [t|e]; simpl; [|discriminate].
    intros [= <-]. cbn [CsvAdapter.bound_comparable]. intros ->.
    reflexivity.
  - intros [= <-] _. unfold CsvAdapter.in_range, select_rows. simpl.
    rewrite filter_all. destruct df; reflexivity.
Qed.

(** What a comparison that went through tells about its bound. *)
Lemma filter_start_inv W start df df' :
  CsvAdapter.filter_start W start df = Ok df' ->
  exists lo,
    CsvAdapter.requested_bound W start = Ok lo
    /\ CsvAdapter.bound_comparable (index_tz df) lo = true.
Proof.
  unfold CsvAdapter.requested_bound, CsvAdapter.filter_start.
  destruct (CsvAdapter.bound_given start) as [s|]; [|eauto].
  destruct (to_datetime W (CStr s)) as [t|e]; simpl; [|discriminate].
  destruct (tz_compatible (index_tz df) t) eqn:E; [|discriminate].
  intros _. exists (Some t). auto.
Qed.

Lemma filter_end_inv W end_ df df' :
  CsvAdapter.filter_end W end_ df = Ok df' ->
  exists hi,
    CsvAdapter.requested_bound W end_ = Ok hi
    /\ CsvAdapter.bound_comparable (index_tz df) hi = true.
Proof.
  unfold CsvAdapter.requested_bound, CsvAdapter.filter_end.
  destruct (CsvAdapter.bound_given end_) as [s|]; [|eauto].
  destruct (to_datetime W (CStr s)) as [t|e]; simpl; [|discriminate].
  destruct (tz_compatible (index_tz df) t) eqn:E; [|discriminate].
  intros _. exists (Some t). auto.
Qed.



(** ** The index of a returned frame *)

Lemma ascending_filter (keep : Timestamp -> bool) (ts : list Timestamp) :
  ascending ts -> ascending (List.filter keep ts).
Proof.
  unfold ascending. induction 1 as [|t ts Hsorted IH Hall]; simpl.
  - constructor.
  - destruct (keep t); [|exact IH].
    constructor; [exact IH|].
    rewrite List.Forall_forall in *. intros u Hu.
    apply List.filter_In in Hu. apply Hall, Hu.
Qed.

Lemma ts_lt_irrefl (t : Timestamp) : ~ ts_lt t t.
Proof. destruct t; simpl; lia. Qed.

Lemma ascending_NoDup (ts : list Timestamp) : ascending ts -> List.NoDup ts.
Proof.
  unfold ascending. induction 1 as [|t ts Hsorted IH Hall].
  - constructor.
  - constructor; [|exact IH]. intros Hin.
    rewrite List.Forall_forall in Hall.
    exact (ts_lt_irrefl t (Hall t Hin)).
Qed.

Lemma mapM_to_datetime_rows W (label : Cell * list Cell -> Cell)
      (rest : Cell * list Cell -> list Cell) rs rs' :
  mapM (fun r => do t <- to_datetime W (label r); Ok (CTime t, rest r)) rs
  = Ok rs' ->
  mapM (to_datetime W) (List.map label rs)
  = Ok (List.map cell_time (List.map fst rs')).
Proof.
  revert rs'. induction rs as [|r rs IH]; intros rs'; simpl.
  - intros [= <-]. reflexivity.
  - destruct (to_datetime W (label r)) as [t|e]; simpl; [|discriminate].
    destruct (mapM _ rs) as [done|e]; simpl; [|discriminate].
    intros [= <-]. rewrite (IH done eq_refl). reflexivity.
Qed.

Lemma convert_index_times W df df' :
  convert_index W df = Ok df' ->
  index_kind df' = DatetimeIndex
  /\ mapM (to_datetime W) (df_index df) = Ok (df_times df').
Proof.
  unfold convert_index.
  destruct (mapM _ (rows df)) as [rs|e] eqn:E; cbn [bind]; [|discriminate].
  destruct (index_tz_of _) as [aware|e]; cbn [bind]; [|discriminate].
  intros [= <-]. split; [reflexivity|].
  exact (mapM_to_datetime_rows W fst snd (rows df) rs E).
Qed.

Lemma ensure_datetime_index_times W df df' :
  ensure_datetime_index W df = Ok df' ->
  index_kind df' = DatetimeIndex /\ index_times W df = Ok (df_times df').
Proof.
  unfold ensure_datetime_index, index_times.
  destruct (index_kind df) eqn:K; simpl.
  - apply convert_index_times.
  - intros [= <-]. split; [exact K | reflexivity].
  - apply convert_index_times.
Qed.

Lemma set_datetime_index_times W pos df df' :
  set_datetime_index W pos df = Ok df' ->
  index_kind df' = DatetimeIndex
  /\ mapM (to_datetime W) (column_cells pos df) = Ok (df_times df').
Proof.
  unfold set_datetime_index.
  destruct (mapM _ (rows df)) as [rs|e] eqn:E; cbn [bind]; [|discriminate].
  destruct (index_tz_of _) as [aware|e]; cbn [bind]; [|discriminate].
  intros [= <-]. split; [reflexivity|].
  exact (mapM_to_datetime_rows W (fun r => nth pos (snd r) CNaN)
           (fun r => remove_nth pos (snd r)) (rows df) rs E).
Qed.

Lemma datetime_index_from_times W name df df' :
  datetime_index_from W name df = Ok df' ->
  exists pos,
    column_pos name (columns df) = Some pos
    /\ index_kind df' = DatetimeIndex
    /\ mapM (to_datetime W) (column_cells pos df) = Ok (df_times df').
Proof.
  unfold datetime_index_from.
  destruct (1 <? count_occ string_dec (columns df) name)%nat; [discriminate|].
  destruct (column_pos name (columns df)) as [pos|]; [|discriminate].
  intros H. exists pos. split; [reflexivity|].
  exact (set_datetime_index_times W pos df df' H).
Qed.

Lemma has_column_pos name df :
  has_column name df = false -> column_pos name (columns df) = None.
Proof.
  unfold has_column. induction (columns df) as [|c cols IH]; simpl.
  - reflexivity.
  - destruct (String.eqb name c); simpl; [discriminate|].
    intros H. rewrite (IH H). reflexivity.
Qed.

Lemma select_rows_times (keep : Timestamp -> bool) df :
  df_times (select_rows (fun label => keep (cell_time label)) df)
  = List.filter keep (df_times df).
Proof.
  unfold df_times, df_index, select_rows. simpl.
  induction (rows df) as [|r rs IH]; simpl; [reflexivity|].
  destruct (keep (cell_time (fst r))); simpl; rewrite IH; reflexivity.
Qed.

Lemma lift_exc_Ok {E E' A} (f : E -> E') (m : result E A) (a : A) :
  lift_exc f m = Ok a -> m = Ok a.
Proof. destruct m; simpl; [intros [= <-]; reflexivity | discriminate]. Qed.

Lemma akshare_fetch_index W symbol start end_ interval adjusted df :
  AkshareAdapter.fetch W symbol start end_ interval adjusted = Ok df ->
  df = pd_DataFrame
  \/ (index_kind df = DatetimeIndex
      /\ exists df0,
          ak_stock_zh_a_daily W symbol start end_ = Ok (Some df0)
          /\ AkshareAdapter.source_times W df0 = Ok (df_times df)).
Proof.
  intros H. apply lift_exc_Ok in H. revert H.
  unfold AkshareAdapter.fetch_body.
  destruct (akshare_importable W); cbn [negb]; [|discriminate].
  destruct (PyStr.in_tuple interval ["1d"; "daily"]); [|discriminate].
  destruct (ak_stock_zh_a_daily W symbol start end_) as [[df0|]|e]; simpl;
    [| intros [= <-]; left; reflexivity | discriminate].
  destruct (df_empty df0); [intros [= <-]; left; reflexivity|].
  unfold AkshareAdapter.source_times.
  destruct (has_column "date" df0) eqn:Hdate; intros H; apply lift_exc_Ok in H.
  - apply datetime_index_from_times in H as [pos [Hpos [Hkind Htimes]]].
    right. split; [exact Hkind|]. exists df0. rewrite Hpos. auto.
  - apply ensure_datetime_index_times in H as [Hkind Htimes].
    right. split; [exact Hkind|]. exists df0.
    rewrite (has_column_pos "date" df0 Hdate). auto.
Qed.

Lemma yfinance_fetch_index W symbol start end_ interval adjusted df :
  YfinanceAdapter.fetch W symbol start end_ interval adjusted = Ok df ->
  df = pd_DataFrame
  \/ (index_kind df = DatetimeIndex
      /\ exists df0,
          yf_download W symbol start end_ interval adjusted = Ok (Some df0)
          /\ index_times W df0 = Ok (df_times df)).
Proof.
  intros H. apply lift_exc_Ok in H. revert H.
  unfold YfinanceAdapter.fetch_body.
  destruct (yf_download W symbol start end_ interval adjusted)
    as [[df0|]|e]; simpl;
    [| intros [= <-]; left; reflexivity | discriminate].
  destruct (df_empty df0); [intros [= <-]; left; reflexivity|].
  intros H. apply ensure_datetime_index_times in H as [Hkind Htimes].
  right. split; [exact Hkind|]. exists df0. auto.
Qed.

(** What a successful run of the statements after [read_csv] has done. *)
Lemma after_read_inv W start end_ df0 out :
  CsvAdapter.after_read W start end_ df0 = Ok out ->
  exists conv lo hi,
    ensure_datetime_index W (rename_columns CsvAdapter.canonical_name df0)
    = Ok conv
    /\ CsvAdapter.requested_bound W start = Ok lo
    /\ CsvAdapter.requested_bound W end_ = Ok hi
    /\ CsvAdapter.bound_comparable (index_tz conv) lo = true
    /\ CsvAdapter.bound_comparable (index_tz conv) hi = true
    /\ out = {| index_kind := index_kind conv;
                columns := columns conv;
                rows := List.filter
                          (fun r => CsvAdapter.in_range lo hi
                                      (cell_time (fst r)))
                          (rows conv);
                index_tz := index_tz conv |}.
Proof.
  unfold CsvAdapter.after_read.
  destruct (ensure_datetime_index W _) as [conv|e] eqn:Hconv; cbn [bind];
    [|discriminate].
  destruct (CsvAdapter.filter_start W start conv) as [df1|e] eqn:Hstart;
    cbn [bind]; [|discriminate].
  destruct (filter_start_inv W start conv df1 Hstart) as [lo [Hlo Hclo]].
  rewrite (filter_start_spec W start conv lo Hlo Hclo) in Hstart.
  injection Hstart as <-. intros Hend.
  destruct (filter_end_inv W end_ _ _ Hend) as [hi [Hhi Hchi]].
  rewrite (filter_end_spec W end_ _ hi Hhi Hchi) in Hend.
  injection Hend as <-.
  unfold select_rows in *. cbn [rows columns index_kind index_tz] in *.
  exists conv, lo, hi.
  split; [reflexivity|]. do 4 (split; [assumption|]).
  rewrite filter_twice. f_equal. apply List.filter_ext. intros r.
  unfold CsvAdapter.in_range. rewrite andb_true_r. reflexivity.
Qed.

Lemma filter_rows_times (keep : Timestamp -> bool) (rs : list (Cell * list Cell)) :
  List.map (fun r => cell_time (fst r))
           (List.filter (fun r => keep (cell_time (fst r))) rs)
  = List.filter keep (List.map (fun r => cell_time (fst r)) rs).
Proof.
  induction rs as [|r rs IH]; simpl; [reflexivity|].
  destruct (keep (cell_time (fst r))); simpl; rewrite IH; reflexivity.
Qed.

Lemma df_times_rows df :
  df_times df = List.map (fun r => cell_time (fst r)) (rows df).
Proof. unfold df_times, df_index. apply List.map_map. Qed.

Lemma csv_fetch_index W symbol start end_ interval csv_base df :
  CsvAdapter.fetch W symbol start end_ interval csv_base = Ok df ->
  df = pd_DataFrame
  \/ (index_kind df = DatetimeIndex
      /\ exists df0 ts0 lo hi,
          pd_read_csv W (CsvAdapter.resolve_path W symbol csv_base) = Ok df0
          /\ index_times W df0 = Ok ts0
          /\ CsvAdapter.requested_bound W start = Ok lo
          /\ CsvAdapter.requested_bound W end_ = Ok hi
          /\ df_times df = List.filter (CsvAdapter.in_range lo hi) ts0).
Proof.
  unfold CsvAdapter.fetch. cbv zeta.
  destruct (os_path_exists W _); simpl; [|intros [= <-]; left; reflexivity].
  destruct (pd_read_csv W _) as [df0|e]; [|intros [= <-]; left; reflexivity].
  intros H. apply lift_exc_Ok in H. right.
  apply after_read_inv in H
    as [conv [lo [hi [Hconv [Hlo [Hhi [_ [_ ->]]]]]]]].
  apply ensure_datetime_index_times in Hconv as [Hkind Htimes].
  split; [exact Hkind|].
  exists df0, (df_times conv), lo, hi.
  do 4 (split; [first [reflexivity | assumption]|]).
  rewrite !df_times_rows. cbn [rows]. apply filter_rows_times.
Qed.

Lemma ascending_also_NoDup (ts : list Timestamp) :
  ascending ts -> ascending ts /\ List.NoDup ts.
Proof. intros H. split; [exact H | apply ascending_NoDup, H]. Qed.

(** C3 (as the code has it). A successful [fetch] of any of the three
    adapters returns either the default empty frame [pd.DataFrame()], whose
    index is positional, or a frame with a datetime index that holds
    exactly the timestamps of the source in source order (for the
    local-file adapter exactly those inside the requested range).  Such an
    index is strictly ascending and duplicate-free whenever the source's
    timestamps are; nothing is sorted or de-duplicated. *)
Theorem result_index_follows_source W symbol start end_ interval df :
  index_kind pd_DataFrame = RangeIndex
  /\ (forall adjusted,
         AkshareAdapter.fetch W symbol start end_ interval adjusted = Ok df ->
         df = pd_DataFrame
         \/ exists df0 ts0,
             ak_stock_zh_a_daily W symbol start end_ = Ok (Some df0)
             /\ AkshareAdapter.source_times W df0 = Ok ts0
             /\ index_kind df = DatetimeIndex
             /\ df_times df = ts0
             /\ (ascending ts0 ->
                 ascending (df_times df) /\ List.NoDup (df_times df)))
  /\ (forall adjusted,
         YfinanceAdapter.fetch W symbol start end_ interval adjusted = Ok df ->
         df = pd_DataFrame
         \/ exists df0 ts0,
             yf_download W symbol start end_ interval adjusted = Ok (Some df0)
             /\ index_times W df0 = Ok ts0
             /\ index_kind df = DatetimeIndex
             /\ df_times df = ts0
             /\ (ascending ts0 ->
                 ascending (df_times df) /\ List.NoDup (df_times df)))
  /\ (forall csv_base,
         CsvAdapter.fetch W symbol start end_ interval csv_base = Ok df ->
         df = pd_DataFrame
         \/ exists df0 ts0 lo hi,
             pd_read_csv W (CsvAdapter.resolve_path W symbol csv_base) = Ok df0
             /\ index_times W df0 = Ok ts0
             /\ CsvAdapter.requested_bound W start = Ok lo
             /\ CsvAdapter.requested_bound W end_ = Ok hi
             /\ index_kind df = DatetimeIndex
             /\ df_times df = List.filter (CsvAdapter.in_range lo hi) ts0
             /\ (ascending ts0 ->
                 ascending (df_times df) /\ List.NoDup (df_times df))).
Proof.
  split; [reflexivity|]. split; [|split].
  - intros adjusted H.
    destruct (akshare_fetch_index _ _ _ _ _ _ _ H)
      as [-> | [Hkind [df0 [Hcall Htimes]]]]; [left; reflexivity|].
    right. exists df0, (df_times df).
    do 4 (split; [first [reflexivity | assumption]|]).
    apply ascending_also_NoDup.
  - intros adjusted H.
    destruct (yfinance_fetch_index _ _ _ _ _ _ _ H)
      as [-> | [Hkind [df0 [Hcall Htimes]]]]; [left; reflexivity|].
    right. exists df0, (df_times df).
    do 4 (split; [first [reflexivity | assumption]|]).
    apply ascending_also_NoDup.
  - intros csv_base H.
    destruct (csv_fetch_index _ _ _ _ _ _ _ H)
      as [-> | [Hkind [df0 [ts0 [lo [hi [Hread [Htimes [Hlo [Hhi Hfilter]]]]]]]]]];
      [left; reflexivity|].
    right. exists df0, ts0, lo, hi.
    do 6 (split; [assumption|]).
    intros Hasc. rewrite Hfilter. apply ascending_also_NoDup.
    apply ascending_filter, Hasc.
Qed.

(** The January file from the 10th on, and the two rows akshare delivers. *)
Lemma result_index_follows_source_witness :
  (exists df0 ts0 lo hi,
      pd_read_csv Examples.world "/srv/data/csv/january.csv" = Ok df0
      /\ index_times Examples.world df0 = Ok ts0
      /\ CsvAdapter.requested_bound Examples.world (Some "2024-01-10") = Ok lo
      /\ CsvAdapter.requested_bound Examples.world None = Ok hi
      /\ DatetimeIndex = DatetimeIndex
      /\ [Examples.day 19732; Examples.day 19742; Examples.day 19753]
         = List.filter (CsvAdapter.in_range lo hi) ts0
      /\ (ascending ts0 ->
          ascending [Examples.day 19732; Examples.day 19742;
                     Examples.day 19753]
          /\ List.NoDup [Examples.day 19732; Examples.day 19742;
                         Examples.day 19753]))
  /\ (exists df0 ts0,
         ak_stock_zh_a_daily Examples.world "sz000001" None None
         = Ok (Some df0)
         /\ AkshareAdapter.source_times Examples.world df0 = Ok ts0
         /\ DatetimeIndex = DatetimeIndex
         /\ [Examples.day 19723; Examples.day 19727] = ts0
         /\ (ascending ts0 ->
             ascending [Examples.day 19723; Examples.day 19727]
             /\ List.NoDup [Examples.day 19723; Examples.day 19727])).
Proof.
  split.
  - destruct (proj2 (proj2 (proj2 (result_index_follows_source
                                     Examples.world "january"
                                     (Some "2024-01-10") None "1d" _)))
                    None eq_refl) as [Hempty | H].
    + discriminate Hempty.
    + exact H.
  - destruct (proj1 (proj2 (result_index_follows_source
                              Examples.world "sz000001" None None "1d" _))
                    true eq_refl) as [Hempty | H].
    + discriminate Hempty.
    + exact H.
Defined.

(** C3 as stated fails: for a missing file the local-file adapter returns
    [pd.DataFrame()], whose index is positional, and a file with an
    out-of-order and a repeated date comes back in file order. *)
Lemma index_not_always_ascending_datetime :
  (CsvAdapter.fetch Examples.world "nofile" None None "1d" None
   = Ok pd_DataFrame
   /\ index_kind pd_DataFrame = RangeIndex)
  /\ exists df,
      CsvAdapter.fetch Examples.world "shuffled" None None "1d" None = Ok df
      /\ df_times df = [Examples.day 19732; Examples.day 19723;
                        Examples.day 19732]
      /\ ~ ascending (df_times df)
      /\ ~ List.NoDup (df_times df).
Proof.
  split; [split; reflexivity|].
  eexists. split; [reflexivity|]. split; [reflexivity|]. split.
  - intros H. inversion H as [|t ts _ Hall]; subst.
    inversion Hall as [|u us Hlt _]; subst.
    vm_compute in Hlt. discriminate Hlt.
  - intros H. inversion H as [|t ts Hnotin _]; subst.
    apply Hnotin. right. left. reflexivity.
Qed.

(** ** AKFinance._standardize_dataframe: the necessary columns *)

Lemma has_column_In name df :
  has_column name df = true <-> List.In name (columns df).
Proof.
  unfold has_column. rewrite List.existsb_exists. split.
  - intros [c [Hin Heq]]. apply String.eqb_eq in Heq. subst c. exact Hin.
  - intros Hin. exists name. split; [exact Hin | apply String.eqb_refl].
Qed.

Lemma has_column_not_In name df :
  has_column name df = false <-> ~ List.In name (columns df).
Proof.
  rewrite <- has_column_In. destruct (has_column name df).
  - split; [discriminate | intros H; exfalso; apply H; reflexivity].
  - split; [intros _; discriminate | reflexivity].
Qed.

Lemma column_pos_lt name cols pos :
  column_pos name cols = Some pos -> (pos < List.length cols)%nat.
Proof.
  revert pos. induction cols as [|c cols IH]; intros pos; simpl.
  - discriminate.
  - destruct (String.eqb name c).
    + intros [= <-]. lia.
    + destruct (column_pos name cols) as [p|]; simpl; [|discriminate].
      intros [= <-]. specialize (IH p eq_refl). lia.
Qed.

Lemma column_pos_app_l name cols extra pos :
  column_pos name cols = Some pos ->
  column_pos name (cols ++ extra) = Some pos.
Proof.
  revert pos. induction cols as [|c cols IH]; intros pos; simpl.
  - discriminate.
  - destruct (String.eqb name c); [auto|].
    destruct (column_pos name cols) as [p|]; simpl; [|discriminate].
    intros [= <-]. rewrite (IH p eq_refl). reflexivity.
Qed.

Lemma column_pos_app_r name cols :
  ~ List.In name cols ->
  column_pos name (cols ++ [name]) = Some (List.length cols).
Proof.
  induction cols as [|c cols IH]; simpl; intros Hnotin.
  - rewrite String.eqb_refl. reflexivity.
  - destruct (String.eqb name c) eqn:E.
    + apply String.eqb_eq in E. subst c. exfalso. auto.
    + rewrite IH by auto. reflexivity.
Qed.

Lemma remove_nth_length {A B} (pos : nat) (l : list A) (l' : list B) :
  List.length l = List.length l' ->
  List.length (remove_nth pos l) = List.length (remove_nth pos l').
Proof.
  revert l l'. induction pos as [|pos IH]; intros [|x l] [|y l']; simpl;
    try discriminate; try reflexivity.
  - intros [= H]. exact H.
  - intros [= H]. rewrite (IH l l' H). reflexivity.
Qed.

Lemma remove_nth_In {A} (pos : nat) (l : list A) (x : A) :
  List.In x (remove_nth pos l) -> List.In x l.
Proof.
  revert l. induction pos as [|pos IH]; intros [|y l]; simpl; auto.
  intros [H | H]; auto.
Qed.

Lemma mapM_Forall2 {E A B} (f : A -> result E B) (l : list A) (l' : list B) :
  mapM f l = Ok l' -> Forall2 (fun x y => f x = Ok y) l l'.
Proof.
  revert l'. induction l as [|x l IH]; intros l'; simpl.
  - intros [= <-]. constructor.
  - destruct (f x) as [y|e] eqn:Hx; simpl; [|discriminate].
    destruct (mapM f l) as [ys|e]; simpl; [|discriminate].
    intros [= <-]. constructor; [exact Hx | apply IH; reflexivity].
Qed.

Lemma mapM_Raise {E A B} (f : A -> result E B) (l : list A) (e : E) :
  mapM f l = Raise e -> exists x, List.In x l /\ f x = Raise e.
Proof.
  induction l as [|x l IH]; simpl; [discriminate|].
  destruct (f x) as [y|e0] eqn:Hx; simpl.
  - destruct (mapM f l) as [ys|e1]; simpl; [discriminate|].
    intros [= <-]. destruct (IH eq_refl) as [x0 [Hin Hx0]].
    exists x0. split; [right; exact Hin | exact Hx0].
  - intros [= <-]. exists x. split; [left; reflexivity | exact Hx].
Qed.

Lemma mapM_map {E A B C} (g : A -> B) (f : B -> result E C) (l : list A) :
  mapM f (List.map g l) = mapM (fun x => f (g x)) l.
Proof.
  induction l as [|x l IH]; simpl; [reflexivity|]. rewrite IH. reflexivity.
Qed.

(** What the row-wise conversion of [set_datetime_index] yields, in terms of
    the converted column. *)
Lemma converted_rows_times W pos (rs rs' : list (Cell * list Cell)) :
  mapM (fun r => do t <- to_datetime W (nth pos (snd r) CNaN);
                 Ok (CTime t, remove_nth pos (snd r))) rs = Ok rs' ->
  mapM (to_datetime W) (List.map (fun r => nth pos (snd r) CNaN) rs)
  = Ok (List.map (fun r => cell_time (fst r)) rs').
Proof.
  revert rs'. induction rs as [|r rs IH]; intros rs'; simpl.
  - intros [= <-]. reflexivity.
  - destruct (to_datetime W (nth pos (snd r) CNaN)) as [t|e]; simpl;
      [|discriminate].
    destruct (mapM _ rs) as [rs0|e]; simpl; [|discriminate].
    intros [= <-]. rewrite (IH rs0 eq_refl). reflexivity.
Qed.

Lemma set_datetime_index_well_formed W pos df df' :
  well_formed df ->
  set_datetime_index W pos df = Ok df' ->
  well_formed df' /\ columns df' = remove_nth pos (columns df).
Proof.
  unfold well_formed, set_datetime_index. intros Hwf.
  destruct (mapM _ (rows df)) as [rs|e] eqn:E; cbn [bind]; [|discriminate].
  destruct (index_tz_of _) as [aware|e]; cbn [bind]; [|discriminate].
  intros [= <-]. simpl. split; [|reflexivity].
  apply mapM_Forall2 in E. induction E as [|r r' rs0 rs' Hr _ IH].
  - constructor.
  - inversion Hwf as [|? ? Hlen Hrest]; subst. constructor; [|exact (IH Hrest)].
    destruct (to_datetime W (nth pos (snd r) CNaN)); simpl in Hr;
      [|discriminate].
    injection Hr as <-. simpl. apply remove_nth_length, Hlen.
Qed.

Lemma set_datetime_index_columns W pos df df' :
  set_datetime_index W pos df = Ok df' ->
  columns df' = remove_nth pos (columns df).
Proof.
  unfold set_datetime_index.
  destruct (mapM _ (rows df)) as [rs|e]; cbn [bind]; [|discriminate].
  destruct (index_tz_of _) as [aware|e]; cbn [bind]; [|discriminate].
  intros [= <-]. reflexivity.
Qed.

(** A failure of [set_datetime_index] is a refused value or a refused
    mix. *)
Lemma set_datetime_index_Raise W pos df e :
  set_datetime_index W pos df = Raise e ->
  (exists c, List.In c (column_cells pos df) /\ to_datetime W c = Raise e)
  \/ exists ts,
      mapM (to_datetime W) (column_cells pos df) = Ok ts
      /\ index_tz_of ts = Raise e.
Proof.
  unfold set_datetime_index, column_cells.
  destruct (mapM _ (rows df)) as [rs|e0] eqn:E; cbn [bind].
  - apply converted_rows_times in E.
    destruct (index_tz_of _) as [aware|e1] eqn:Htz; cbn [bind];
      [discriminate|].
    intros [= <-]. right. eexists. split; [exact E | exact Htz].
  - intros [= <-]. left. apply mapM_Raise in E as [r [Hin Hr]].
    exists (nth pos (snd r) CNaN). split.
    + apply List.in_map_iff. exists r. split; [reflexivity | exact Hin].
    + destruct (to_datetime W (nth pos (snd r) CNaN)) as [t|e1];
        cbn [bind] in Hr; [discriminate|]. congruence.
Qed.

Lemma datetime_index_from_Raise W name df e :
  datetime_index_from W name df = Raise e ->
  has_column name df = true ->
  date_column_refused W name df e.
Proof.
  unfold datetime_index_from, date_column_refused. intros H Hcol.
  destruct (1 <? count_occ string_dec (columns df) name)%nat eqn:Hdup.
  - left. apply Nat.ltb_lt, Hdup.
  - right. destruct (column_pos name (columns df)) as [pos|] eqn:Hpos.
    + exists pos. split; [reflexivity|].
      apply set_datetime_index_Raise, H.
    + exfalso. apply has_column_In in Hcol. clear H Hdup.
      induction (columns df) as [|c cols IH]; [destruct Hcol|].
      simpl in Hpos. destruct (String.eqb name c) eqn:Heq; [discriminate|].
      apply String.eqb_neq in Heq.
      destruct (column_pos name cols); [discriminate|].
      destruct Hcol as [-> | Hin]; [congruence | exact (IH eq_refl Hin)].
Qed.

Lemma find_date_column_Some df name :
  AKFinance.find_date_column df = Some name ->
  List.In name AKFinance.date_columns /\ has_column name df = true.
Proof. unfold AKFinance.find_date_column. apply List.find_some. Qed.

Lemma with_date_range_well_formed start df :
  well_formed df ->
  well_formed (AKFinance.with_date_range start df).
Proof.
  unfold well_formed, AKFinance.with_date_range. simpl. intros Hwf.
  rewrite List.Forall_forall in *. intros r Hr.
  apply List.in_map_iff in Hr as [[t r0] [<- Hin]]. simpl.
  apply Hwf. exact (List.in_combine_r _ _ _ _ Hin).
Qed.

(** [default_index] returns exactly when the made-up index can be built. *)
Lemma default_index_Ok now df :
  AKFinance.default_index_representable now (df_len df) ->
  AKFinance.default_index now df
  = Ok (AKFinance.with_date_range
          (now - Z.of_nat (df_len df) * AKFinance.nanoseconds_per_day) df).
Proof.
  unfold AKFinance.default_index_representable, AKFinance.default_index.
  cbv zeta. intros [Hn [Hlo Hhi]].
  replace (AKFinance.max_timedelta_days <? Z.of_nat (df_len df)) with false
    by (symmetry; apply Z.ltb_ge; exact Hn).
  replace (_ <? AKFinance.datetime_min) with false
    by (symmetry; apply Z.ltb_ge; revert Hlo;
        unfold AKFinance.datetime_min, AKFinance.Timestamp_min; lia).
  replace (_ <? AKFinance.Timestamp_min) with false
    by (symmetry; apply Z.ltb_ge; exact Hlo).
  replace (AKFinance.Timestamp_max <? _) with false; [reflexivity|].
  symmetry. apply Z.ltb_ge. revert Hhi.
  unfold AKFinance.nanoseconds_per_day. lia.
Qed.

Lemma default_index_inv now df r :
  AKFinance.default_index now df = r ->
  match r with
  | Ok df' =>
      AKFinance.default_index_representable now (df_len df)
      /\ df' = AKFinance.with_date_range
                 (now - Z.of_nat (df_len df) * AKFinance.nanoseconds_per_day)
                 df
  | Raise _ => ~ AKFinance.default_index_representable now (df_len df)
  end.
Proof.
  unfold AKFinance.default_index_representable, AKFinance.default_index.
  cbv zeta. intros <-.
  destruct (AKFinance.max_timedelta_days <? Z.of_nat (df_len df)) eqn:Hn.
  { apply Z.ltb_lt in Hn. lia. }
  apply Z.ltb_ge in Hn.
  destruct (_ <? AKFinance.datetime_min) eqn:Hmin.
  { apply Z.ltb_lt in Hmin. revert Hmin.
    unfold AKFinance.datetime_min, AKFinance.Timestamp_min. lia. }
  destruct (_ <? AKFinance.Timestamp_min) eqn:Hlo; cbn [orb].
  { apply Z.ltb_lt in Hlo. lia. }
  apply Z.ltb_ge in Hlo.
  destruct (AKFinance.Timestamp_max <? _) eqn:Hhi.
  - apply Z.ltb_lt in Hhi. revert Hhi.
    unfold AKFinance.nanoseconds_per_day. lia.
  - apply Z.ltb_ge in Hhi. unfold AKFinance.nanoseconds_per_day in *.
    split; [|reflexivity]. lia.
Qed.

Lemma ensure_column_well_formed df col :
  well_formed df -> well_formed (AKFinance.ensure_column df col).
Proof.
  unfold AKFinance.ensure_column. intros Hwf.
  destruct (has_column col df); [exact Hwf|].
  unfold well_formed, add_constant_column in *. simpl.
  rewrite List.Forall_forall in *. intros r Hr.
  apply List.in_map_iff in Hr as [r0 [<- Hin]]. simpl.
  rewrite !List.length_app, (Hwf r0 Hin). reflexivity.
Qed.

Lemma ensure_column_In df col c :
  List.In c (columns (AKFinance.ensure_column df col))
  <-> List.In c (columns df) \/ c = col.
Proof.
  unfold AKFinance.ensure_column.
  destruct (has_column col df) eqn:E.
  - apply has_column_In in E. split; [auto|]. intros [H | ->]; assumption.
  - simpl. rewrite List.in_app_iff. simpl. intuition.
Qed.

Lemma ensure_column_new df col :
  well_formed df ->
  has_column col df = false ->
  zero_column col (AKFinance.ensure_column df col).
Proof.
  intros Hwf Hmissing. unfold AKFinance.ensure_column. rewrite Hmissing.
  apply has_column_not_In in Hmissing.
  exists (List.length (columns df)). simpl. split.
  - apply column_pos_app_r, Hmissing.
  - unfold well_formed in Hwf. rewrite List.Forall_forall in *.
    intros r Hr. apply List.in_map_iff in Hr as [r0 [<- Hin]]. simpl.
    rewrite <- (Hwf r0 Hin), List.app_nth2, Nat.sub_diag by lia.
    reflexivity.
Qed.

Lemma ensure_column_keeps_zero df col c :
  well_formed df ->
  zero_column c df ->
  zero_column c (AKFinance.ensure_column df col).
Proof.
  intros Hwf [pos [Hpos Hzero]]. unfold AKFinance.ensure_column.
  destruct (has_column col df); [exists pos; auto|].
  exists pos. simpl. split; [apply column_pos_app_l, Hpos|].
  apply column_pos_lt in Hpos.
  unfold well_formed in Hwf. rewrite List.Forall_forall in *.
  intros r Hr. apply List.in_map_iff in Hr as [r0 [<- Hin]]. simpl.
  rewrite List.app_nth1 by (rewrite (Hwf r0 Hin); exact Hpos).
  apply Hzero, Hin.
Qed.

Lemma fold_ensure_column_In cols df c :
  List.In c (columns (fold_left AKFinance.ensure_column cols df))
  <-> List.In c (columns df) \/ List.In c cols.
Proof.
  revert df. induction cols as [|col cols IH]; intros df; simpl.
  - tauto.
  - rewrite IH, ensure_column_In. intuition.
Qed.

Lemma fold_ensure_column_keeps_zero cols df c :
  well_formed df ->
  zero_column c df ->
  zero_column c (fold_left AKFinance.ensure_column cols df).
Proof.
  revert df. induction cols as [|col cols IH]; intros df Hwf Hzero; simpl.
  - exact Hzero.
  - apply IH.
    + apply ensure_column_well_formed, Hwf.
    + apply ensure_column_keeps_zero; assumption.
Qed.

Lemma fold_ensure_column_new cols df c :
  well_formed df ->
  List.In c cols ->
  has_column c df = false ->
  zero_column c (fold_left AKFinance.ensure_column cols df).
Proof.
  revert df. induction cols as [|col cols IH]; intros df Hwf Hin Hmissing;
    simpl.
  - destruct Hin.
  - destruct (string_dec c col) as [-> | Hne].
    + apply fold_ensure_column_keeps_zero.
      * apply ensure_column_well_formed, Hwf.
      * apply ensure_column_new; assumption.
    + destruct Hin as [-> | Hin]; [congruence|].
      apply IH; [apply ensure_column_well_formed, Hwf | exact Hin |].
      apply has_column_not_In. rewrite ensure_column_In.
      apply has_column_not_In in Hmissing. tauto.
Qed.

Lemma rename_columns_well_formed f df :
  well_formed df -> well_formed (rename_columns f df).
Proof.
  unfold well_formed, rename_columns. simpl.
  rewrite List.length_map. auto.
Qed.

Lemma standardize_index_step W now renamed mid :
  well_formed renamed ->
  match AKFinance.find_date_column renamed with
  | Some date_column => datetime_index_from W date_column renamed
  | None => AKFinance.default_index now renamed
  end = Ok mid ->
  well_formed mid.
Proof.
  intros Hwf.
  destruct (AKFinance.find_date_column renamed) as [date_column|].
  - unfold datetime_index_from.
    destruct (1 <? count_occ string_dec (columns renamed) date_column)%nat;
      [discriminate|].
    destruct (column_pos date_column (columns renamed)) as [pos|];
      [|discriminate].
    intros H.
    exact (proj1 (set_datetime_index_well_formed W pos renamed mid Hwf H)).
  - intros H. apply default_index_inv in H as [_ ->].
    apply with_date_range_well_formed, Hwf.
Qed.

Lemma standardize_index_step_columns W now renamed mid :
  match AKFinance.find_date_column renamed with
  | Some date_column => datetime_index_from W date_column renamed
  | None => AKFinance.default_index now renamed
  end = Ok mid ->
  forall c, List.In c (columns mid) -> List.In c (columns renamed).
Proof.
  destruct (AKFinance.find_date_column renamed) as [date_column|].
  - unfold datetime_index_from.
    destruct (1 <? count_occ string_dec (columns renamed) date_column)%nat;
      [discriminate|].
    destruct (column_pos date_column (columns renamed)) as [pos|];
      [|discriminate].
    intros H c. rewrite (set_datetime_index_columns W pos renamed mid H).
    apply remove_nth_In.
  - intros H. apply default_index_inv in H as [_ ->]. auto.
Qed.

Lemma ensure_datetime_index_columns W df conv :
  ensure_datetime_index W df = Ok conv -> columns conv = columns df.
Proof.
  unfold ensure_datetime_index, convert_index.
  destruct (is_DatetimeIndex (index_kind df)); [intros [= <-]; reflexivity|].
  destruct (mapM _ (rows df)) as [rs|e]; cbn [bind]; [|discriminate].
  destruct (index_tz_of _) as [aware|e]; cbn [bind]; [|discriminate].
  intros [= <-]. reflexivity.
Qed.

(** The columns of what the local-file adapter returns for a file it read:
    the file's columns under their canonical names. *)
Lemma csv_fetch_columns W symbol start end_ interval csv_base df :
  CsvAdapter.fetch W symbol start end_ interval csv_base = Ok df ->
  df = pd_DataFrame
  \/ exists df0,
      pd_read_csv W (CsvAdapter.resolve_path W symbol csv_base) = Ok df0
      /\ columns df = List.map CsvAdapter.canonical_name (columns df0).
Proof.
  unfold CsvAdapter.fetch. cbv zeta.
  destruct (os_path_exists W _); simpl; [|intros [= <-]; left; reflexivity].
  destruct (pd_read_csv W _) as [df0|e]; [|intros [= <-]; left; reflexivity].
  intros H. apply lift_exc_Ok in H. right. exists df0.
  split; [reflexivity|].
  apply after_read_inv in H as [conv [lo [hi [Hconv [_ [_ [_ [_ ->]]]]]]]].
  cbn [columns]. apply ensure_datetime_index_columns in Hconv.
  exact Hconv.
Qed.

(** C8 (as the code has it). [_standardize_dataframe] returns
    [pd.DataFrame()] for [None] and for an empty frame.  For a non-empty
    frame it fails only over the index: its date column is refused by
    [pd.to_datetime], or it has no date column and the made-up index cannot
    be built; without a date column and with a representable index it
    returns.  Whenever it returns, Open, High, Low, Close and Volume are
    columns of the result, each of them that the renamed source lacked holds
    0.0 in every row (of a rectangular frame), and every column of the
    result is a column of the renamed source or one of those five, so
    adjusted-close is never added.  The local-file adapter only renames: the
    columns of what it returns for a file it read are the file's columns
    under their canonical names. *)
Theorem standardize_fills_necessary_columns W now exchange :
  AKFinance._standardize_dataframe W now None exchange = Ok pd_DataFrame
  /\ (forall df0,
         df_empty df0 = true ->
         AKFinance._standardize_dataframe W now (Some df0) exchange
         = Ok pd_DataFrame)
  /\ (forall df0,
         df_empty df0 = false ->
         let renamed :=
           rename_columns (AKFinance.rename_with AKFinance._get_column_mapping)
                          df0 in
         (forall e,
             AKFinance._standardize_dataframe W now (Some df0) exchange
             = Raise e ->
             (exists date_column,
                 AKFinance.find_date_column renamed = Some date_column
                 /\ date_column_refused W date_column renamed e)
             \/ (AKFinance.find_date_column renamed = None
                 /\ ~ AKFinance.default_index_representable
                       now (df_len df0)))
         /\ (AKFinance.find_date_column renamed = None ->
             AKFinance.default_index_representable now (df_len df0) ->
             exists df,
               AKFinance._standardize_dataframe W now (Some df0) exchange
               = Ok df)
         /\ forall df,
             AKFinance._standardize_dataframe W now (Some df0) exchange
             = Ok df ->
             (forall col,
                 List.In col AKFinance.necessary_columns ->
                 has_column col df = true
                 /\ (well_formed df0 ->
                     has_column col renamed = false -> zero_column col df))
             /\ (forall col,
                    has_column col df = true ->
                    has_column col renamed = true
                    \/ List.In col AKFinance.necessary_columns))
  /\ (forall symbol start end_ interval csv_base df,
         CsvAdapter.fetch W symbol start end_ interval csv_base = Ok df ->
         df = pd_DataFrame
         \/ exists df0,
             pd_read_csv W (CsvAdapter.resolve_path W symbol csv_base) = Ok df0
             /\ columns df = List.map CsvAdapter.canonical_name (columns df0)).
Proof.
  split; [reflexivity|]. split; [|split].
  - intros df0 Hempty. unfold AKFinance._standardize_dataframe.
    rewrite Hempty. reflexivity.
  - intros df0 Hnonempty renamed.
    unfold AKFinance._standardize_dataframe. rewrite Hnonempty.
    fold renamed.
    assert (df_len renamed = df_len df0) as Hlen by reflexivity.
    split; [|split].
    + intros e H.
      destruct (AKFinance.find_date_column renamed) as [date_column|] eqn:Hfind.
      * left. exists date_column. split; [reflexivity|].
        destruct (datetime_index_from W date_column renamed) as [mid|e0]
          eqn:Hmid; cbn [bind] in H; [discriminate|].
        injection H as <-.
        apply (datetime_index_from_Raise W date_column renamed e0 Hmid).
        apply (find_date_column_Some renamed date_column Hfind).
      * right. split; [reflexivity|]. rewrite <- Hlen.
        destruct (AKFinance.default_index now renamed) as [mid|e0] eqn:Hmid;
          cbn [bind] in H; [discriminate|].
        exact (default_index_inv now renamed (Raise e0) Hmid).
    + intros Hnone Hrep. rewrite Hnone.
      rewrite <- Hlen in Hrep. rewrite (default_index_Ok now renamed Hrep).
      cbn [bind]. eauto.
    + intros df H.
      destruct (match AKFinance.find_date_column renamed with
                | Some date_column => datetime_index_from W date_column renamed
                | None => AKFinance.default_index now renamed
                end) as [mid|e] eqn:Hmid; cbn [bind] in H; [|discriminate].
      injection H as <-.
      pose proof (standardize_index_step_columns W now renamed mid Hmid)
        as Hsub.
      split.
      * intros col Hcol. split.
        -- apply (proj2 (has_column_In col _)).
           apply (proj2 (fold_ensure_column_In
                           AKFinance.necessary_columns mid col)).
           right. exact Hcol.
        -- intros Hwf Hmissing.
           assert (well_formed renamed) as Hwfr
               by (apply rename_columns_well_formed, Hwf).
           apply (fold_ensure_column_new AKFinance.necessary_columns mid col);
             [exact (standardize_index_step W now renamed mid Hwfr Hmid)
             | exact Hcol |].
           apply has_column_not_In. intros Hin.
           apply has_column_not_In in Hmissing.
           exact (Hmissing (Hsub col Hin)).
      * intros col Hcol. apply has_column_In in Hcol.
        apply (proj1 (fold_ensure_column_In
                        AKFinance.necessary_columns mid col)) in Hcol.
        destruct Hcol as [Hin | Hin]; [left | right; exact Hin].
        apply has_column_In, Hsub, Hin.
  - intros symbol start end_ interval csv_base df.
    apply csv_fetch_columns.
Qed.

Lemma ak_hist_well_formed : well_formed Examples.ak_hist.
Proof. repeat constructor. Qed.

(** A frame with date, open and close: High is added, filled with zeros,
    and no adjusted-close appears. *)
Lemma standardize_fills_necessary_columns_witness :
  AKFinance._standardize_dataframe Examples.world 0 (Some Examples.ak_hist)
                                   "SH"
  = Ok {| index_kind := DatetimeIndex;
          columns := ["Open"; "Close"; "High"; "Low"; "Volume"];
          rows := [ (CTime (Examples.day 19723),
                     [CNum 9; CNum 10; CNum 0; CNum 0; CNum 0]);
                    (CTime (Examples.day 19727),
                     [CNum 10; CNum 11; CNum 0; CNum 0; CNum 0]) ];
          index_tz := false |}
  /\ zero_column "High"
       {| index_kind := DatetimeIndex;
          columns := ["Open"; "Close"; "High"; "Low"; "Volume"];
          rows := [ (CTime (Examples.day 19723),
                     [CNum 9; CNum 10; CNum 0; CNum 0; CNum 0]);
                    (CTime (Examples.day 19727),
                     [CNum 10; CNum 11; CNum 0; CNum 0; CNum 0]) ];
          index_tz := false |}.
Proof.
  split; [reflexivity|].
  destruct (standardize_fills_necessary_columns Examples.world 0 "SH")
    as [_ [_ [H _]]].
  destruct (H Examples.ak_hist eq_refl) as [_ [_ Hok]].
  destruct (Hok _ eq_refl) as [Hcols _].
  apply (proj2 (Hcols "High" (or_intror (or_introl eq_refl))));
    [exact ak_hist_well_formed | reflexivity].
Defined.

(** C8 as stated fails: [_standardize_dataframe] never adds an
    adjusted-close column and returns a frame without columns for an empty
    input, and the local-file adapter adds no column at all. *)
Lemma canonical_columns_not_always_present :
  (exists df,
      AKFinance._standardize_dataframe Examples.world 0
                                       (Some Examples.ak_hist) "SH" = Ok df
      /\ has_column "Adj Close" df = false)
  /\ (AKFinance._standardize_dataframe Examples.world 0 None "SH"
      = Ok pd_DataFrame
      /\ has_column "Open" pd_DataFrame = false)
  /\ exists df,
      CsvAdapter.fetch Examples.world "january" None None "1d" None = Ok df
      /\ has_column "Open" df = false.
Proof.
  split; [|split].
  - eexists. split; reflexivity.
  - split; reflexivity.
  - eexists. split; reflexivity.
Qed.

(** ** Failures at the adapter boundary *)

Lemma classify_cases (e : PyException) :
  (RateLimitWording (exc_str e) /\ classify e = RateLimitError (exc_str e))
  \/ (~ RateLimitWording (exc_str e) /\ classify e = AdapterError (exc_str e)).
Proof.
  destruct (rate_limit_wording (PyStr.lower (exc_str e))) eqn:E.
  - left. apply rate_limit_wording_spec in E.
    split; [exact E | apply classify_rate_limit, E].
  - right. assert (~ RateLimitWording (exc_str e)) as Hno.
    { intros H. apply rate_limit_wording_spec in H. congruence. }
    split; [exact Hno | apply classify_other, Hno].
Qed.

(** C9 (as the code has it). In the exchange-API and the installed-package
    adapter every failure inside [fetch] leaves as one of the two kinds: the
    adapter's own [AdapterError] unchanged, a foreign exception as
    [RateLimitError] when its lowercased message has rate-limit wording and
    as [AdapterError] otherwise.  The local-file adapter classifies nothing:
    when reading an existing file fails, it returns the empty frame. *)
Theorem failures_at_the_boundary W symbol start end_ interval adjusted :
  (forall t,
      AkshareAdapter.fetch_body W symbol start end_ interval = Raise t ->
      exists r,
        AkshareAdapter.fetch W symbol start end_ interval adjusted = Raise r
        /\ match t with
           | Own msg => r = AdapterError msg
           | Foreign e =>
               (RateLimitWording (exc_str e)
                /\ r = RateLimitError (exc_str e))
               \/ (~ RateLimitWording (exc_str e)
                   /\ r = AdapterError (exc_str e))
           end)
  /\ (forall e,
         YfinanceAdapter.fetch_body W symbol start end_ interval adjusted
         = Raise e ->
         exists r,
           YfinanceAdapter.fetch W symbol start end_ interval adjusted
           = Raise r
           /\ ((RateLimitWording (exc_str e)
                /\ r = RateLimitError (exc_str e))
               \/ (~ RateLimitWording (exc_str e)
                   /\ r = AdapterError (exc_str e))))
  /\ (forall csv_base e,
         os_path_exists W (CsvAdapter.resolve_path W symbol csv_base) = true ->
         pd_read_csv W (CsvAdapter.resolve_path W symbol csv_base) = Raise e ->
         CsvAdapter.fetch W symbol start end_ interval csv_base
         = Ok pd_DataFrame).
Proof.
  split; [|split].
  - intros t Hbody. unfold AkshareAdapter.fetch. rewrite Hbody. simpl.
    eexists. split; [reflexivity|].
    destruct t as [msg|e]; simpl; [reflexivity | apply classify_cases].
  - intros e Hbody. unfold YfinanceAdapter.fetch. rewrite Hbody. simpl.
    eexists. split; [reflexivity | apply classify_cases].
  - intros csv_base e Hexists Hread. unfold CsvAdapter.fetch. cbv zeta.
    rewrite Hexists, Hread. reflexivity.
Qed.

(** A malformed answer of akshare leaves as [AdapterError]; an unreadable
    file leaves the local-file adapter as an empty frame. *)
Lemma failures_at_the_boundary_witness :
  (exists r,
      AkshareAdapter.fetch Examples.world "sz000002" None None "1d" true
      = Raise r
      /\ ((RateLimitWording "Unknown datetime string format"
           /\ r = RateLimitError "Unknown datetime string format")
          \/ (~ RateLimitWording "Unknown datetime string format"
              /\ r = AdapterError "Unknown datetime string format")))
  /\ CsvAdapter.fetch Examples.world "broken" None None "1d" None
     = Ok pd_DataFrame.
Proof.
  split.
  - exact (proj1 (failures_at_the_boundary
                    Examples.world "sz000002" None None "1d" true)
                 (Foreign {| exc_class := "ValueError";
                             exc_str := "Unknown datetime string format" |})
                 eq_refl).
  - exact (proj2 (proj2 (failures_at_the_boundary
                           Examples.world "broken" None None "1d" true))
                 None Examples.parser_error eq_refl eq_refl).
Defined.

(** C9 as stated fails for the local-file adapter: a file that exists but
    cannot be parsed yields an empty frame instead of an [AdapterError], and
    a bound that is not a date makes pandas' [ValueError] leave the adapter
    as it is. *)
Lemma csv_failures_not_classified :
  (os_path_exists Examples.world "/srv/data/csv/broken.csv" = true
   /\ pd_read_csv Examples.world "/srv/data/csv/broken.csv"
      = Raise Examples.parser_error
   /\ CsvAdapter.fetch Examples.world "broken" None None "1d" None
      = Ok pd_DataFrame)
  /\ CsvAdapter.fetch Examples.world "january" (Some "yesterday") None "1d"
                      None
     = Raise (Unclassified {| exc_class := "ValueError";
                              exc_str := "Unknown datetime string format" |}).
Proof.
  split; [split; [|split]|]; reflexivity.
Qed.

(** ** The dispatcher: cache hits *)

Lemma cache_get_put st key df :
  Fetcher.cache_get (Fetcher.cache_put st key df) key = Some df.
Proof. unfold Fetcher.cache_get, Fetcher.cache_put. simpl. apply lookup_insert_eq. Qed.

Lemma get_history_populates adapter normalize st req source refresh df st1 :
  Fetcher.get_history adapter normalize st req source true refresh
  = (Ok df, st1) ->
  Fetcher.cache_get st1 (Fetcher.symbol req, source, Fetcher.interval req)
  = Some df.
Proof.
  unfold Fetcher.get_history. cbv zeta.
  destruct (if true && negb refresh then _ else None) as [hit|] eqn:Hlookup.
  - intros [= <- <-]. destruct (true && negb refresh); [exact Hlookup|].
    discriminate.
  - destruct (adapter source req) as [raw|e]; [|discriminate].
    intros [= <- <-]. apply cache_get_put.
Qed.

(** C1. With caching on, once a call of [get_history] for (symbol, source,
    interval) has returned a series, a following call for the same key with
    [refresh=false] returns that same series and leaves the store as it is;
    in particular the count of adapter invocations does not move. *)
Theorem cached_call_skips_adapter
        adapter normalize st req1 req2 source refresh1 df st1 :
  Fetcher.symbol req2 = Fetcher.symbol req1 ->
  Fetcher.interval req2 = Fetcher.interval req1 ->
  Fetcher.get_history adapter normalize st req1 source true refresh1
  = (Ok df, st1) ->
  Fetcher.get_history adapter normalize st1 req2 source true false
  = (Ok df, st1)
  /\ Fetcher.adapter_calls
       (snd (Fetcher.get_history adapter normalize st1 req2 source true false))
     = Fetcher.adapter_calls st1.
Proof.
  intros Hsym Hint Hfirst.
  apply get_history_populates in Hfirst.
  assert (Fetcher.get_history adapter normalize st1 req2 source true false
          = (Ok df, st1)) as Hsecond.
  { unfold Fetcher.get_history. cbv zeta. rewrite Hsym, Hint. simpl.
    rewrite Hfirst. reflexivity. }
  split; [exact Hsecond | rewrite Hsecond; reflexivity].
Qed.

Lemma first_call_fetches :
  Fetcher.get_history (Fetcher.registry Examples.world) id Fetcher.empty_store
    {| Fetcher.symbol := "sz000001"; Fetcher.start := None;
       Fetcher.end_ := None; Fetcher.interval := "1d" |}
    Fetcher.akshare true false
  = (Ok {| index_kind := DatetimeIndex;
           columns := ["open"; "close"];
           rows := [ (CTime (Examples.day 19723), [CNum 9; CNum 10]);
                     (CTime (Examples.day 19727), [CNum 10; CNum 11]) ];
           index_tz := false |},
     Fetcher.cache_put (Fetcher.count_call Fetcher.empty_store)
       ("sz000001", Fetcher.akshare, "1d")
       {| index_kind := DatetimeIndex;
          columns := ["open"; "close"];
          rows := [ (CTime (Examples.day 19723), [CNum 9; CNum 10]);
                    (CTime (Examples.day 19727), [CNum 10; CNum 11]) ];
          index_tz := false |}).
Proof.
  unfold Fetcher.get_history. cbv zeta.
  unfold Fetcher.cache_get, Fetcher.empty_store. simpl Fetcher.cache.
  rewrite lookup_empty. reflexivity.
Qed.

(** The demo script's call, twice: the second one, for another date range,
    is answered from the cache after a single adapter invocation. *)
Lemma cached_call_skips_adapter_witness :
  let st1 :=
    snd (Fetcher.get_history (Fetcher.registry Examples.world) id
           Fetcher.empty_store
           {| Fetcher.symbol := "sz000001"; Fetcher.start := None;
              Fetcher.end_ := None; Fetcher.interval := "1d" |}
           Fetcher.akshare true false) in
  Fetcher.adapter_calls st1 = 1%nat
  /\ Fetcher.get_history (Fetcher.registry Examples.world) id st1
       {| Fetcher.symbol := "sz000001"; Fetcher.start := Some "2024-01-05";
          Fetcher.end_ := None; Fetcher.interval := "1d" |}
       Fetcher.akshare true false
     = (Ok {| index_kind := DatetimeIndex;
              columns := ["open"; "close"];
              rows := [ (CTime (Examples.day 19723), [CNum 9; CNum 10]);
                        (CTime (Examples.day 19727), [CNum 10; CNum 11]) ];
              index_tz := false |},
        st1).
Proof.
  intros st1. unfold st1. rewrite first_call_fetches. split; [reflexivity|].
  exact (proj1 (cached_call_skips_adapter
                  (Fetcher.registry Examples.world) id Fetcher.empty_store
                  _ {| Fetcher.symbol := "sz000001";
                       Fetcher.start := Some "2024-01-05";
                       Fetcher.end_ := None; Fetcher.interval := "1d" |}
                  Fetcher.akshare false _ _
                  eq_refl eq_refl first_call_fetches)).
Defined.

(** ** The moving-average strategy: warm-up *)

Lemma deque_append_length (maxlen : nat) l x :
  List.length (MovingAverage.deque_append maxlen l x)
  = Nat.min (S (List.length l)) maxlen.
Proof.
  unfold MovingAverage.deque_append.
  rewrite List.length_skipn, List.length_app.
  change (List.length [x]) with 1%nat. lia.
Qed.

Lemma step_windows fos s c :
  MovingAverage.short_window (MovingAverage.step fos s c)
  = MovingAverage.short_window s
  /\ MovingAverage.long_window (MovingAverage.step fos s c)
     = MovingAverage.long_window s.
Proof.
  destruct c as [|bar| |]; simpl; auto.
  - unfold MovingAverage.on_bar.
    destruct (MovingAverage.close_of fos bar); simpl; auto.
  - unfold MovingAverage.generate_signals.
    destruct (_ <? _); simpl; auto.
    destruct (MovingAverage.rolling_mean_last
                (MovingAverage.short_window s) _); simpl; auto.
    destruct (MovingAverage.rolling_mean_last
                (MovingAverage.long_window s) _); simpl; auto.
Qed.

Lemma step_prices fos s c n :
  List.length (MovingAverage.prices s)
  = Nat.min n (Z.to_nat (MovingAverage.long_window s)) ->
  List.length (MovingAverage.prices (MovingAverage.step fos s c))
  = Nat.min (MovingAverage.observe fos n c)
            (Z.to_nat (MovingAverage.long_window s)).
Proof.
  intros Hlen.
  destruct c as [|bar| |];
    cbn [MovingAverage.step MovingAverage.observe].
  - reflexivity.
  - unfold MovingAverage.on_bar.
    destruct (MovingAverage.close_of fos bar) as [close|e];
      cbn [bind MovingAverage.prices].
    + rewrite deque_append_length, Hlen. lia.
    + exact Hlen.
  - unfold MovingAverage.generate_signals.
    destruct (_ <? _); [exact Hlen|].
    destruct (MovingAverage.rolling_mean_last
                (MovingAverage.short_window s) _);
      cbn [bind]; [|exact Hlen].
    destruct (MovingAverage.rolling_mean_last
                (MovingAverage.long_window s) _);
      cbn [bind]; exact Hlen.
  - exact Hlen.
Qed.

(** The deque holds as many prices as were observed since the last
    [on_start], capped at [long_window]; the windows never change. *)
Lemma run_invariant fos s0 calls :
  MovingAverage.prices s0 = [] ->
  let s := MovingAverage.run fos s0 calls in
  MovingAverage.short_window s = MovingAverage.short_window s0
  /\ MovingAverage.long_window s = MovingAverage.long_window s0
  /\ List.length (MovingAverage.prices s)
     = Nat.min (MovingAverage.observed fos calls)
               (Z.to_nat (MovingAverage.long_window s0)).
Proof.
  intros Hempty. unfold MovingAverage.run, MovingAverage.observed.
  induction calls as [|c calls IH] using List.rev_ind; simpl.
  - rewrite Hempty. auto.
  - rewrite !List.fold_left_app. simpl.
    destruct IH as [Hshort [Hlong Hlen]].
    destruct (step_windows fos (fold_left (MovingAverage.step fos) calls s0) c)
      as [Hs Hl].
    split; [congruence|]. split; [congruence|].
    rewrite <- Hlong. apply step_prices. rewrite Hlong. exact Hlen.
Qed.

Lemma init_prices config s0 :
  MovingAverage.init config = Ok s0 -> MovingAverage.prices s0 = [].
Proof.
  unfold MovingAverage.init. cbv zeta.
  destruct (_ <=? _); [discriminate|].
  destruct (_ <? _); [discriminate|].
  intros [= <-]. reflexivity.
Qed.

(** C10. For a strategy object as its constructor makes it, after any
    sequence of calls in which fewer than [long_window] close prices were
    taken in by [on_bar] since the last [on_start], [generate_signals]
    returns [{"signal": None, "size": 0}] and changes nothing. *)
Theorem warm_up_gives_no_signal fos config s0 calls :
  MovingAverage.init config = Ok s0 ->
  Z.of_nat (MovingAverage.observed fos calls) < MovingAverage.long_window s0 ->
  MovingAverage.generate_signals (MovingAverage.run fos s0 calls)
  = Ok ({| MovingAverage.signal := None; MovingAverage.signal_size := 0 |},
        MovingAverage.run fos s0 calls).
Proof.
  intros Hinit Hfew.
  destruct (run_invariant fos s0 calls (init_prices config s0 Hinit))
    as [_ [Hlong Hlen]].
  unfold MovingAverage.generate_signals.
  rewrite Hlong, Hlen.
  destruct (_ <? _) eqn:E; [reflexivity|].
  apply Z.ltb_ge in E. lia.
Qed.

(** Windows 2 and 3: after a restart and two bars there is no signal yet,
    whatever was seen before the restart. *)
Lemma warm_up_gives_no_signal_witness :
  MovingAverage.observed (fun _ => None) Examples.restart_then_two_bars = 2%nat
  /\ exists s0,
      MovingAverage.init Examples.windows_2_3 = Ok s0
      /\ MovingAverage.generate_signals
           (MovingAverage.run (fun _ => None) s0
                              Examples.restart_then_two_bars)
         = Ok ({| MovingAverage.signal := None;
                  MovingAverage.signal_size := 0 |},
               {| MovingAverage.short_window := 2;
                  MovingAverage.long_window := 3;
                  MovingAverage.size := 10;
                  MovingAverage.prices :=
                    [MovingAverage.F 10; MovingAverage.F 11];
                  MovingAverage.position := 0;
                  MovingAverage._last_short_sma := None;
                  MovingAverage._last_long_sma := None |}).
Proof.
  split; [reflexivity|].
  eexists. split; [reflexivity|].
  exact (warm_up_gives_no_signal (fun _ => None) Examples.windows_2_3
           _ Examples.restart_then_two_bars eq_refl eq_refl).
Defined.

(* ===================================================================== *)
(** * Further properties of the strategy *)
(* ===================================================================== *)

Lemma step_size fos s c :
  MovingAverage.size (MovingAverage.step fos s c) = MovingAverage.size s.
Proof.
  destruct c as [|bar| |]; cbn [MovingAverage.step]; try reflexivity.
  - unfold MovingAverage.on_bar.
    destruct (MovingAverage.close_of fos bar); reflexivity.
  - unfold MovingAverage.generate_signals.
    destruct (_ <? _); [reflexivity|].
    destruct (MovingAverage.rolling_mean_last
                (MovingAverage.short_window s) _); cbn [bind];
      [|reflexivity].
    destruct (MovingAverage.rolling_mean_last
                (MovingAverage.long_window s) _); reflexivity.
Qed.

Lemma run_snoc fos s calls c :
  MovingAverage.run fos s (calls ++ [c])
  = MovingAverage.step fos (MovingAverage.run fos s calls) c.
Proof. unfold MovingAverage.run. rewrite List.fold_left_app. reflexivity. Qed.

Lemma run_config fos s0 calls :
  MovingAverage.short_window (MovingAverage.run fos s0 calls)
  = MovingAverage.short_window s0
  /\ MovingAverage.long_window (MovingAverage.run fos s0 calls)
     = MovingAverage.long_window s0
  /\ MovingAverage.size (MovingAverage.run fos s0 calls)
     = MovingAverage.size s0.
Proof.
  induction calls as [|c calls IH] using List.rev_ind.
  - auto.
  - rewrite run_snoc. destruct IH as [Hs [Hl Hz]].
    destruct (step_windows fos (MovingAverage.run fos s0 calls) c) as [Hs' Hl'].
    rewrite Hs', Hl', step_size. auto.
Qed.

Lemma init_state config s0 :
  MovingAverage.init config = Ok s0 ->
  MovingAverage.short_window s0 < MovingAverage.long_window s0
  /\ 0 <= MovingAverage.long_window s0
  /\ MovingAverage.prices s0 = []
  /\ MovingAverage.position s0 = 0
  /\ MovingAverage._last_short_sma s0 = None
  /\ MovingAverage._last_long_sma s0 = None.
Proof.
  unfold MovingAverage.init. cbv zeta.
  destruct (_ <=? _) eqn:Hle; [discriminate|].
  destruct (_ <? _) eqn:Hlt; [discriminate|].
  intros [= <-]. cbn. apply Z.leb_gt in Hle. apply Z.ltb_ge in Hlt.
  repeat split; assumption || reflexivity.
Qed.

Lemma last_n_snoc {A} (m : nat) (seen : list A) (x : A) :
  MovingAverage.last_n m (MovingAverage.last_n m seen ++ [x])
  = MovingAverage.last_n m (seen ++ [x]).
Proof.
  unfold MovingAverage.last_n.
  assert (skipn (List.length seen - m) seen ++ [x]
          = skipn (List.length seen - m) (seen ++ [x])) as ->.
  { rewrite List.skipn_app.
    replace (List.length seen - m - List.length seen)%nat with 0%nat by lia.
    reflexivity. }
  rewrite List.skipn_skipn. f_equal.
  rewrite List.length_skipn, !List.length_app.
  change (List.length [x]) with 1%nat. lia.
Qed.

Lemma step_closes fos s c seen :
  MovingAverage.prices s
  = MovingAverage.last_n (Z.to_nat (MovingAverage.long_window s)) seen ->
  MovingAverage.prices (MovingAverage.step fos s c)
  = MovingAverage.last_n (Z.to_nat (MovingAverage.long_window s))
                         (MovingAverage.record_close fos seen c).
Proof.
  intros Hp.
  destruct c as [|bar| |];
    cbn [MovingAverage.step MovingAverage.record_close].
  - unfold MovingAverage.last_n. destruct (_ - _)%nat; reflexivity.
  - unfold MovingAverage.on_bar.
    destruct (MovingAverage.close_of fos bar) as [close|e];
      cbn [bind MovingAverage.prices]; [|exact Hp].
    rewrite Hp. unfold MovingAverage.deque_append.
    apply (last_n_snoc _ seen close).
  - unfold MovingAverage.generate_signals.
    destruct (_ <? _); [exact Hp|].
    destruct (MovingAverage.rolling_mean_last
                (MovingAverage.short_window s) _); cbn [bind]; [|exact Hp].
    destruct (MovingAverage.rolling_mean_last
                (MovingAverage.long_window s) _); cbn [bind]; exact Hp.
  - exact Hp.
Qed.

(** X1. The deque of a strategy object holds, oldest first, the most recent
    [long_window] close prices taken in since the last [on_start] (all of
    them while there are fewer); older prices are gone and calls of
    [generate_signals] or [on_stop] do not touch it. *)
Theorem prices_are_the_latest_closes fos config s0 calls :
  MovingAverage.init config = Ok s0 ->
  MovingAverage.prices (MovingAverage.run fos s0 calls)
  = MovingAverage.last_n (Z.to_nat (MovingAverage.long_window s0))
                         (MovingAverage.closes fos calls).
Proof.
  intros Hinit. apply init_state in Hinit as [_ [_ [Hp _]]].
  unfold MovingAverage.closes.
  induction calls as [|c calls IH] using List.rev_ind.
  - simpl. rewrite Hp. unfold MovingAverage.last_n.
    destruct (_ - _)%nat; reflexivity.
  - rewrite run_snoc, List.fold_left_app. cbn [fold_left].
    destruct (run_config fos s0 calls) as [_ [Hl _]].
    rewrite <- Hl. apply step_closes. rewrite Hl. exact IH.
Qed.

Lemma prices_are_the_latest_closes_witness :
  exists s0,
    MovingAverage.init Examples.windows_2_3 = Ok s0
    /\ MovingAverage.prices
         (MovingAverage.run (fun _ => None) s0
            (Examples.restart_then_two_bars
             ++ [ MovingAverage.CallOnBar
                    (MovingAverage.BarDict [("close", CNum 12)]);
                  MovingAverage.CallOnBar
                    (MovingAverage.BarDict [("close", CNum 13)]) ]))
       = [MovingAverage.F 11; MovingAverage.F 12; MovingAverage.F 13].
Proof.
  eexists. split; [reflexivity|].
  exact (prices_are_the_latest_closes (fun _ => None) Examples.windows_2_3 _
           (Examples.restart_then_two_bars
            ++ [ MovingAverage.CallOnBar
                   (MovingAverage.BarDict [("close", CNum 12)]);
                 MovingAverage.CallOnBar
                   (MovingAverage.BarDict [("close", CNum 13)]) ])
           eq_refl).
Defined.

(** X2. Whatever calls a strategy object has seen, [on_start] puts it back
    into the state its constructor made: empty deque, flat position, no
    remembered averages, the configured windows and size. *)
Theorem on_start_restores_initial_state fos config s0 calls :
  MovingAverage.init config = Ok s0 ->
  MovingAverage.on_start (MovingAverage.run fos s0 calls) = s0.
Proof.
  intros Hinit.
  apply init_state in Hinit as [_ [_ [Hp [Hpos [Hls Hll]]]]].
  destruct (run_config fos s0 calls) as [Hs [Hl Hz]].
  unfold MovingAverage.on_start. rewrite Hs, Hl, Hz.
  destruct s0; simpl in *. subst. reflexivity.
Qed.

Lemma on_start_restores_initial_state_witness :
  exists s0,
    MovingAverage.init Examples.windows_2_3 = Ok s0
    /\ MovingAverage.on_start
         (MovingAverage.run (fun _ => None) s0 Examples.restart_then_two_bars)
       = s0.
Proof.
  eexists. split; [reflexivity|].
  exact (on_start_restores_initial_state (fun _ => None) Examples.windows_2_3
           _ Examples.restart_then_two_bars eq_refl).
Defined.

Lemma fle_fgt_exclusive (a b : MovingAverage.PyFloat) :
  MovingAverage.fle a b = true -> MovingAverage.fgt a b = true -> False.
Proof.
  unfold MovingAverage.fgt, MovingAverage.flt, MovingAverage.fle.
  destruct a as [|x], b as [|y]; try discriminate.
  intros Hle Hgt. apply andb_true_iff in Hgt as [Hge Hne].
  apply Qle_bool_iff in Hle. apply Qle_bool_iff in Hge.
  assert (Qeq_bool y x = true) as Heq
      by (apply Qeq_bool_iff, Qle_antisym; assumption).
  rewrite Heq in Hne. discriminate.
Qed.

(** What one successful [generate_signals] does, branch by branch. *)
Lemma generate_signals_cases s sig s' :
  MovingAverage.generate_signals s = Ok (sig, s') ->
  (MovingAverage.signal sig = None /\ MovingAverage.signal_size sig = 0
   /\ MovingAverage.position s' = MovingAverage.position s)
  \/ (exists a b,
         MovingAverage._last_short_sma s' = Some a
         /\ MovingAverage._last_long_sma s' = Some b
         /\ ((MovingAverage.signal sig = Some MovingAverage.buy
              /\ MovingAverage.fgt a b = true
              /\ MovingAverage.position s' = 1)
             \/ (MovingAverage.signal sig = Some MovingAverage.sell
                 /\ MovingAverage.flt a b = true
                 /\ MovingAverage.position s' = 0))
         /\ MovingAverage.signal_size sig = MovingAverage.size s).
Proof.
  unfold MovingAverage.generate_signals.
  destruct (_ <? _); [intros [= <- <-]; left; auto|].
  destruct (MovingAverage.rolling_mean_last
              (MovingAverage.short_window s) _) as [a|e]; cbn [bind];
    [|discriminate].
  destruct (MovingAverage.rolling_mean_last
              (MovingAverage.long_window s) _) as [b|e]; cbn [bind];
    [|discriminate].
  unfold MovingAverage.crossover.
  destruct (MovingAverage._last_short_sma s) as [ls|];
    [|intros [= <- <-]; left; auto].
  destruct (MovingAverage._last_long_sma s) as [ll|];
    [|intros [= <- <-]; left; auto].
  destruct (MovingAverage.fle ls ll && MovingAverage.fgt a b) eqn:Hbuy.
  - intros [= <- <-]. right. exists a, b. cbn.
    apply andb_true_iff in Hbuy as [_ Hgt]. auto 10.
  - destruct (MovingAverage.fge ls ll && MovingAverage.flt a b) eqn:Hsell.
    + intros [= <- <-]. right. exists a, b. cbn.
      apply andb_true_iff in Hsell as [_ Hlt]. auto 10.
    + intros [= <- <-]. left. auto.
Qed.

Lemma step_position fos s c :
  MovingAverage.position s = 0 \/ MovingAverage.position s = 1 ->
  MovingAverage.position (MovingAverage.step fos s c) = 0
  \/ MovingAverage.position (MovingAverage.step fos s c) = 1.
Proof.
  intros Hpos. destruct c as [|bar| |]; cbn [MovingAverage.step].
  - left. reflexivity.
  - unfold MovingAverage.on_bar.
    destruct (MovingAverage.close_of fos bar); exact Hpos.
  - destruct (MovingAverage.generate_signals s) as [[sig s']|e] eqn:Hgen;
      [|exact Hpos].
    destruct (generate_signals_cases s sig s' Hgen)
      as [[_ [_ Hsame]] | [a [b [_ [_ [[[_ [_ H]] | [_ [_ H]]] _]]]]]].
    + rewrite Hsame. exact Hpos.
    + right. exact H.
    + left. exact H.
  - exact Hpos.
Qed.

(** X3. The position tracker of a strategy object is always 0 (flat) or 1
    (long), whatever calls it has seen; it is never negative. *)
Theorem position_is_flat_or_long fos config s0 calls :
  MovingAverage.init config = Ok s0 ->
  MovingAverage.position (MovingAverage.run fos s0 calls) = 0
  \/ MovingAverage.position (MovingAverage.run fos s0 calls) = 1.
Proof.
  intros Hinit. apply init_state in Hinit as [_ [_ [_ [Hpos _]]]].
  induction calls as [|c calls IH] using List.rev_ind.
  - left. exact Hpos.
  - rewrite run_snoc. apply step_position, IH.
Qed.

Lemma position_is_flat_or_long_witness :
  exists s0,
    MovingAverage.init Examples.windows_2_3 = Ok s0
    /\ (MovingAverage.position
          (MovingAverage.run (fun _ => None) s0 Examples.restart_then_two_bars)
        = 0
        \/ MovingAverage.position
             (MovingAverage.run (fun _ => None) s0
                                Examples.restart_then_two_bars)
           = 1).
Proof.
  eexists. split; [reflexivity|].
  exact (position_is_flat_or_long (fun _ => None) Examples.windows_2_3 _
           Examples.restart_then_two_bars eq_refl).
Defined.

(** Calls other than [generate_signals] leave the remembered averages as
    they are, or clear both. *)
Lemma quiet_run_averages fos s calls :
  Forall MovingAverage.quiet calls ->
  (MovingAverage._last_short_sma (MovingAverage.run fos s calls)
   = MovingAverage._last_short_sma s
   /\ MovingAverage._last_long_sma (MovingAverage.run fos s calls)
      = MovingAverage._last_long_sma s)
  \/ (MovingAverage._last_short_sma (MovingAverage.run fos s calls) = None
      /\ MovingAverage._last_long_sma (MovingAverage.run fos s calls) = None).
Proof.
  induction calls as [|c calls IH] using List.rev_ind; intros Hquiet.
  - left. auto.
  - apply List.Forall_app in Hquiet as [Hcalls Hc].
    inversion Hc as [|? ? Hq _]; subst.
    rewrite run_snoc. specialize (IH Hcalls).
    destruct c as [|bar| |]; cbn [MovingAverage.step].
    + right. auto.
    + unfold MovingAverage.on_bar.
      destruct (MovingAverage.close_of fos bar); exact IH.
    + destruct Hq.
    + exact IH.
Qed.

Lemma no_signal_without_averages s sig s' :
  MovingAverage._last_short_sma s = None ->
  MovingAverage.generate_signals s = Ok (sig, s') ->
  MovingAverage.signal sig = None /\ MovingAverage.signal_size sig = 0.
Proof.
  intros Hnone. unfold MovingAverage.generate_signals.
  destruct (_ <? _); [intros [= <- <-]; auto|].
  destruct (MovingAverage.rolling_mean_last
              (MovingAverage.short_window s) _); cbn [bind]; [|discriminate].
  destruct (MovingAverage.rolling_mean_last
              (MovingAverage.long_window s) _); cbn [bind]; [|discriminate].
  rewrite Hnone. intros [= <- <-]. auto.
Qed.

(** X4. The same signal is never given twice in a row: when
    [generate_signals] has returned "buy" (or "sell"), its next call does
    not return "buy" (respectively "sell") again, whatever [on_bar],
    [on_start] and [on_stop] calls come in between. *)
Theorem signal_not_repeated fos s sig s' side calls sig2 s2 :
  MovingAverage.generate_signals s = Ok (sig, s') ->
  MovingAverage.signal sig = Some side ->
  Forall MovingAverage.quiet calls ->
  MovingAverage.generate_signals (MovingAverage.run fos s' calls)
  = Ok (sig2, s2) ->
  MovingAverage.signal sig2 <> Some side.
Proof.
  intros Hgen Hside Hquiet Hnext.
  destruct (generate_signals_cases s sig s' Hgen)
    as [[Hnone _] | [a [b [Ha [Hb [Hwhich _]]]]]]; [congruence|].
  destruct (quiet_run_averages fos s' calls Hquiet) as [[Hs Hl] | [Hs _]].
  2:{ destruct (no_signal_without_averages _ _ _ Hs Hnext) as [H _].
      congruence. }
  rewrite Ha in Hs. rewrite Hb in Hl. revert Hnext.
  unfold MovingAverage.generate_signals.
  destruct (_ <? _); [intros [= <- <-]; discriminate|].
  destruct (MovingAverage.rolling_mean_last _ _) as [a'|e]; cbn [bind];
    [|discriminate].
  destruct (MovingAverage.rolling_mean_last _ _) as [b'|e]; cbn [bind];
    [|discriminate].
  rewrite Hs, Hl. unfold MovingAverage.crossover.
  destruct Hwhich as [[Hbuy [Hgt _]] | [Hsell [Hlt _]]].
  - assert (MovingAverage.fle a b = false) as Hle.
    { destruct (MovingAverage.fle a b) eqn:E; [|reflexivity].
      destruct (fle_fgt_exclusive a b E Hgt). }
    rewrite Hle. cbn [andb].
    destruct (_ && _); intros [= <- <-]; cbn; congruence.
  - assert (MovingAverage.fge a b = false) as Hge.
    { destruct (MovingAverage.fge a b) eqn:E; [|reflexivity].
      destruct (fle_fgt_exclusive b a E Hlt). }
    rewrite Hge. cbn [andb].
    destruct (_ && _); intros [= <- <-]; cbn; congruence.
Qed.

(** X5. The first [generate_signals] after an [on_start] (or after
    construction) never signals, however many bars came in: a crossover
    needs the averages of an earlier evaluation. *)
Theorem first_evaluation_gives_no_signal fos s calls sig s' :
  Forall MovingAverage.quiet calls ->
  MovingAverage.generate_signals
    (MovingAverage.run fos (MovingAverage.on_start s) calls)
  = Ok (sig, s') ->
  MovingAverage.signal sig = None /\ MovingAverage.signal_size sig = 0.
Proof.
  intros Hquiet Hgen.
  eapply no_signal_without_averages; [|exact Hgen].
  destruct (quiet_run_averages fos (MovingAverage.on_start s) calls Hquiet)
    as [[Hs _] | [Hs _]]; exact Hs.
Qed.

(** After 10, 9, 8 and a first evaluation, the jump to 20 gives "buy"; the
    further rise to 30 gives nothing. *)
Lemma signal_not_repeated_witness :
  exists sig s' sig2 s2,
    MovingAverage.generate_signals
      (MovingAverage.run (fun _ => None) Examples.strategy_2_3
                         Examples.fall_then_jump)
    = Ok (sig, s')
    /\ MovingAverage.signal sig = Some MovingAverage.buy
    /\ MovingAverage.signal_size sig = 10
    /\ MovingAverage.generate_signals
         (MovingAverage.run (fun _ => None) s' [Examples.close_bar 30])
       = Ok (sig2, s2)
    /\ MovingAverage.signal sig2 <> Some MovingAverage.buy.
Proof.
  do 4 eexists.
  split; [reflexivity|]. split; [reflexivity|]. split; [reflexivity|].
  split; [reflexivity|].
  refine (signal_not_repeated (fun _ => None)
            (MovingAverage.run (fun _ => None) Examples.strategy_2_3
                               Examples.fall_then_jump)
            _ _ MovingAverage.buy [Examples.close_bar 30] _ _
            eq_refl eq_refl _ eq_refl).
  repeat constructor.
Defined.

(** A restart and three bars with a jump: the window is full and the short
    average is above the long one, yet the first evaluation is silent. *)
Lemma first_evaluation_gives_no_signal_witness :
  exists sig s',
    MovingAverage.generate_signals
      (MovingAverage.run (fun _ => None)
         (MovingAverage.on_start
            (MovingAverage.run (fun _ => None) Examples.strategy_2_3
                               Examples.fall_then_jump))
         [Examples.close_bar 9; Examples.close_bar 8; Examples.close_bar 20])
    = Ok (sig, s')
    /\ MovingAverage._last_short_sma s' = Some (MovingAverage.F ((8 + 20) / 2))
    /\ MovingAverage._last_long_sma s'
       = Some (MovingAverage.F ((9 + (8 + 20)) / 3))
    /\ MovingAverage.signal sig = None
    /\ MovingAverage.signal_size sig = 0.
Proof.
  do 2 eexists. split; [reflexivity|].
  split; [reflexivity|]. split; [reflexivity|].
  refine (first_evaluation_gives_no_signal (fun _ => None)
            (MovingAverage.run (fun _ => None) Examples.strategy_2_3
                               Examples.fall_then_jump)
            [Examples.close_bar 9; Examples.close_bar 8; Examples.close_bar 20]
            _ _ _ eq_refl).
  repeat constructor.
Defined.

Lemma rolling_mean_last_returns w l :
  0 <= w -> l <> [] ->
  exists x, MovingAverage.rolling_mean_last w l = Ok x.
Proof.
  intros Hw Hl. unfold MovingAverage.rolling_mean_last.
  destruct (w <? 0) eqn:E; [apply Z.ltb_lt in E; lia|].
  destruct l as [|p l]; [congruence|].
  destruct (_ || _); [eauto|].
  destruct (MovingAverage.sum_floats _); eauto.
Qed.

(** X6. With a positive [short_window], [generate_signals] never raises on
    a strategy object, whatever calls came before: it returns a signal
    dict. *)
Theorem generate_signals_returns fos config s0 calls :
  MovingAverage.init config = Ok s0 ->
  0 < MovingAverage.short_window s0 ->
  exists sig s',
    MovingAverage.generate_signals (MovingAverage.run fos s0 calls)
    = Ok (sig, s').
Proof.
  intros Hinit Hshort.
  pose proof (init_state config s0 Hinit) as [Hlt _].
  destruct (run_invariant fos s0 calls (init_prices config s0 Hinit))
    as [Hs [Hl Hlen]].
  unfold MovingAverage.generate_signals.
  destruct (_ <? _) eqn:Hwarm; [eauto|].
  apply Z.ltb_ge in Hwarm. rewrite Hl in Hwarm.
  assert (MovingAverage.prices (MovingAverage.run fos s0 calls) <> [])
    as Hne.
  { intros Hnil. rewrite Hnil in Hwarm. simpl in Hwarm. lia. }
  rewrite Hs, Hl.
  destruct (rolling_mean_last_returns (MovingAverage.short_window s0) _
              ltac:(lia) Hne) as [a ->].
  destruct (rolling_mean_last_returns (MovingAverage.long_window s0) _
              ltac:(lia) Hne) as [b ->].
  cbn [bind]. eauto.
Qed.

Lemma generate_signals_returns_witness :
  exists sig s',
    MovingAverage.generate_signals
      (MovingAverage.run (fun _ => None) Examples.strategy_2_3
                         Examples.fall_then_jump)
    = Ok (sig, s').
Proof.
  exact (generate_signals_returns (fun _ => None) Examples.windows_2_3
           Examples.strategy_2_3 Examples.fall_then_jump eq_refl eq_refl).
Defined.

(* ===================================================================== *)
(** * Further properties of the adapters *)
(* ===================================================================== *)

(** X7. The renaming of the local-file adapter is idempotent: the name a
    column is given is its own canonical name, so renaming the columns of a
    returned frame once more changes nothing. *)
Theorem canonical_name_idempotent (c : string) :
  CsvAdapter.canonical_name (CsvAdapter.canonical_name c)
  = CsvAdapter.canonical_name c.
Proof.
  unfold CsvAdapter.canonical_name at 2 3. cbv zeta.
  destruct (PyStr.in_tuple (PyStr.lower c) ["open"; "open_price"]) eqn:E1;
    [reflexivity|].
  destruct (PyStr.in_tuple (PyStr.lower c) ["high"]) eqn:E2; [reflexivity|].
  destruct (PyStr.in_tuple (PyStr.lower c) ["low"]) eqn:E3; [reflexivity|].
  destruct (PyStr.in_tuple (PyStr.lower c) ["close"; "close_price"]) eqn:E4;
    [reflexivity|].
  destruct (PyStr.in_tuple (PyStr.lower c)
              ["adj close"; "adj_close"; "adjclose"]) eqn:E5; [reflexivity|].
  destruct (PyStr.in_tuple (PyStr.lower c) ["volume"; "vol"]) eqn:E6;
    [reflexivity|].
  unfold CsvAdapter.canonical_name. cbv zeta.
  rewrite E1, E2, E3, E4, E5, E6. reflexivity.
Qed.

Lemma mapM_index_cells W (label : Cell * list Cell -> Cell) rs rs' :
  mapM (fun r => do t <- to_datetime W (label r); Ok (CTime t, snd r)) rs
  = Ok rs' ->
  List.map snd rs' = List.map snd rs.
Proof.
  revert rs'. induction rs as [|r rs IH]; intros rs'; simpl.
  - intros [= <-]. reflexivity.
  - destruct (to_datetime W (label r)) as [t|e]; simpl; [|discriminate].
    destruct (mapM _ rs) as [done|e]; simpl; [|discriminate].
    intros [= <-]. simpl. rewrite (IH done eq_refl). reflexivity.
Qed.

(** Making the index a datetime index touches neither the columns nor the
    cells. *)
Lemma ensure_datetime_index_cells W df df' :
  ensure_datetime_index W df = Ok df' ->
  columns df' = columns df
  /\ List.map snd (rows df') = List.map snd (rows df).
Proof.
  unfold ensure_datetime_index.
  destruct (is_DatetimeIndex (index_kind df)); [intros [= <-]; auto|].
  unfold convert_index.
  destruct (mapM _ (rows df)) as [rs|e] eqn:E; cbn [bind]; [|discriminate].
  destruct (index_tz_of _) as [aware|e]; cbn [bind]; [|discriminate].
  intros [= <-]. simpl. split; [reflexivity|].
  exact (mapM_index_cells W fst (rows df) rs E).
Qed.

Lemma filter_rows_cells (keep : Cell * list Cell -> bool) rs :
  incl (List.map snd (List.filter keep rs)) (List.map snd rs)
  /\ (List.length (List.filter keep rs) <= List.length rs)%nat.
Proof.
  split.
  - intros cells Hin. apply List.in_map_iff in Hin as [r [<- Hr]].
    apply List.filter_In in Hr as [Hr _]. apply List.in_map. exact Hr.
  - apply List.filter_length_le.
Qed.

Lemma well_formed_cells df df' :
  columns df' = columns df \/ List.length (columns df') = List.length (columns df) ->
  incl (List.map snd (rows df')) (List.map snd (rows df)) ->
  well_formed df -> well_formed df'.
Proof.
  unfold well_formed. intros Hcols Hincl Hwf.
  assert (List.length (columns df') = List.length (columns df)) as Hlen
      by (destruct Hcols as [-> | H]; [reflexivity | exact H]).
  rewrite List.Forall_forall in *. intros r Hr. rewrite Hlen.
  assert (List.In (snd r) (List.map snd (rows df))) as Hin
      by (apply Hincl, List.in_map, Hr).
  apply List.in_map_iff in Hin as [r0 [Heq Hr0]]. rewrite <- Heq.
  apply Hwf, Hr0.
Qed.

(** X9. What the local-file adapter returns for a readable file has the
    file's columns under their canonical names, in file order, and every
    returned row carries the cells of a row of the file: no column is added
    or dropped, no cell is changed, and a rectangular file gives a
    rectangular frame. *)
Theorem csv_fetch_keeps_file_data
        W symbol start end_ interval csv_base df0 df :
  os_path_exists W (CsvAdapter.resolve_path W symbol csv_base) = true ->
  pd_read_csv W (CsvAdapter.resolve_path W symbol csv_base) = Ok df0 ->
  CsvAdapter.fetch W symbol start end_ interval csv_base = Ok df ->
  columns df = List.map CsvAdapter.canonical_name (columns df0)
  /\ incl (List.map snd (rows df)) (List.map snd (rows df0))
  /\ (df_len df <= df_len df0)%nat
  /\ (well_formed df0 -> well_formed df).
Proof.
  intros Hexists Hread. unfold CsvAdapter.fetch. cbv zeta.
  rewrite Hexists, Hread. cbn [negb]. intros H. apply lift_exc_Ok in H.
  apply after_read_inv in H as [conv [lo [hi [Hconv [_ [_ [_ [_ ->]]]]]]]].
  apply ensure_datetime_index_cells in Hconv as [Hcols Hcells].
  cbn [columns rows rename_columns] in Hcols, Hcells.
  pose proof (filter_rows_cells
                (fun r => CsvAdapter.in_range lo hi (cell_time (fst r)))
                (rows conv)) as [Hincl Hlen].
  rewrite Hcells in Hincl.
  rewrite <- (List.length_map snd (rows conv)), Hcells, List.length_map
    in Hlen.
  unfold df_len. cbn [columns rows].
  split; [exact Hcols|]. split; [exact Hincl|]. split; [exact Hlen|].
  apply well_formed_cells; cbn [columns rows]; [right | exact Hincl].
  rewrite Hcols, List.length_map. reflexivity.
Qed.

Lemma january_well_formed : well_formed Examples.january.
Proof. repeat constructor. Qed.

Lemma csv_fetch_keeps_file_data_witness :
  exists df,
    CsvAdapter.fetch Examples.world "january" (Some "2024-01-10") None "1d"
                     None = Ok df
    /\ columns df = ["Close"; "Volume"]
    /\ (df_len df <= 5)%nat
    /\ well_formed df.
Proof.
  eexists. split; [reflexivity|].
  destruct (csv_fetch_keeps_file_data Examples.world "january"
              (Some "2024-01-10") None "1d" None Examples.january _
              eq_refl eq_refl eq_refl) as [Hc [_ [Hl Hwf]]].
  split; [exact Hc|]. split; [exact Hl|]. exact (Hwf january_well_formed).
Defined.

(** The two filtering statements in terms of the requested bound: the
    conversion of the bound may fail, then the comparison may. *)
Lemma filter_start_cases W start df :
  CsvAdapter.filter_start W start df
  = do lo <- CsvAdapter.requested_bound W start;
    if CsvAdapter.bound_comparable (index_tz df) lo
    then Ok (select_rows
               (fun label => CsvAdapter.in_range lo None (cell_time label)) df)
    else Raise tz_mismatch.
Proof.
  destruct (CsvAdapter.requested_bound W start) as [lo|e] eqn:Hlo; cbn [bind].
  - destruct (CsvAdapter.bound_comparable (index_tz df) lo) eqn:Hc.
    + apply filter_start_spec; assumption.
    + revert Hlo Hc. unfold CsvAdapter.requested_bound, CsvAdapter.filter_start.
      destruct (CsvAdapter.bound_given start) as [s|];
        [|intros [= <-]; discriminate].
      destruct (to_datetime W (CStr s)) as [t|e]; cbn [bind]; [|discriminate].
      intros [= <-]. cbn [CsvAdapter.bound_comparable]. intros ->.
      reflexivity.
  - revert Hlo. unfold CsvAdapter.requested_bound, CsvAdapter.filter_start.
    destruct (CsvAdapter.bound_given start) as [s|]; [|discriminate].
    destruct (to_datetime W (CStr s)) as [t|e0]; cbn [bind]; [discriminate|].
    intros [= <-]. reflexivity.
Qed.

Lemma filter_end_cases W end_ df :
  CsvAdapter.filter_end W end_ df
  = do hi <- CsvAdapter.requested_bound W end_;
    if CsvAdapter.bound_comparable (index_tz df) hi
    then Ok (select_rows
               (fun label => CsvAdapter.in_range None hi (cell_time label)) df)
    else Raise tz_mismatch.
Proof.
  destruct (CsvAdapter.requested_bound W end_) as [hi|e] eqn:Hhi; cbn [bind].
  - destruct (CsvAdapter.bound_comparable (index_tz df) hi) eqn:Hc.
    + apply filter_end_spec; assumption.
    + revert Hhi Hc. unfold CsvAdapter.requested_bound, CsvAdapter.filter_end.
      destruct (CsvAdapter.bound_given end_) as [s|];
        [|intros [= <-]; discriminate].
      destruct (to_datetime W (CStr s)) as [t|e]; cbn [bind]; [|discriminate].
      intros [= <-]. cbn [CsvAdapter.bound_comparable]. intros ->.
      reflexivity.
  - revert Hhi. unfold CsvAdapter.requested_bound, CsvAdapter.filter_end.
    destruct (CsvAdapter.bound_given end_) as [s|]; [|discriminate].
    destruct (to_datetime W (CStr s)) as [t|e0]; cbn [bind]; [discriminate|].
    intros [= <-]. reflexivity.
Qed.

(** X8. For a file that exists at the resolved path and is read, [fetch] of
    the local-file adapter fails exactly when one of these steps fails, in
    this order, and what leaves the adapter is that step's exception,
    unclassified (neither [AdapterError] nor [RateLimitError]): converting
    the file's index; converting [start]; comparing the index with the
    converted [start], a [TypeError] when one is timezone-aware and the
    other is not; converting [end]; comparing the index with the converted
    [end]. *)
Theorem csv_fetch_failures
        W symbol start end_ interval csv_base df0 r :
  os_path_exists W (CsvAdapter.resolve_path W symbol csv_base) = true ->
  pd_read_csv W (CsvAdapter.resolve_path W symbol csv_base) = Ok df0 ->
  CsvAdapter.fetch W symbol start end_ interval csv_base = Raise r
  <-> exists e,
      r = Unclassified e
      /\ (ensure_datetime_index W
            (rename_columns CsvAdapter.canonical_name df0) = Raise e
          \/ exists conv,
              ensure_datetime_index W
                (rename_columns CsvAdapter.canonical_name df0) = Ok conv
              /\ (CsvAdapter.requested_bound W start = Raise e
                  \/ exists lo,
                      CsvAdapter.requested_bound W start = Ok lo
                      /\ ((CsvAdapter.bound_comparable (index_tz conv) lo
                           = false
                           /\ e = tz_mismatch)
                          \/ (CsvAdapter.bound_comparable (index_tz conv) lo
                              = true
                              /\ (CsvAdapter.requested_bound W end_ = Raise e
                                  \/ exists hi,
                                      CsvAdapter.requested_bound W end_
                                      = Ok hi
                                      /\ CsvAdapter.bound_comparable
                                           (index_tz conv) hi = false
                                      /\ e = tz_mismatch))))).
Proof.
  intros Hexists Hread. unfold CsvAdapter.fetch. cbv zeta.
  rewrite Hexists, Hread. cbn [negb]. unfold CsvAdapter.after_read.
  destruct (ensure_datetime_index W _) as [conv|e0]; cbn [bind lift_exc].
  2:{ split.
      - intros [= <-]. exists e0. auto.
      - intros [e [-> [He | [conv [Hconv _]]]]]; congruence. }
  rewrite filter_start_cases.
  destruct (CsvAdapter.requested_bound W start) as [lo|e0]; cbn [bind lift_exc].
  2:{ split.
      - intros [= <-]. exists e0. split; [reflexivity|]. right.
        exists conv. auto.
      - intros [e [-> [He | [conv' [Hconv [Hlo | [lo [Hlo _]]]]]]]];
          congruence. }
  destruct (CsvAdapter.bound_comparable (index_tz conv) lo) eqn:Hclo;
    cbn [bind lift_exc].
  2:{ split.
      - intros [= <-]. exists tz_mismatch. split; [reflexivity|]. right.
        exists conv. split; [reflexivity|]. right. exists lo. auto.
      - intros [e [-> [He | [conv' [Hconv [Hlo | [lo' [Hlo Hcases]]]]]]]];
          try congruence.
        injection Hconv as <-. injection Hlo as <-.
        destruct Hcases as [[_ ->] | [Hc _]]; congruence. }
  rewrite filter_end_cases. cbn [select_rows index_tz].
  destruct (CsvAdapter.requested_bound W end_) as [hi|e0]; cbn [bind lift_exc].
  2:{ split.
      - intros [= <-]. exists e0. split; [reflexivity|]. right.
        exists conv. split; [reflexivity|]. right. exists lo.
        split; [reflexivity|]. right. auto.
      - intros [e [-> [He | [conv' [Hconv [Hlo | [lo' [Hlo Hcases]]]]]]]];
          try congruence.
        injection Hconv as <-. injection Hlo as <-.
        destruct Hcases as [[Hc _] | [_ [Hhi | [hi [Hhi _]]]]]; congruence. }
  destruct (CsvAdapter.bound_comparable (index_tz conv) hi) eqn:Hchi;
    cbn [bind lift_exc].
  - split; [discriminate|].
    intros [e [-> [He | [conv' [Hconv [Hlo | [lo' [Hlo Hcases]]]]]]]];
      try congruence.
    injection Hconv as <-. injection Hlo as <-.
    destruct Hcases as [[Hc _] | [_ [Hhi | [hi' [Hhi [Hc _]]]]]];
      congruence.
  - split.
    + intros [= <-]. exists tz_mismatch. split; [reflexivity|]. right.
      exists conv. split; [reflexivity|]. right. exists lo.
      split; [reflexivity|]. right. split; [exact Hclo|]. right.
      exists hi. auto.
    + intros [e [-> [He | [conv' [Hconv [Hlo | [lo' [Hlo Hcases]]]]]]]];
        try congruence.
      injection Hconv as <-. injection Hlo as <-.
      destruct Hcases as [[Hc _] | [_ [Hhi | [hi' [Hhi [_ ->]]]]]];
        congruence.
Qed.

(** The January file holds plain dates: an unreadable [end] fails with the
    parser's exception, and a [start] that carries a UTC offset fails in
    the comparison. *)
Lemma csv_fetch_failures_witness :
  CsvAdapter.fetch Examples.world "january" (Some "2024-01-10")
                   (Some "next week") "1d" None
  = Raise (Unclassified {| exc_class := "ValueError";
                           exc_str := "Unknown datetime string format" |})
  /\ CsvAdapter.fetch Examples.world "january"
                      (Some "2024-01-10T00:00:00+00:00") None "1d" None
     = Raise (Unclassified tz_mismatch).
Proof.
  split.
  - apply (proj2 (csv_fetch_failures Examples.world "january"
                    (Some "2024-01-10") (Some "next week") "1d" None
                    Examples.january _ eq_refl eq_refl)).
    eexists. split; [reflexivity|]. right.
    eexists. split; [reflexivity|]. right.
    eexists. split; [reflexivity|]. right. split; [reflexivity|].
    left. reflexivity.
  - apply (proj2 (csv_fetch_failures Examples.world "january"
                    (Some "2024-01-10T00:00:00+00:00") None "1d" None
                    Examples.january _ eq_refl eq_refl)).
    eexists. split; [reflexivity|]. right.
    eexists. split; [reflexivity|]. right.
    eexists. split; [reflexivity|]. left. split; reflexivity.
Defined.

Lemma set_datetime_index_cells W pos df df' :
  set_datetime_index W pos df = Ok df' ->
  columns df' = remove_nth pos (columns df)
  /\ List.map snd (rows df')
     = List.map (fun r => remove_nth pos (snd r)) (rows df).
Proof.
  unfold set_datetime_index.
  destruct (mapM _ (rows df)) as [rs|e] eqn:E; cbn [bind]; [|discriminate].
  destruct (index_tz_of _) as [aware|e]; cbn [bind]; [|discriminate].
  intros [= <-]. simpl. split; [reflexivity|].
  revert rs E. induction (rows df) as [|r rs0 IH]; intros rs; simpl.
  - intros [= <-]. reflexivity.
  - destruct (to_datetime W (nth pos (snd r) CNaN)) as [t|e]; simpl;
      [|discriminate].
    destruct (mapM _ rs0) as [done|e]; simpl; [|discriminate].
    intros [= <-]. simpl. rewrite (IH done eq_refl). reflexivity.
Qed.

(** X10. The two network adapters hand the provider's data through: for a
    non-empty answer the installed-package adapter returns the same columns
    and the same cells, row by row, and so does the exchange-API adapter
    except that a ['date'] column, having become the index, is taken out of
    the columns and of every row.  No row is dropped, added or reordered. *)
Theorem network_fetch_keeps_provider_data
        W symbol start end_ interval adjusted df0 df :
  df_empty df0 = false ->
  (yf_download W symbol start end_ interval adjusted = Ok (Some df0) ->
   YfinanceAdapter.fetch W symbol start end_ interval adjusted = Ok df ->
   columns df = columns df0
   /\ List.map snd (rows df) = List.map snd (rows df0))
  /\ (ak_stock_zh_a_daily W symbol start end_ = Ok (Some df0) ->
      AkshareAdapter.fetch W symbol start end_ interval adjusted = Ok df ->
      match column_pos "date" (columns df0) with
      | Some pos =>
          columns df = remove_nth pos (columns df0)
          /\ List.map snd (rows df)
             = List.map (fun r => remove_nth pos (snd r)) (rows df0)
      | None =>
          columns df = columns df0
          /\ List.map snd (rows df) = List.map snd (rows df0)
      end).
Proof.
  intros Hnonempty. split.
  - intros Hcall H. apply lift_exc_Ok in H. revert H.
    unfold YfinanceAdapter.fetch_body. rewrite Hcall. cbn [bind].
    rewrite Hnonempty. apply ensure_datetime_index_cells.
  - intros Hcall H. apply lift_exc_Ok in H. revert H.
    unfold AkshareAdapter.fetch_body.
    destruct (akshare_importable W); cbn [negb]; [|discriminate].
    destruct (PyStr.in_tuple interval ["1d"; "daily"]); [|discriminate].
    rewrite Hcall. cbn [bind lift_exc]. rewrite Hnonempty.
    destruct (has_column "date" df0) eqn:Hdate; intros H;
      apply lift_exc_Ok in H.
    + unfold datetime_index_from in H.
      destruct (1 <? count_occ string_dec (columns df0) "date")%nat;
        [discriminate|].
      destruct (column_pos "date" (columns df0)) as [pos|]; [|discriminate].
      exact (set_datetime_index_cells W pos df0 df H).
    + rewrite (has_column_pos "date" df0 Hdate).
      exact (ensure_datetime_index_cells W df0 df H).
Qed.

Lemma network_fetch_keeps_provider_data_witness :
  exists df,
    AkshareAdapter.fetch Examples.world "sz000001" None None "1d" true = Ok df
    /\ columns df = ["open"; "close"]
    /\ List.map snd (rows df) = [[CNum 9; CNum 10]; [CNum 10; CNum 11]].
Proof.
  eexists. split; [reflexivity|].
  exact (proj2 (network_fetch_keeps_provider_data Examples.world "sz000001"
                  None None "1d" true Examples.ak_frame _ eq_refl)
               eq_refl eq_refl).
Defined.

(* ===================================================================== *)
(** * Further properties of AKFinance *)
(* ===================================================================== *)

Lemma all_chars_app p a b :
  PyStr.all_chars p (a +:+ b) = PyStr.all_chars p a && PyStr.all_chars p b.
Proof.
  induction a as [|c a IH]; simpl; [reflexivity|].
  rewrite IH, andb_assoc. reflexivity.
Qed.

Lemma replace_from_all_chars p old new skip s :
  PyStr.all_chars p new = true ->
  PyStr.all_chars p s = true ->
  PyStr.all_chars p (PyStr.replace_from old new skip s) = true.
Proof.
  intros Hnew. revert skip. induction s as [|c s IH]; intros skip Hs.
  - reflexivity.
  - cbn [PyStr.all_chars] in Hs. apply andb_true_iff in Hs as [Hc Hs].
    cbn [PyStr.replace_from]. destruct skip as [|k]; [|apply IH, Hs].
    destruct (PyStr.startswith old (String c s)).
    + rewrite all_chars_app, Hnew. apply IH, Hs.
    + cbn [PyStr.all_chars]. rewrite Hc. apply IH, Hs.
Qed.

Lemma remove_spaces_no_space skip s :
  PyStr.all_chars not_space (PyStr.replace_from " " "" skip s) = true.
Proof.
  revert skip. induction s as [|c s IH]; intros skip; [reflexivity|].
  cbn [PyStr.replace_from]. destruct skip as [|k]; [|apply IH].
  cbn [PyStr.startswith]. destruct (Ascii.eqb " " c) eqn:E.
  - simpl. apply IH.
  - simpl. cbn [PyStr.all_chars]. rewrite IH, andb_true_r.
    unfold not_space. rewrite Ascii.eqb_sym, E. reflexivity.
Qed.

Lemma remove_spaces_fixed s :
  PyStr.all_chars not_space s = true -> PyStr.replace " " "" s = s.
Proof.
  unfold PyStr.replace. induction s as [|c s IH]; [reflexivity|].
  cbn [PyStr.all_chars]. intros H. apply andb_true_iff in H as [Hc Hs].
  cbn [PyStr.replace_from PyStr.startswith].
  unfold not_space in Hc. rewrite Ascii.eqb_sym in Hc.
  destruct (Ascii.eqb " " c); [discriminate|]. simpl. rewrite (IH Hs).
  reflexivity.
Qed.

Lemma upper_ascii_props (c : ascii) :
  is_upper (PyStr.upper_ascii c) = true
  /\ (not_space c = true -> not_space (PyStr.upper_ascii c) = true).
Proof.
  destruct c as [[] [] [] [] [] [] [] []]; split; intros; reflexivity
    || assumption.
Qed.

Lemma upper_is_upper s : PyStr.all_chars is_upper (PyStr.upper s) = true.
Proof.
  induction s as [|c s IH]; [reflexivity|]. simpl.
  rewrite (proj1 (upper_ascii_props c)), IH. reflexivity.
Qed.

Lemma upper_no_space s :
  PyStr.all_chars not_space s = true ->
  PyStr.all_chars not_space (PyStr.upper s) = true.
Proof.
  induction s as [|c s IH]; [reflexivity|]. simpl. intros H.
  apply andb_true_iff in H as [Hc Hs].
  rewrite (proj2 (upper_ascii_props c) Hc), (IH Hs). reflexivity.
Qed.

Lemma upper_fixed s :
  PyStr.all_chars is_upper s = true -> PyStr.upper s = s.
Proof.
  induction s as [|c s IH]; [reflexivity|]. simpl. intros H.
  apply andb_true_iff in H as [Hc Hs]. unfold is_upper in Hc.
  apply Ascii.eqb_eq in Hc. rewrite Hc, (IH Hs). reflexivity.
Qed.

Lemma clean_normal t :
  normal_ticker (PyStr.upper (PyStr.replace " " "" t)).
Proof.
  split.
  - apply upper_no_space, remove_spaces_no_space.
  - apply upper_is_upper.
Qed.

Lemma clean_fixed u :
  normal_ticker u -> PyStr.upper (PyStr.replace " " "" u) = u.
Proof.
  intros [Hspace Hupper]. rewrite (remove_spaces_fixed u Hspace).
  apply upper_fixed, Hupper.
Qed.

Lemma normal_app u suffix :
  normal_ticker u -> normal_ticker suffix -> normal_ticker (u +:+ suffix).
Proof.
  intros [H1 H2] [H3 H4]. split; rewrite all_chars_app.
  - rewrite H1, H3. reflexivity.
  - rewrite H2, H4. reflexivity.
Qed.

Lemma normal_replace old new u :
  normal_ticker new -> normal_ticker u ->
  normal_ticker (PyStr.replace old new u).
Proof.
  intros [H1 H2] [H3 H4]. split; apply replace_from_all_chars; assumption.
Qed.

(** The rules return a ticker in normal form when they are given one. *)
Lemma exchange_rules_normal u :
  normal_ticker u -> normal_ticker (AKFinance.exchange_rules u).
Proof.
  intros Hu. unfold AKFinance.exchange_rules. cbv zeta.
  assert (normal_ticker (if PyStr.endswith ".SS" u
                         then PyStr.replace ".SS" ".SH" u else u)) as Hv.
  { destruct (PyStr.endswith ".SS" u); [|exact Hu].
    apply normal_replace; [split; reflexivity | exact Hu]. }
  destruct (PyStr.contains "." _); [exact Hv|].
  destruct (PyStr.startswith_any ["00"; "30"] _);
    [apply normal_app; [exact Hv | split; reflexivity]|].
  destruct (PyStr.startswith_any ["50"; "51"; "60"; "68"; "90"] _);
    [apply normal_app; [exact Hv | split; reflexivity]|].
  destruct (_ && _);
    [apply normal_app; [exact Hv | split; reflexivity] | exact Hv].
Qed.

(** X11. For every ASCII string, [_standardize_ticker] returns a ticker
    without spaces and without small letters. *)
Theorem standardize_ticker_normal (ticker : string) :
  PyStr.is_ascii ticker = true ->
  PyStr.all_chars not_space (AKFinance._standardize_ticker ticker) = true
  /\ PyStr.upper (AKFinance._standardize_ticker ticker)
     = AKFinance._standardize_ticker ticker.
Proof.
  intros _.
  destruct (exchange_rules_normal _ (clean_normal ticker)) as [Hs Hu].
  split; [exact Hs | apply upper_fixed, Hu].
Qed.

Lemma standardize_ticker_normal_witness :
  AKFinance._standardize_ticker " 600519.ss" = "600519.SH"
  /\ PyStr.all_chars not_space (AKFinance._standardize_ticker " 600519.ss")
     = true
  /\ PyStr.upper (AKFinance._standardize_ticker " 600519.ss")
     = AKFinance._standardize_ticker " 600519.ss".
Proof.
  split; [reflexivity|].
  exact (standardize_ticker_normal " 600519.ss" eq_refl).
Defined.

Lemma replace_SS_step c r :
  PyStr.startswith ".SS" (String c r) = false ->
  PyStr.replace ".SS" ".SH" (String c r)
  = String c (PyStr.replace ".SS" ".SH" r).
Proof.
  unfold PyStr.replace. cbn [PyStr.replace_from]. intros ->. reflexivity.
Qed.

Lemma replace_SS_empty r : PyStr.replace ".SS" ".SH" r = "" -> r = "".
Proof.
  destruct r as [|c r]; [reflexivity|].
  unfold PyStr.replace. cbn [PyStr.replace_from].
  destruct (PyStr.startswith ".SS" (String c r)); discriminate.
Qed.

Lemma replace_SS_is_SS r : PyStr.replace ".SS" ".SH" r = "SS" -> r = "SS".
Proof.
  destruct r as [|a r]; [discriminate|].
  destruct (PyStr.startswith ".SS" (String a r)) eqn:E1.
  { unfold PyStr.replace. cbn [PyStr.replace_from]. rewrite E1.
    discriminate. }
  rewrite (replace_SS_step a r E1). intros [= -> H].
  destruct r as [|b r]; [discriminate|].
  destruct (PyStr.startswith ".SS" (String b r)) eqn:E2.
  { revert H. unfold PyStr.replace. cbn [PyStr.replace_from]. rewrite E2.
    discriminate. }
  rewrite (replace_SS_step b r E2) in H. injection H as -> H.
  apply replace_SS_empty in H. subst r. reflexivity.
Qed.

(** After [.replace('.SS', '.SH')] a string no longer ends in ['.SS']. *)
Lemma replace_SS_not_at_end s :
  PyStr.endswith ".SS" (PyStr.replace ".SS" ".SH" s) = false.
Proof.
  remember (String.length s) as n eqn:Hn.
  assert (String.length s <= n)%nat as Hlen by lia. clear Hn.
  revert s Hlen. induction n as [|n IH]; intros s Hlen.
  - destruct s; [reflexivity | simpl in Hlen; lia].
  - destruct s as [|c r]; [reflexivity|].
    destruct (PyStr.startswith ".SS" (String c r)) eqn:E.
    + apply startswith_spec in E as [post E]. simpl in E.
      injection E as -> ->.
      change (PyStr.replace ".SS" ".SH" (String "." (String "S" (String "S" post))))
        with (".SH" +:+ PyStr.replace ".SS" ".SH" post).
      cbn. apply IH.
      change (S (S (S (String.length post))) <= S n)%nat in Hlen. lia.
    + rewrite (replace_SS_step c r E). cbn [PyStr.endswith].
      rewrite IH by (simpl in Hlen; lia). rewrite orb_false_r.
      destruct (String.eqb ".SS" (String c (PyStr.replace ".SS" ".SH" r)))
        eqn:Heq; [|reflexivity].
      apply String.eqb_eq in Heq. injection Heq as <- Heq.
      symmetry in Heq. apply replace_SS_is_SS in Heq. subst r.
      discriminate E.
Qed.

Lemma no_dot_no_SS_end s :
  PyStr.contains "." s = false -> PyStr.endswith ".SS" s = false.
Proof.
  induction s as [|c s IH]; [reflexivity|].
  cbn [PyStr.contains PyStr.endswith PyStr.startswith].
  rewrite andb_true_r. intros H. apply orb_false_iff in H as [Hc Hs].
  rewrite (IH Hs), orb_false_r.
  destruct (String.eqb ".SS" (String c s)) eqn:E; [|reflexivity].
  apply String.eqb_eq in E. injection E as <- _. discriminate Hc.
Qed.

Lemma length_append a b :
  String.length (a +:+ b) = (String.length a + String.length b)%nat.
Proof. induction a as [|c a IH]; simpl; [reflexivity | rewrite IH; lia]. Qed.

Lemma suffix_not_SS_end u suffix :
  String.length suffix = 3%nat ->
  PyStr.endswith ".SS" suffix = false ->
  PyStr.endswith ".SS" (u +:+ suffix) = false.
Proof.
  intros Hlen Hsuffix. induction u as [|c u IH]; [exact Hsuffix|].
  change (String c u +:+ suffix) with (String c (u +:+ suffix)).
  cbn [PyStr.endswith]. rewrite IH, orb_false_r.
  destruct (String.eqb ".SS" (String c (u +:+ suffix))) eqn:E; [|reflexivity].
  apply String.eqb_eq in E. apply (f_equal String.length) in E.
  simpl in E. rewrite length_append in E. lia.
Qed.

Lemma suffix_has_dot u suffix :
  PyStr.contains "." suffix = true ->
  PyStr.contains "." (u +:+ suffix) = true.
Proof.
  intros Hsuffix. induction u as [|c u IH]; [exact Hsuffix|].
  change (String c u +:+ suffix) with (String c (u +:+ suffix)).
  cbn [PyStr.contains]. rewrite IH. apply orb_true_r.
Qed.

(** A ticker that carries an exchange code other than ['.SS'] at its end
    passes the rules unchanged. *)
Lemma exchange_rules_fixed_dotted r :
  PyStr.endswith ".SS" r = false ->
  PyStr.contains "." r = true ->
  AKFinance.exchange_rules r = r.
Proof.
  intros Hend Hdot. unfold AKFinance.exchange_rules. cbv zeta.
  rewrite Hend, Hdot. reflexivity.
Qed.

Lemma exchange_rules_idempotent u :
  AKFinance.exchange_rules (AKFinance.exchange_rules u)
  = AKFinance.exchange_rules u.
Proof.
  unfold AKFinance.exchange_rules at 2 3. cbv zeta.
  set (v := if PyStr.endswith ".SS" u
            then PyStr.replace ".SS" ".SH" u else u).
  assert (PyStr.endswith ".SS" v = false) as Hv.
  { unfold v. destruct (PyStr.endswith ".SS" u) eqn:E;
      [apply replace_SS_not_at_end | exact E]. }
  destruct (PyStr.contains "." v) eqn:Hdot.
  { apply exchange_rules_fixed_dotted; assumption. }
  destruct (PyStr.startswith_any ["00"; "30"] v) eqn:HA.
  { apply exchange_rules_fixed_dotted;
      [apply suffix_not_SS_end | apply suffix_has_dot]; reflexivity. }
  destruct (PyStr.startswith_any ["50"; "51"; "60"; "68"; "90"] v) eqn:HB.
  { apply exchange_rules_fixed_dotted;
      [apply suffix_not_SS_end | apply suffix_has_dot]; reflexivity. }
  destruct (PyStr.startswith_any ["0"; "1"; "2"; "3"; "4"; "5"] v
            && (String.length v =? 5)%nat) eqn:HC.
  { apply exchange_rules_fixed_dotted;
      [apply suffix_not_SS_end | apply suffix_has_dot]; reflexivity. }
  unfold AKFinance.exchange_rules. cbv zeta.
  rewrite Hv, Hdot, HA, HB, HC. reflexivity.
Qed.

(** X12. [_standardize_ticker] is idempotent on ASCII strings: the ticker an
    [AKFinance] object holds is standardized to itself, so building an
    object from another object's ticker gives the same ticker. *)
Theorem standardize_ticker_idempotent (ticker : string) :
  PyStr.is_ascii ticker = true ->
  AKFinance._standardize_ticker (AKFinance._standardize_ticker ticker)
  = AKFinance._standardize_ticker ticker.
Proof.
  intros _. unfold AKFinance._standardize_ticker.
  rewrite (clean_fixed _ (exchange_rules_normal _ (clean_normal ticker))).
  apply exchange_rules_idempotent.
Qed.

Lemma standardize_ticker_idempotent_witness :
  AKFinance._standardize_ticker "00700" = "00700.SZ"
  /\ AKFinance._standardize_ticker "aapl" = "AAPL"
  /\ AKFinance._standardize_ticker
       (AKFinance._standardize_ticker "600519.ss")
     = AKFinance._standardize_ticker "600519.ss".
Proof.
  split; [reflexivity|]. split; [reflexivity|].
  exact (standardize_ticker_idempotent "600519.ss" eq_refl).
Defined.

Lemma mapM_length {E A B} (f : A -> result E B) l l' :
  mapM f l = Ok l' -> List.length l' = List.length l.
Proof.
  intros H. apply mapM_Forall2 in H.
  induction H; simpl; [reflexivity | rewrite IHForall2; reflexivity].
Qed.

Lemma ensure_column_frame df col :
  index_kind (AKFinance.ensure_column df col) = index_kind df
  /\ df_index (AKFinance.ensure_column df col) = df_index df.
Proof.
  unfold AKFinance.ensure_column. destruct (has_column col df); [auto|].
  unfold df_index. simpl. split; [reflexivity|].
  rewrite List.map_map. reflexivity.
Qed.

Lemma fold_ensure_column_frame cols df :
  index_kind (fold_left AKFinance.ensure_column cols df) = index_kind df
  /\ df_index (fold_left AKFinance.ensure_column cols df) = df_index df.
Proof.
  revert df. induction cols as [|col cols IH]; intros df; simpl; [auto|].
  destruct (IH (AKFinance.ensure_column df col)) as [Hk Hi].
  destruct (ensure_column_frame df col) as [Hk' Hi'].
  split; congruence.
Qed.

Lemma df_len_index df : df_len df = List.length (df_index df).
Proof. unfold df_len, df_index. rewrite List.length_map. reflexivity. Qed.

Lemma date_range_length s n :
  List.length (AKFinance.date_range s n) = n.
Proof.
  unfold AKFinance.date_range.
  rewrite List.length_map, List.length_seq. reflexivity.
Qed.

Lemma combine_first {A B} (a : list A) (b : list B) :
  List.length a = List.length b -> List.map fst (combine a b) = a.
Proof.
  revert b. induction a as [|x a IH]; intros [|y b]; simpl;
    try discriminate; try reflexivity.
  intros [= H]. rewrite (IH b H). reflexivity.
Qed.

Lemma with_date_range_times start df :
  index_kind (AKFinance.with_date_range start df) = DatetimeIndex
  /\ df_times (AKFinance.with_date_range start df)
     = AKFinance.date_range start (df_len df).
Proof.
  split; [reflexivity|].
  unfold df_times, df_index, AKFinance.with_date_range. cbn [rows].
  rewrite !List.map_map. cbn [fst cell_time].
  rewrite <- (List.map_map fst (fun t => t)), List.map_id.
  apply combine_first.
  rewrite date_range_length. reflexivity.
Qed.

Lemma datetime_index_from_frame W name df df' :
  datetime_index_from W name df = Ok df' ->
  index_kind df' = DatetimeIndex /\ df_len df' = df_len df.
Proof.
  unfold datetime_index_from.
  destruct (1 <? count_occ string_dec (columns df) name)%nat; [discriminate|].
  destruct (column_pos name (columns df)) as [pos|]; [|discriminate].
  unfold set_datetime_index.
  destruct (mapM _ (rows df)) as [rs|e] eqn:E; cbn [bind]; [|discriminate].
  destruct (index_tz_of _) as [aware|e]; cbn [bind]; [|discriminate].
  intros [= <-]. split; [reflexivity|].
  unfold df_len. simpl. exact (mapM_length _ _ _ E).
Qed.

Lemma with_date_range_len start df :
  df_len (AKFinance.with_date_range start df) = df_len df.
Proof.
  unfold df_len, AKFinance.with_date_range. cbn [rows].
  rewrite List.length_map, List.length_combine, date_range_length.
  unfold df_len. lia.
Qed.

(** X13. Whenever [_standardize_dataframe] returns for a non-empty frame,
    the result has a datetime index and as many rows as the frame it was
    given. *)
Theorem standardize_keeps_rows W now df0 exchange df :
  df_empty df0 = false ->
  AKFinance._standardize_dataframe W now (Some df0) exchange = Ok df ->
  index_kind df = DatetimeIndex /\ df_len df = df_len df0.
Proof.
  intros Hnonempty. unfold AKFinance._standardize_dataframe.
  rewrite Hnonempty.
  set (renamed := rename_columns _ df0).
  destruct (match AKFinance.find_date_column renamed with
            | Some date_column => datetime_index_from W date_column renamed
            | None => AKFinance.default_index now renamed
            end) as [mid|e] eqn:Hmid; cbn [bind]; [|discriminate].
  intros H.
  assert (df = fold_left AKFinance.ensure_column AKFinance.necessary_columns
                         mid) as -> by congruence.
  clear H.
  destruct (fold_ensure_column_frame AKFinance.necessary_columns mid)
    as [Hk Hi].
  rewrite Hk, df_len_index, Hi, <- df_len_index.
  destruct (AKFinance.find_date_column renamed) as [date_column|].
  - apply datetime_index_from_frame in Hmid. exact Hmid.
  - apply default_index_inv in Hmid as [_ ->]. split; [reflexivity|].
    rewrite with_date_range_len. reflexivity.
Qed.

Lemma standardize_keeps_rows_witness :
  exists df,
    AKFinance._standardize_dataframe Examples.world 0 (Some Examples.ak_hist)
                                     "SH" = Ok df
    /\ index_kind df = DatetimeIndex
    /\ df_len df = 2%nat.
Proof.
  eexists. split; [reflexivity|].
  exact (standardize_keeps_rows Examples.world 0 Examples.ak_hist "SH" _
           eq_refl eq_refl).
Defined.

Lemma date_range_ascending s k n :
  ascending
    (List.map (fun i => TS (s + Z.of_nat i * AKFinance.nanoseconds_per_day))
              (seq k n)).
Proof.
  unfold ascending. revert k. induction n as [|n IH]; intros k; simpl.
  - constructor.
  - constructor; [apply IH|].
    rewrite List.Forall_forall. intros t Ht.
    apply List.in_map_iff in Ht as [i [<- Hi]].
    apply List.in_seq in Hi. simpl.
    unfold AKFinance.nanoseconds_per_day. nia.
Qed.

Lemma default_index_overflow now df :
  AKFinance.max_timedelta_days < Z.of_nat (df_len df)
  \/ now - Z.of_nat (df_len df) * AKFinance.nanoseconds_per_day
     < AKFinance.datetime_min ->
  exists e,
    AKFinance.default_index now df = Raise e
    /\ exc_class e = "OverflowError".
Proof.
  unfold AKFinance.default_index. cbv zeta. intros H.
  destruct (AKFinance.max_timedelta_days <? Z.of_nat (df_len df)) eqn:Hn;
    [eexists; split; reflexivity|].
  apply Z.ltb_ge in Hn. destruct H as [H | H]; [lia|].
  apply Z.ltb_lt in H. rewrite H. eexists. split; reflexivity.
Qed.

(** X14. For a non-empty frame in which no date column is found: if the
    made-up index can be built (the number of rows fits a [timedelta] and
    the dates fall within pandas' timestamp range), the frame is returned
    with that index, one timestamp per row in daily steps, starting as many
    days before [datetime.now()] as the frame has rows, strictly ascending;
    the index the frame arrived with is overwritten, also when it was a
    datetime index.  If the frame has more rows than a [timedelta] has
    days, or so many that the start falls before [datetime.min], the call
    raises [OverflowError]. *)
Theorem standardize_without_date_column W now df0 exchange :
  df_empty df0 = false ->
  AKFinance.find_date_column
    (rename_columns (AKFinance.rename_with AKFinance._get_column_mapping) df0)
  = None ->
  (AKFinance.default_index_representable now (df_len df0) ->
   exists df,
     AKFinance._standardize_dataframe W now (Some df0) exchange = Ok df
     /\ df_times df
        = AKFinance.date_range
            (now - Z.of_nat (df_len df0) * AKFinance.nanoseconds_per_day)
            (df_len df0)
     /\ ascending (df_times df))
  /\ (AKFinance.max_timedelta_days < Z.of_nat (df_len df0)
      \/ now - Z.of_nat (df_len df0) * AKFinance.nanoseconds_per_day
         < AKFinance.datetime_min ->
      exists e,
        AKFinance._standardize_dataframe W now (Some df0) exchange = Raise e
        /\ exc_class e = "OverflowError").
Proof.
  intros Hnonempty Hnone.
  set (renamed :=
         rename_columns (AKFinance.rename_with AKFinance._get_column_mapping)
                        df0) in *.
  assert (df_len renamed = df_len df0) as Hlen by reflexivity.
  unfold AKFinance._standardize_dataframe. rewrite Hnonempty.
  fold renamed. rewrite Hnone. split.
  - intros Hrep. rewrite <- Hlen in Hrep.
    rewrite (default_index_Ok now renamed Hrep). cbn [bind].
    eexists. split; [reflexivity|].
    unfold df_times.
    rewrite (proj2 (fold_ensure_column_frame AKFinance.necessary_columns _)).
    fold (df_times (AKFinance.with_date_range
                      (now - Z.of_nat (df_len renamed)
                             * AKFinance.nanoseconds_per_day) renamed)).
    rewrite (proj2 (with_date_range_times _ renamed)), Hlen.
    split; [reflexivity | apply date_range_ascending].
  - intros Hover. rewrite <- Hlen in Hover.
    destruct (default_index_overflow now renamed Hover) as [e [-> Hclass]].
    cbn [bind]. exists e. split; [reflexivity | exact Hclass].
Qed.

(** Three rows, twenty days after the epoch: the index runs from day 17 to
    day 19. *)
Lemma standardize_without_date_column_witness :
  exists df,
    AKFinance._standardize_dataframe Examples.world
      (20 * AKFinance.nanoseconds_per_day)
      (Some (rename_columns CsvAdapter.canonical_name Examples.shuffled))
      "US" = Ok df
    /\ df_times df = [Examples.day 17; Examples.day 18; Examples.day 19]
    /\ ascending (df_times df).
Proof.
  apply (proj1 (standardize_without_date_column Examples.world
                  (20 * AKFinance.nanoseconds_per_day)
                  (rename_columns CsvAdapter.canonical_name Examples.shuffled)
                  "US" eq_refl eq_refl)).
  split; [|split]; vm_compute; discriminate.
Defined.

Lemma standardize_result_shape W now df0 exchange df :
  df_empty df0 = false ->
  AKFinance._standardize_dataframe W now (Some df0) exchange = Ok df ->
  exists mid,
    df = fold_left AKFinance.ensure_column AKFinance.necessary_columns mid
    /\ index_kind mid = DatetimeIndex.
Proof.
  intros Hnonempty. unfold AKFinance._standardize_dataframe.
  rewrite Hnonempty.
  destruct (match AKFinance.find_date_column _ with
            | Some date_column => _
            | None => _
            end) as [mid|e] eqn:Hmid; cbn [bind]; [|discriminate].
  intros H. exists mid. split; [congruence|].
  destruct (AKFinance.find_date_column _) as [date_column|].
  - apply datetime_index_from_frame in Hmid. apply Hmid.
  - apply default_index_inv in Hmid as [_ ->]. reflexivity.
Qed.

(** X15. [history] never raises.  It returns either the empty frame
    [pd.DataFrame()], leaving the object as it was, or a frame with a
    datetime index in which Open, High, Low, Close and Volume are all
    columns, and then that very frame is what the object remembers as
    [history_data]; the ticker is never changed. *)
Theorem history_result W now ak clock self start end_ period interval
        actions auto_adjust df self' :
  AKFinance.history W now ak clock self start end_ period interval
                    actions auto_adjust = (df, self') ->
  (df = pd_DataFrame /\ self' = self)
  \/ (index_kind df = DatetimeIndex
      /\ (forall col, List.In col AKFinance.necessary_columns ->
                      has_column col df = true)
      /\ AKFinance.history_data self' = Some df
      /\ AKFinance.ticker self' = AKFinance.ticker self).
Proof.
  unfold AKFinance.history. cbv zeta.
  set (exchange := if PyStr.contains "." (AKFinance.ticker self)
                   then PyStr.split_last "." (AKFinance.ticker self) else "").
  set (raw := AKFinance._get_market_data ak _ _ _ _ _ _).
  destruct (df_empty raw) eqn:Hempty; [intros [= <- <-]; left; auto|].
  destruct (AKFinance._standardize_dataframe W now (Some raw) exchange)
    as [out|e] eqn:Hstd; [|intros [= <- <-]; left; auto].
  intros [= <- <-]. right.
  destruct (standardize_result_shape W now raw exchange out Hempty Hstd)
    as [mid [-> Hkind]].
  split.
  { rewrite (proj1 (fold_ensure_column_frame AKFinance.necessary_columns
                      mid)).
    exact Hkind. }
  split; [|auto].
  intros col Hcol. apply (proj2 (has_column_In col _)).
  apply (proj2 (fold_ensure_column_In AKFinance.necessary_columns mid col)).
  right. exact Hcol.
Qed.

(** [AKFinance('600519').history(start='2024-01-01')] on a machine whose
    akshare answers, and the same for a symbol it fails on. *)
Lemma history_result_witness :
  AKFinance.ticker (AKFinance.init "600519") = "600519.SH"
  /\ (exists df self',
         AKFinance.history Examples.world 0 Examples.provider Examples.clock
           (AKFinance.init "600519")
           (Some (AKFinance.DateStr "2024-01-01")) None "1y" "1d" false true
         = (df, self')
         /\ columns df = ["Open"; "Close"; "High"; "Low"; "Volume"]
         /\ ((df = pd_DataFrame /\ self' = AKFinance.init "600519")
             \/ (index_kind df = DatetimeIndex
                 /\ (forall col, List.In col AKFinance.necessary_columns ->
                                 has_column col df = true)
                 /\ AKFinance.history_data self' = Some df
                 /\ AKFinance.ticker self' = "600519.SH")))
  /\ AKFinance.history Examples.world 0 Examples.provider Examples.clock
       (AKFinance.init "600000") None None "1y" "1d" false true
     = (pd_DataFrame, AKFinance.init "600000").
Proof.
  split; [reflexivity|]. split; [|reflexivity].
  do 2 eexists. split; [reflexivity|]. split; [reflexivity|].
  exact (history_result Examples.world 0 Examples.provider Examples.clock
           (AKFinance.init "600519")
           (Some (AKFinance.DateStr "2024-01-01")) None "1y" "1d" false true
           _ _ eq_refl).
Defined.

(* ===================================================================== *)
(** * Properties of the logging set-up *)
(* ===================================================================== *)

Lemma configure_configured LOG_DIR join open_file timestamp lvl root root' :
  Log.configure_root_logger LOG_DIR join open_file timestamp lvl root
  = (Ok tt, root') ->
  Log._feedbacktrader_configured root' = true.
Proof.
  unfold Log.configure_root_logger.
  destruct (Log._feedbacktrader_configured root) eqn:E.
  - intros [= <-]. exact E.
  - cbv zeta. destruct (open_file _); [discriminate|].
    intros [= <-]. reflexivity.
Qed.

Lemma get_logger_configured LOG_DIR join open_file timestamp name root :
  Log._feedbacktrader_configured root = true ->
  Log.get_logger LOG_DIR join open_file timestamp name root = (Ok name, root).
Proof.
  intros H. unfold Log.get_logger, Log.configure_root_logger.
  rewrite H. reflexivity.
Qed.

(** X16. Configuration happens once: after a call of
    [configure_root_logger] that did not raise, no later call of
    [get_logger] (hence of [configure_root_logger]) changes the root logger,
    whatever the time, the names asked for and the state of the disk; each
    of them returns its logger.  No second file handler is ever added. *)
Theorem configured_root_is_left_alone
        LOG_DIR join open_file timestamp lvl root root'
        LOG_DIR2 join2 open_file2 calls :
  Log.configure_root_logger LOG_DIR join open_file timestamp lvl root
  = (Ok tt, root') ->
  Log.get_loggers LOG_DIR2 join2 open_file2 calls root' = root'
  /\ forall timestamp2 name,
       Log.get_logger LOG_DIR2 join2 open_file2 timestamp2 name root'
       = (Ok name, root').
Proof.
  intros Hfirst. apply configure_configured in Hfirst. split.
  - unfold Log.get_loggers.
    induction calls as [|call calls IH]; [reflexivity|].
    cbn [fold_left]. rewrite get_logger_configured by exact Hfirst.
    exact IH.
  - intros timestamp2 name. apply get_logger_configured, Hfirst.
Qed.

Lemma configured_root_is_left_alone_witness :
  exists root',
    Log.configure_root_logger "/srv/logs" posix_join Examples.open_log
                              "20240201_093000" Log.INFO Examples.busy_root
    = (Ok tt, root')
    /\ List.length (Log.handlers root') = 2%nat
    /\ Log.get_loggers "/srv/logs" posix_join Examples.open_log
         [ ("20240201_093001", Some "src.data.adapters.csv_adapter");
           ("20230101_000000", None) ] root'
       = root'.
Proof.
  eexists. split; [reflexivity|]. split; [reflexivity|].
  exact (proj1 (configured_root_is_left_alone "/srv/logs" posix_join
                  Examples.open_log "20240201_093000" Log.INFO
                  Examples.busy_root _ "/srv/logs" posix_join
                  Examples.open_log
                  [ ("20240201_093001",
                     Some "src.data.adapters.csv_adapter");
                    ("20230101_000000", None) ]
                  eq_refl)).
Defined.

Lemma filter_stream_of_kept (l : list Log.Handler) :
  List.filter Log.is_stream
              (List.filter (fun h => negb (Log.is_stream h)) l) = []
  /\ List.filter (fun h => negb (Log.is_stream h))
                 (List.filter (fun h => negb (Log.is_stream h)) l)
     = List.filter (fun h => negb (Log.is_stream h)) l.
Proof.
  induction l as [|h l [IH1 IH2]]; [auto|]. simpl.
  destruct (Log.is_stream h) eqn:E; simpl; [auto|].
  rewrite E. simpl. rewrite IH1, IH2. auto.
Qed.

(** X17. A first configuration that succeeds leaves exactly one handler
    that is a [StreamHandler] instance on the root logger: the new file
    handler, for the time-stamped file under [LOG_DIR], at the requested
    level, added last.  Console handlers and file handlers that were there
    before are gone (a [FileHandler] is a [StreamHandler] too); every other
    handler is kept, in its order. *)
Theorem configure_leaves_one_stream_handler
        LOG_DIR join open_file timestamp lvl root root' :
  Log._feedbacktrader_configured root = false ->
  Log.configure_root_logger LOG_DIR join open_file timestamp lvl root
  = (Ok tt, root') ->
  List.filter Log.is_stream (Log.handlers root')
  = [Log.file_handler (Log._make_log_path LOG_DIR join timestamp) lvl]
  /\ List.filter (fun h => negb (Log.is_stream h)) (Log.handlers root')
     = List.filter (fun h => negb (Log.is_stream h)) (Log.handlers root)
  /\ List.last (Log.handlers root')
               (Log.file_handler "" 0)
     = Log.file_handler (Log._make_log_path LOG_DIR join timestamp) lvl
  /\ Log.level root' = lvl.
Proof.
  intros Hfresh. unfold Log.configure_root_logger. rewrite Hfresh. cbv zeta.
  destruct (open_file _); [discriminate|]. intros [= <-]. cbn [Log.handlers Log.level].
  destruct (filter_stream_of_kept (Log.handlers root)) as [H1 H2].
  rewrite !List.filter_app, H1, H2, List.last_last. simpl.
  rewrite List.app_nil_r. auto.
Qed.

Lemma configure_leaves_one_stream_handler_witness :
  exists root',
    Log.configure_root_logger "/srv/logs" posix_join Examples.open_log
                              "20240201_093000" Log.INFO Examples.busy_root
    = (Ok tt, root')
    /\ List.filter Log.is_stream (Log.handlers root')
       = [Log.file_handler "/srv/logs/run_20240201_093000.log" 20]
    /\ List.map Log.target (Log.handlers root')
       = ["null"; "/srv/logs/run_20240201_093000.log"].
Proof.
  eexists. split; [reflexivity|]. split; [|reflexivity].
  exact (proj1 (configure_leaves_one_stream_handler "/srv/logs" posix_join
                  Examples.open_log "20240201_093000" Log.INFO
                  Examples.busy_root _ eq_refl eq_refl)).
Defined.

(** X18. When the log file cannot be opened, [configure_root_logger] raises
    with the console handlers already removed and the flag not set, so the
    next call tries again; if that one succeeds, the root logger ends up
    with the handlers it would have had without the failed attempt. *)
Theorem failed_configuration_is_retried
        LOG_DIR join open_file timestamp lvl root e timestamp2 lvl2 :
  Log._feedbacktrader_configured root = false ->
  open_file (Log._make_log_path LOG_DIR join timestamp) = Some e ->
  open_file (Log._make_log_path LOG_DIR join timestamp2) = None ->
  exists failed,
    Log.configure_root_logger LOG_DIR join open_file timestamp lvl root
    = (Raise e, failed)
    /\ List.filter Log.is_stream (Log.handlers failed) = []
    /\ Log._feedbacktrader_configured failed = false
    /\ Log.configure_root_logger LOG_DIR join open_file timestamp2 lvl2 failed
       = Log.configure_root_logger LOG_DIR join open_file timestamp2 lvl2 root.
Proof.
  intros Hfresh Hfail Hopen. unfold Log.configure_root_logger.
  rewrite Hfresh. cbv zeta. rewrite Hfail, Hopen. eexists.
  split; [reflexivity|]. cbn.
  destruct (filter_stream_of_kept (Log.handlers root)) as [H1 H2].
  rewrite H1, H2. auto.
Qed.

Lemma failed_configuration_is_retried_witness :
  exists failed,
    Log.configure_root_logger "/srv/logs" posix_join Examples.open_log
                              "20231231_235959" Log.INFO Examples.busy_root
    = (Raise {| exc_class := "PermissionError";
                exc_str := "/srv/logs/run_20231231_235959.log" |}, failed)
    /\ List.filter Log.is_stream (Log.handlers failed) = []
    /\ Log._feedbacktrader_configured failed = false
    /\ Log.configure_root_logger "/srv/logs" posix_join Examples.open_log
                                 "20240101_000001" Log.INFO failed
       = Log.configure_root_logger "/srv/logs" posix_join Examples.open_log
                                   "20240101_000001" Log.INFO
                                   Examples.busy_root.
Proof.
  exact (failed_configuration_is_retried "/srv/logs" posix_join
           Examples.open_log "20231231_235959" Log.INFO Examples.busy_root
           _ "20240101_000001" Log.INFO eq_refl eq_refl eq_refl).
Defined.
